(** * NFCS 2012 pipeline: the Recoder ([clean_data.py]) and the
      Aggregator/Reporter ([analysis.py]), embedded and verified.

    The two scripts work on a pandas DataFrame.  A frame is modelled as the
    list of its columns in order, a column as a label and the list of its
    cells.  A cell is missing ([NaN]), a whole number or a text, which is
    what the survey export and the cleaned file hold; a numeric age read
    from a cell is a rational.  Python dictionaries are association lists in
    insertion order with distinct keys.  Arithmetic that pandas carries out
    in binary floating point (means, variances) is carried out exactly,
    over [Q] and [R].  [pd.read_csv] makes the labels of a frame distinct;
    the statements about the recoder assume that they stay distinct once
    the headers are normalised, which is when the script does not raise. *)

From Stdlib Require Import ZArith QArith String Ascii List Bool Lia Sorted.
From Stdlib Require Import DecimalString DecimalZ.
From Stdlib Require Import Reals Qreals Lra Lqa.
Import ListNotations.

Local Open Scope string_scope.
Local Open Scope Z_scope.

(** ** Cells and series *)

(** One cell of a frame.  [Int] stands for a whole number whether pandas
    holds it as [int64] or as [float64]: dictionary lookup and [==] treat
    [98] and [98.0] alike. *)
Inductive cell : Type :=
| NaN : cell
| Int : Z -> cell
| Str : string -> cell.

Definition series : Type := list cell.

Definition isna (c : cell) : bool :=
  match c with NaN => true | _ => false end.

Definition notna (c : cell) : bool := negb (isna c).

(** Python's [==] on two cells: a number never equals a text, and [NaN]
    equals nothing, itself included. *)
Definition cell_eqb (a b : cell) : bool :=
  match a, b with
  | Int x, Int y => Z.eqb x y
  | Str s, Str t => String.eqb s t
  | _, _ => false
  end.

(** [str(k)] for an integer [k]. *)
Definition py_str (k : Z) : string := NilZero.string_of_int (Z.to_int k).

(** [str(c)] for a cell. *)
Definition cell_str (c : cell) : string :=
  match c with
  | NaN => "nan"
  | Int z => py_str z
  | Str s => s
  end.

(** ** Python dictionaries *)

(** Keys with a decidable equality ([__eq__] on hashable values). *)
Class Key (K : Type) : Type := {
  keyb : K -> K -> bool;
  keyb_eq : forall a b, keyb a b = true <-> a = b
}.

#[export] Instance Key_Z : Key Z := {| keyb := Z.eqb; keyb_eq := Z.eqb_eq |}.

#[export] Instance Key_string : Key string :=
  {| keyb := String.eqb; keyb_eq := String.eqb_eq |}.

(** The keys of the mixed dictionary of [apply_map_safe]: integers and
    texts.  [NaN] is never a key. *)
Inductive pykey : Type :=
| KInt : Z -> pykey
| KStr : string -> pykey.

Definition pykey_eqb (a b : pykey) : bool :=
  match a, b with
  | KInt x, KInt y => Z.eqb x y
  | KStr s, KStr t => String.eqb s t
  | _, _ => false
  end.

Lemma pykey_eqb_eq (a b : pykey) : pykey_eqb a b = true <-> a = b.
Proof.
  destruct a as [x|s], b as [y|t]; simpl.
  - rewrite Z.eqb_eq. split; congruence.
  - split; discriminate.
  - split; discriminate.
  - rewrite String.eqb_eq. split; congruence.
Qed.

#[export] Instance Key_pykey : Key pykey :=
  {| keyb := pykey_eqb; keyb_eq := pykey_eqb_eq |}.

Section Dict.
Context {K V : Type} `{Key K}.

Definition dict : Type := list (K * V).

(** [d.get(k)] *)
Fixpoint dict_get (k : K) (d : dict) : option V :=
  match d with
  | [] => None
  | (k', v) :: d' => if keyb k k' then Some v else dict_get k d'
  end.

(** [d[k] = v]: an existing key keeps its place and takes the new value,
    a new key goes to the end. *)
Fixpoint dict_set (k : K) (v : V) (d : dict) : dict :=
  match d with
  | [] => [(k, v)]
  | (k', v') :: d' =>
      if keyb k k' then (k', v) :: d' else (k', v') :: dict_set k v d'
  end.

(** A dictionary display [{k1: v1, ..., **d, ...}], items read left to
    right. *)
Definition dict_lit (items : list (K * V)) : dict :=
  fold_left (fun d kv => dict_set (fst kv) (snd kv) d) items [].

Definition dict_keys (d : dict) : list K := map fst d.
Definition dict_values (d : dict) : list V := map snd d.

Definition dict_has (k : K) (d : dict) : bool :=
  match dict_get k d with Some _ => true | None => false end.
End Dict.

Arguments dict : clear implicits.

(** ** The code maps of [clean_data.py] *)

Definition code_map : Type := dict Z string.

Definition DK_REF : code_map :=
  dict_lit [(98, "Don't know"); (99, "Prefer not to say")].

Definition YES_NO : code_map := dict_lit ([(1, "Yes"); (2, "No")] ++ DK_REF).

Definition FREQ_1_3 : code_map :=
  dict_lit ([(1, "Frequently"); (2, "Sometimes"); (3, "Never")] ++ DK_REF).

Definition AGREE_1_7 : code_map :=
  dict_lit ([(1, "Strongly disagree"); (2, ""); (3, ""); (4, "Neither");
             (5, ""); (6, ""); (7, "Strongly agree")] ++ DK_REF).

Definition SCALE_1_7_KNOW : code_map :=
  dict_lit ([(1, "Very low"); (2, ""); (3, ""); (4, ""); (5, ""); (6, "");
             (7, "Very high")] ++ DK_REF).

(** [range(1, 11)] *)
Definition range_1_11 : list Z := [1; 2; 3; 4; 5; 6; 7; 8; 9; 10].

Definition SCALE_1_10 : code_map :=
  dict_lit (dict_lit (map (fun i => (i, py_str i)) range_1_11) ++ DK_REF).

Definition TRUE_FALSE : code_map :=
  dict_lit ([(1, "True"); (2, "False")] ++ DK_REF).

Definition A3_gender : code_map := dict_lit [(1, "Male"); (2, "Female")].

Definition A5_edu : code_map :=
  dict_lit [(1, "Did not complete high school"); (2, "High school diploma");
            (3, "GED/alternative credential"); (4, "Some college");
            (5, "College graduate"); (6, "Post graduate");
            (99, "Prefer not to say")].

Definition A6_marital : code_map :=
  dict_lit [(1, "Married"); (2, "Single"); (3, "Separated"); (4, "Divorced");
            (5, "Widowed"); (99, "Prefer not to say")].

Definition A7_living : code_map :=
  dict_lit [(1, "Only adult in household"); (2, "Live with spouse/partner");
            (3, "Live in parents' home");
            (4, "Live with other family/friends/roommates");
            (99, "Prefer not to say")].

Definition A11_children : code_map :=
  dict_lit [(1, "1"); (2, "2"); (3, "3"); (4, "4 or more");
            (5, "No financially dependent children"); (6, "No children");
            (99, "Prefer not to say")].

Definition A8_income : code_map :=
  dict_lit ([(1, "< $15,000"); (2, "$15k–$24,999"); (3, "$25k–$34,999");
             (4, "$35k–$49,999"); (5, "$50k–$74,999"); (6, "$75k–$99,999");
             (7, "$100k–$149,999"); (8, "$150k+")] ++ DK_REF).

Definition AM21_22_service : code_map :=
  dict_lit [(1, "Currently member"); (2, "Previously member");
            (3, "Never member"); (99, "Prefer not to say")].

Definition A9_work : code_map :=
  dict_lit [(1, "Self-employed"); (2, "Employed full-time");
            (3, "Employed part-time"); (4, "Homemaker");
            (5, "Full-time student"); (6, "Unable to work");
            (7, "Unemployed/laid off"); (8, "Retired");
            (99, "Prefer not to say")].

Definition E4a_buy_year : code_map :=
  dict_lit ([(1, "1999 or earlier"); (2, "2000"); (3, "2001"); (4, "2002");
             (5, "2003"); (6, "2004"); (7, "2005"); (8, "2006"); (9, "2007");
             (10, "2008"); (11, "2009"); (12, "2010"); (13, "2011");
             (14, "2012"); (97, "Did not purchase")] ++ DK_REF).

Definition F1_cc_num : code_map :=
  dict_lit ([(1, "1"); (2, "2–3"); (3, "4–8"); (4, "9–12"); (5, "13–20");
             (6, ">20"); (7, "No credit cards")] ++ DK_REF).

Definition G25_freq : code_map :=
  dict_lit ([(1, "Never"); (2, "1 time"); (3, "2 times"); (4, "3 times");
             (5, "4+ times")] ++ DK_REF).

Definition M6_interest : code_map :=
  dict_lit ([(1, "More than $102"); (2, "Exactly $102");
             (3, "Less than $102")] ++ DK_REF).

Definition M7_inflation : code_map :=
  dict_lit ([(1, "More than today"); (2, "Exactly the same");
             (3, "Less than today")] ++ DK_REF).

Definition M8_bonds : code_map :=
  dict_lit ([(1, "Rise"); (2, "Fall"); (3, "Same"); (4, "No relationship")]
            ++ DK_REF).

(** The registry of exact column names, in the order of the source. *)
Definition COLUMN_MAPS : dict string code_map :=
  dict_lit [("A3", A3_gender); ("A5", A5_edu); ("A6", A6_marital);
            ("A7", A7_living); ("A11", A11_children); ("A8", A8_income);
            ("AM21", AM21_22_service); ("AM22", AM21_22_service);
            ("A9", A9_work);
            ("E4a", E4a_buy_year);
            ("F1", F1_cc_num);
            ("M6", M6_interest); ("M7", M7_inflation); ("M8", M8_bonds);
            ("M9", TRUE_FALSE); ("M10", TRUE_FALSE);
            ("G23", AGREE_1_7);
            ("J1", SCALE_1_10); ("J2", SCALE_1_10); ("M4", SCALE_1_7_KNOW)].

Definition PREFIX_MAPS : dict string code_map :=
  dict_lit [("B20_", YES_NO); ("B22_", FREQ_1_3); ("K_", YES_NO);
            ("D20_", YES_NO); ("F2_", YES_NO); ("G25_", G25_freq);
            ("M21_", YES_NO); ("M1_", AGREE_1_7)].

(** ** Series operations *)

(** The dictionary key a cell is looked up under; a missing cell has none. *)
Definition key_of_cell (c : cell) : option pykey :=
  match c with
  | NaN => None
  | Int z => Some (KInt z)
  | Str s => Some (KStr s)
  end.

(** [s.map(d)] for a dictionary [d]: the label of a cell that is a key of
    [d], [NaN] for every other cell. *)
Definition Series_map (d : dict pykey string) (s : series) : series :=
  map (fun c =>
         match key_of_cell c with
         | Some k => match dict_get k d with Some l => Str l | None => NaN end
         | None => NaN
         end) s.

(** [s.fillna(other)]: a missing cell takes the cell of [other] in the same
    row. *)
Definition fillna (s other : series) : series :=
  map (fun p => if isna (fst p) then snd p else fst p) (combine s other).

(** [s.replace(d)]: a cell that is a key of [d] becomes its value, every
    other cell stays. *)
Definition Series_replace (d : dict pykey string) (s : series) : series :=
  map (fun c =>
         match key_of_cell c with
         | Some k => match dict_get k d with Some l => Str l | None => c end
         | None => c
         end) s.

(** [{**m, **{str(k): v for k, v in m.items()}}] *)
Definition mixed (m : code_map) : dict pykey string :=
  dict_lit (map (fun kv => (KInt (fst kv), snd kv)) m
            ++ dict_lit (map (fun kv => (KStr (py_str (fst kv)), snd kv)) m)).

Definition apply_map_safe (s : series) (m : code_map) : series :=
  fillna (Series_map (mixed m) s) s.

(** ** Frames *)

Definition DataFrame : Type := list (string * series).

Definition columns (df : DataFrame) : list string := map fst df.

(** [col in df.columns] *)
Definition has_column (col : string) (df : DataFrame) : bool :=
  existsb (String.eqb col) (columns df).

(** [df[col]]; [None] stands for [KeyError]. *)
Definition df_get (col : string) (df : DataFrame) : option series :=
  dict_get col df.

(** [df[col] = f(df[col])] for a column of the frame. *)
Definition df_update (col : string) (f : series -> series) (df : DataFrame)
  : DataFrame :=
  map (fun ns => if String.eqb (fst ns) col then (fst ns, f (snd ns)) else ns)
      df.

(** [df.rename(columns={k: v for k, v in table.items() if k in df.columns})] *)
Definition rename_columns (table : dict string string) (df : DataFrame)
  : DataFrame :=
  let present := filter (fun kv => has_column (fst kv) df) table in
  map (fun ns =>
         match dict_get (fst ns) present with
         | Some v => (v, snd ns)
         | None => ns
         end) df.

(** ** The steps of [clean_data.py] *)

(** A text is held as the bytes of its UTF-8 encoding, which is how a
    string literal of this file holds it.  The whitespace characters of a
    Python [str], those [str.isspace] accepts and that [str.strip] and the
    class [\s] of a [str] pattern match, are the code points 9 to 13, 28 to
    32, U+0085, U+00A0, U+1680, U+2000 to U+200A, U+2028, U+2029, U+202F,
    U+205F and U+3000.  The first group is one byte each. *)
Definition ascii_space (a : ascii) : bool :=
  let n := nat_of_ascii a in
  ((9 <=? n) && (n <=? 13) || (28 <=? n) && (n <=? 32))%nat.

(** U+0085 and U+00A0: the bytes C2 85 and C2 A0. *)
Definition space2 (a b : ascii) : bool :=
  let m := nat_of_ascii b in
  ((nat_of_ascii a =? 194) && ((m =? 133) || (m =? 160)))%nat.

(** U+1680 (E1 9A 80), U+2000 to U+200A (E2 80 80 to E2 80 8A), U+2028,
    U+2029, U+202F (E2 80 A8, A9, AF), U+205F (E2 81 9F) and U+3000
    (E3 80 80). *)
Definition space3 (a b c : ascii) : bool :=
  let l := nat_of_ascii a in
  let m := nat_of_ascii b in
  let n := nat_of_ascii c in
  ((l =? 225) && (m =? 154) && (n =? 128)
   || (l =? 226) && (m =? 128)
      && ((128 <=? n) && (n <=? 138) || (n =? 168) || (n =? 169) || (n =? 175))
   || (l =? 226) && (m =? 129) && (n =? 159)
   || (l =? 227) && (m =? 128) && (n =? 128))%nat.

(** The pattern [^\s*$]: the text is made of whitespace characters only. *)
Fixpoint all_space (s : string) : bool :=
  match s with
  | EmptyString => true
  | String a s1 =>
      if ascii_space a then all_space s1
      else match s1 with
           | String b s2 =>
               if space2 a b then all_space s2
               else match s2 with
                    | String c s3 => space3 a b c && all_space s3
                    | EmptyString => false
                    end
           | EmptyString => false
           end
  end.

(** The text without its whitespace characters. *)
Fixpoint remove_space (s : string) : string :=
  match s with
  | EmptyString => EmptyString
  | String a s1 =>
      if ascii_space a then remove_space s1
      else match s1 with
           | String b s2 =>
               if space2 a b then remove_space s2
               else match s2 with
                    | String c s3 =>
                        if space3 a b c then remove_space s3
                        else String a (remove_space s1)
                    | EmptyString => String a (remove_space s1)
                    end
           | EmptyString => String a (remove_space s1)
           end
  end.

(** [df.replace(r"^\s*$", np.nan, regex=True)] *)
Definition blank_to_nan (c : cell) : cell :=
  match c with
  | Str s => if all_space s then NaN else c
  | _ => c
  end.

Definition normalize_blanks (df : DataFrame) : DataFrame :=
  map (fun ns => (fst ns, map blank_to_nan (snd ns))) df.

(** [df.columns.str.strip().str.replace(r"\s+", "", regex=True)] *)
Definition normalize_name (n : string) : string := remove_space n.

Definition normalize_columns (df : DataFrame) : DataFrame :=
  map (fun ns => (normalize_name (fst ns), snd ns)) df.

Definition pre_rename : dict string string :=
  dict_lit [("A5_2012", "A5");
            ("C1_2012", "C1"); ("C2_2012", "C2"); ("C3_2012", "C3");
            ("C4_2012", "C4"); ("C5_2012", "C5"); ("C10_2012", "C10");
            ("C11_2012", "C11");
            ("E5_2012", "E5");
            ("EA_1", "Ea_1");
            ("EA_2A", "Ea_2a");
            ("E4A", "E4a")].

(** The loop over [COLUMN_MAPS.items()].  [df[col]] is a series when one
    column carries the label, and then the assignment rewrites that column.
    When two columns carry a governed label (headers that collide once the
    whitespace is removed or after [pre_rename]), [df[col]] is a frame and
    [apply_map_safe] raises [TypeError]: the script stops there.  The steps
    below describe the script on frames whose labels are distinct, and the
    statements about them say so. *)
Definition apply_column_map (df : DataFrame) (entry : string * code_map)
  : DataFrame :=
  let (col, mapping) := entry in
  if has_column col df
  then df_update col (fun s => apply_map_safe s mapping) df
  else df.

Definition apply_column_maps (df : DataFrame) : DataFrame :=
  fold_left apply_column_map COLUMN_MAPS df.

(** The loop over [PREFIX_MAPS.items()], with its inner loop over the
    columns that start with the prefix. *)
Definition apply_prefix_map (df : DataFrame) (entry : string * code_map)
  : DataFrame :=
  let (prefix, mapping) := entry in
  fold_left (fun df col => df_update col (fun s => apply_map_safe s mapping) df)
            (filter (String.prefix prefix) (columns df)) df.

Definition apply_prefix_maps (df : DataFrame) : DataFrame :=
  fold_left apply_prefix_map PREFIX_MAPS df.

(** The special cases E5 and A3a. *)
Definition E5_numbers : dict pykey string :=
  dict_lit [(KInt (-98), "Don't know"); (KInt (-99), "Prefer not to say")].

Definition E5_texts : dict pykey string :=
  dict_lit [(KStr "-98", "Don't know"); (KStr "-99", "Prefer not to say")].

Definition A3a_codes : dict pykey string :=
  dict_lit [(KInt 999, "Prefer not to say"); (KStr "999", "Prefer not to say")].

Definition apply_special_cases (df : DataFrame) : DataFrame :=
  let df :=
    if has_column "E5" df
    then df_update "E5"
           (fun s => Series_replace E5_texts (Series_replace E5_numbers s)) df
    else df in
  if has_column "A3a" df
  then df_update "A3a" (Series_replace A3a_codes) df
  else df.

(** Section 5 of the script: exact columns, then prefixes, then the special
    cases. *)
Definition apply_mappings (df : DataFrame) : DataFrame :=
  apply_special_cases (apply_prefix_maps (apply_column_maps df)).

(** [df.dropna(axis=1, how="all")] *)
Definition dropna_columns (df : DataFrame) : DataFrame :=
  filter (fun ns => existsb notna (snd ns)) df.

Definition friendly_names : dict string string :=
  dict_lit [("NFCSID", "Respondent_ID"); ("STATEQ", "State");
            ("CENSUSDIV", "Census_Division"); ("CENSUSREG", "Census_Region");
            ("A3", "Gender"); ("A3a", "Age"); ("A3Ar_w", "Age_Category_Code");
            ("A5", "Education"); ("A6", "Marital_Status");
            ("A7", "Living_Arrangement"); ("A8", "Household_Income");
            ("AM21", "Military_Service_Self"); ("AM22", "Military_Service_HH");
            ("A9", "Employment_Status");
            ("wgt_n2", "Weight_N"); ("wgt_d2", "Weight_D");
            ("wgt_s3", "Weight_S");
            ("M6", "Q_Interest"); ("M7", "Q_Inflation"); ("M8", "Q_Bonds");
            ("M9", "Q_Risk"); ("M10", "Q_Mortgage")].

(** The whole script, from the frame [pd.read_csv] returns to the frame
    [to_csv] writes. *)
Definition clean_data (raw : DataFrame) : DataFrame :=
  let df := normalize_blanks raw in
  let df := normalize_columns df in
  let df := rename_columns pre_rename df in
  let df := apply_mappings df in
  let df := dropna_columns df in
  rename_columns friendly_names df.

(** The two halves of the mixed dictionary: the keys as integers and the
    keys as texts. *)
Definition int_items (m : code_map) : dict pykey string :=
  map (fun kv => (KInt (fst kv), snd kv)) m.

Definition str_items (m : code_map) : dict pykey string :=
  map (fun kv => (KStr (py_str (fst kv)), snd kv)) m.

(** * The Aggregator/Reporter: [analysis.py] *)

(** ** Frames of the analysis *)

(** The number of rows: the length of the index. *)
Definition nrows (df : DataFrame) : nat :=
  match df with
  | [] => 0%nat
  | (_, s) :: _ => length s
  end.

(** The cell of a column in row [i]. *)
Definition cell_at (s : series) (i : nat) : cell := nth i s NaN.

(** [df[col] = s]: an existing column is replaced, a new one is appended. *)
Definition df_setitem (col : string) (s : series) (df : DataFrame)
  : DataFrame :=
  if has_column col df then df_update col (fun _ => s) df
  else (df ++ [(col, s)])%list.

(** The frame of the script together with the columns that hold a
    categorical dtype and their categories ([pd.cut] makes one). *)
Record frame_state : Type := {
  frame : DataFrame;
  categories : dict string (list string)
}.

(** ** One row of a summary table *)

(** [row_n], [row_mean] are the columns [n] and [mean]; [row_var] is the
    square of the column [std] (the sample variance), which stays in [Q];
    [row_std] and [row_se] below read [std] and [se] off it in [R]. *)
Record summary_row : Type := {
  row_key : list cell;
  row_n : Z;
  row_mean : option Q;
  row_var : option Q
}.

Definition row_std (r : summary_row) : option R :=
  option_map (fun v => sqrt (Q2R v)) (row_var r).

(** [g["se"] = g["std"] / np.sqrt(g["n"].clip(lower=1))] *)
Definition row_se (r : summary_row) : option R :=
  option_map (fun sd => (sd / sqrt (IZR (Z.max (row_n r) 1)))%R) (row_std r).

(** ** The script as a computation that prints, saves and may raise *)

Inductive error : Type :=
| KeyError : string -> error
| ValueError : string -> error
| TypeError : string -> error.

Inductive event : Type :=
| Printed : string -> list summary_row -> event
| Saved : string -> event
| Message : string -> event.

Inductive result (A : Type) : Type :=
| Ok : A -> list event -> result A
| Raised : error -> list event -> result A.

Arguments Ok {A} _ _.
Arguments Raised {A} _ _.

(** A step takes the output so far and gives a value and the output after
    it, or raises and leaves the output it reached. *)
Definition script (A : Type) : Type := list event -> result A.

Definition ret {A : Type} (a : A) : script A := fun out => Ok a out.

Definition bind {A B : Type} (m : script A) (f : A -> script B) : script B :=
  fun out =>
    match m out with
    | Ok a out' => f a out'
    | Raised e out' => Raised e out'
    end.

Definition raise {A : Type} (e : error) : script A := fun out => Raised e out.

Definition emit (ev : event) : script unit :=
  fun out => Ok tt (out ++ [ev])%list.

Declare Scope script_scope.
Delimit Scope script_scope with script.
Notation "x <- m ;; k" := (bind m (fun x => k))
  (at level 61, m at next level, right associativity) : script_scope.
Notation "m ;; k" := (bind m (fun _ => k))
  (at level 61, right associativity) : script_scope.

(** [df[col]] inside the script. *)
Definition getitem (col : string) (df : DataFrame) : script series :=
  match df_get col df with
  | Some s => ret s
  | None => raise (KeyError col)
  end.

(** ** Section 2: the literacy score *)

Definition LITERACY_COLS : list string :=
  ["Q_Interest"; "Q_Inflation"; "Q_Bonds"; "Q_Risk"; "Q_Mortgage"].

Definition correct_answers : dict string string :=
  dict_lit [("Q_Interest", "More than $102");
            ("Q_Inflation", "More than today");
            ("Q_Bonds", "Fall");
            ("Q_Risk", "True");
            ("Q_Mortgage", "False")].

(** [(s == key).astype(int)] *)
Definition is_correct (key : string) (c : cell) : Z :=
  if cell_eqb c (Str key) then 1 else 0.

Definition score_column (key : string) (s : series) : series :=
  map (fun c => Int (is_correct key c)) s.

(** The number a cell of a numeric column holds. *)
Definition int_value (c : cell) : Z :=
  match c with Int z => z | _ => 0 end.

(** [df[cols].sum(axis=1)]: one sum per row of the frame. *)
Definition sum_axis1 (cols : list series) (rows : nat) : series :=
  map (fun i => Int (fold_right (fun s acc => int_value (cell_at s i) + acc)
                                0 cols))
      (seq 0 rows).

(** The loop [for col in LITERACY_COLS], one turn. *)
Definition score_step (df : DataFrame) (col : string) : script DataFrame :=
  (s <- getitem col df ;;
   match dict_get col correct_answers with
   | Some key => ret (df_setitem (col ++ "_score") (score_column key s) df)
   | None => raise (KeyError col)
   end)%script.

Fixpoint for_each {A B : Type} (f : A -> B -> script A) (l : list B) (a : A)
  : script A :=
  match l with
  | [] => ret a
  | b :: l' => (a' <- f a b ;; for_each f l' a')%script
  end.

Fixpoint get_all (cols : list string) (df : DataFrame) : script (list series) :=
  match cols with
  | [] => ret []
  | c :: cols' =>
      (s <- getitem c df ;; ss <- get_all cols' df ;; ret (s :: ss))%script
  end.

Definition build_literacy (df : DataFrame) : script DataFrame :=
  (df <- for_each score_step LITERACY_COLS df ;;
   scores <- get_all (map (fun c => c ++ "_score") LITERACY_COLS) df ;;
   ret (df_setitem "literacy_score" (sum_axis1 scores (nrows df)) df))%script.

(** ** Section 3: age groups *)

Definition bins : list Z := [17; 24; 34; 44; 54; 64; 120].

Definition labels : list string :=
  ["18-24"; "25-34"; "35-44"; "45-54"; "55-64"; "65+"].

(** [pd.cut(x, bins=edges, labels=names, right=True)] on one value, as
    pandas computes it: the number of edges strictly below the value
    ([searchsorted], side left) picks the label; a missing value, a value
    with no edge below it and a value above every edge have no bucket. *)
Definition cut (edges : list Z) (names : list string) (x : option Q)
  : option string :=
  match x with
  | None => None
  | Some q =>
      let ids := length (filter (fun b => negb (Qle_bool q (inject_Z b))) edges) in
      if (ids =? 0)%nat || (ids =? length edges)%nat then None
      else nth_error names (ids - 1)
  end.

(** The bucket of a numeric age ([None] is [NaN]). *)
Definition Age_group (age_numeric : option Q) : option string :=
  cut bins labels age_numeric.

Definition cell_of_label (l : option string) : cell :=
  match l with Some s => Str s | None => NaN end.

Definition code_to_label : code_map :=
  dict_lit [(1, "18-24"); (2, "25-34"); (3, "35-44"); (4, "45-54");
            (5, "55-64"); (6, "65+")].

Section Analysis.

(** The reader of numbers written as text that [pd.to_numeric] uses; [None]
    when the text is not a number. *)
Variable parse_number : string -> option Q.

(** The default of [groupby]'s flag [observed] in the installed pandas
    ([False] before pandas 3). *)
Variable observed : bool.

(** [pd.to_numeric(s, errors="coerce")] on one cell. *)
Definition to_numeric (c : cell) : option Q :=
  match c with
  | NaN => None
  | Int z => Some (inject_Z z)
  | Str s => parse_number s
  end.

(** Section 3 of the script.  The helper column [Age_numeric] holds
    numbers that need not be whole; nothing reads it afterwards and the
    frame of the model does not keep it. *)
Definition build_age_group (df : DataFrame) : frame_state :=
  match df_get "Age" df with
  | Some age =>
      {| frame :=
           df_setitem "Age_group"
             (map (fun c => cell_of_label (Age_group (to_numeric c))) age) df;
         categories := dict_lit [("Age_group", labels)] |}
  | None =>
      match df_get "Age_Category_Code" df with
      | Some code =>
          {| frame :=
               df_setitem "Age_group"
                 (fillna (Series_map (int_items code_to_label) code) code) df;
             categories := [] |}
      | None => {| frame := df; categories := [] |}
      end
  end.

(** ** Section 4: [summarize] *)

(** The group key of row [i]: its cells in the grouping columns. *)
Definition key_at (cols : list series) (i : nat) : list cell :=
  map (fun s => cell_at s i) cols.

Fixpoint key_eqb (a b : list cell) : bool :=
  match a, b with
  | [], [] => true
  | x :: a', y :: b' => cell_eqb x y && key_eqb a' b'
  | _, _ => false
  end.

(** [groupby] leaves out a row whose key has a missing cell. *)
Definition key_missing (k : list cell) : bool := existsb isna k.

(** The keys of a list, each once, in order of first appearance. *)
Fixpoint uniq (ks : list (list cell)) : list (list cell) :=
  match ks with
  | [] => []
  | k :: ks' => k :: filter (fun k' => negb (key_eqb k k')) (uniq ks')
  end.

(** The order [groupby] lists the values of a column in when the column is
    not categorical: numbers ascending, then texts in the order of their
    code points, which is the order of their bytes. *)
Definition cell_leb (a b : cell) : bool :=
  match a, b with
  | Int x, Int y => x <=? y
  | Int _, _ => true
  | Str _, Int _ => false
  | Str s, Str t => String.leb s t
  | Str _, NaN => true
  | NaN, NaN => true
  | NaN, _ => false
  end.

Fixpoint insert (c : cell) (l : list cell) : list cell :=
  match l with
  | [] => [c]
  | x :: l' => if cell_leb c x then c :: l else x :: insert c l'
  end.

Definition sort_cells (l : list cell) : list cell := fold_right insert [] l.

(** The levels of one grouping column: the categories of a categorical
    column in their order, the values present in any other, sorted. *)
Definition levels (cats : dict string (list string)) (rows : nat)
           (name : string) (col : series) : list cell :=
  match dict_get name cats with
  | Some names => map Str names
  | None =>
      sort_cells
        (map (fun k => hd NaN k)
             (uniq (filter (fun k => negb (key_missing k))
                           (map (fun i => [cell_at col i]) (seq 0 rows)))))
  end.

Fixpoint product (ls : list (list cell)) : list (list cell) :=
  match ls with
  | [] => [[]]
  | l :: ls' => flat_map (fun x => map (cons x) (product ls')) l
  end.

(** The keys of the result, in the order of the result's rows: the
    combinations of the columns' levels, the first column varying slowest.
    When a grouping column is categorical and [observed] is off every
    combination has a row; otherwise only the combinations that are the key
    of some row of the frame. *)
Definition group_keys (cats : dict string (list string)) (rows : nat)
           (names : list string) (cols : list series) : list (list cell) :=
  let all := product (map (fun nc => levels cats rows (fst nc) (snd nc))
                          (combine names cols)) in
  if observed || negb (existsb (fun c => dict_has c cats) names)
  then filter (fun k => existsb (fun i => key_eqb (key_at cols i) k)
                                (seq 0 rows)) all
  else all.

Definition is_number (c : cell) : bool :=
  match c with Int _ => true | _ => false end.

Definition is_text (c : cell) : bool :=
  match c with Str _ => true | _ => false end.

(** A column that holds numbers and texts side by side. *)
Definition mixes (s : series) : bool :=
  existsb is_number s && existsb is_text s.

(** The first grouping column whose values cannot be put in order.  With a
    categorical grouping column and [observed] off, pandas lays the result
    out over every combination of the levels and sorts that index; the
    values of a column that mixes numbers and texts cannot be compared with
    each other there and the call raises [TypeError].  Grouping by the
    values present sorts numbers before texts and does not raise. *)
Definition unsortable (cats : dict string (list string))
           (names : list string) (cols : list series) : option string :=
  if observed || negb (existsb (fun c => dict_has c cats) names) then None
  else option_map fst
         (find (fun nc => negb (dict_has (fst nc) cats) && mixes (snd nc))
               (combine names cols)).

(** The rows of the frame in the group of key [k]. *)
Definition members (cols : list series) (rows : nat) (k : list cell)
  : list nat :=
  filter (fun i => key_eqb (key_at cols i) k) (seq 0 rows).

(** The values [count], [mean] and [std] aggregate: the scores of the
    group's rows that are not missing. *)
Definition group_values (scores : series) (idx : list nat) : list Z :=
  map int_value (filter notna (map (cell_at scores) idx)).

Definition Zsum (l : list Z) : Z := fold_right Z.add 0 l.

Definition Qsum (l : list Q) : Q := fold_right Qplus 0%Q l.

Definition mean_of (vals : list Z) : Q :=
  (inject_Z (Zsum vals) / inject_Z (Z.of_nat (length vals)))%Q.

(** The sum of squared deviations from the mean. *)
Definition sq_dev (vals : list Z) : Q :=
  Qsum (map (fun x => (inject_Z x - mean_of vals) * (inject_Z x - mean_of vals))%Q
            vals).

(** [agg(["count", "mean", "std"])] on one group, [std] with [ddof=1]. *)
Definition aggregate (k : list cell) (vals : list Z) : summary_row :=
  let cnt := Z.of_nat (length vals) in
  {| row_key := k;
     row_n := cnt;
     row_mean := if cnt =? 0 then None else Some (mean_of vals);
     row_var := if cnt <=? 1 then None
                else Some (sq_dev vals / inject_Z (cnt - 1))%Q |}.

Definition summarize (group_cols : list string) (st : frame_state)
  : script (list summary_row) :=
  (cols <- get_all group_cols (frame st) ;;
   scores <- getitem "literacy_score" (frame st) ;;
   let rows := nrows (frame st) in
   match unsortable (categories st) group_cols cols with
   | Some c => raise (TypeError c)
   | None =>
       ret (map (fun k =>
                   aggregate k (group_values scores (members cols rows k)))
                (group_keys (categories st) rows group_cols cols))
   end)%script.

(** ** Sections 5 and 6: tables and charts *)

(** The three tables and charts by age and gender.  A chart is the file
    [savefig] writes. *)
Definition report_age_gender (st : frame_state) : script unit :=
  (age_tbl <- summarize ["Age_group"] st ;;
   gender_tbl <- summarize ["Gender"] st ;;
   age_gender_tbl <- summarize ["Age_group"; "Gender"] st ;;
   emit (Printed "=== Literacy by Age Group ===" age_tbl) ;;
   emit (Printed "=== Literacy by Gender ===" gender_tbl) ;;
   emit (Printed "=== Literacy by Age × Gender ===" age_gender_tbl) ;;
   emit (Saved "literacy_by_age.png") ;;
   emit (Saved "literacy_by_gender.png") ;;
   emit (Saved "literacy_by_age_gender.png"))%script.

(** Plots 4 and 5: the table and bar chart of a geographic column, behind
    the guard [if col in df.columns].  The printed rows are those of
    [summarize]; their label column and their order are left out. *)
Definition report_geo (col title file : string) (st : frame_state)
  : script unit :=
  if has_column col (frame st)
  then (tbl <- summarize [col] st ;;
        emit (Printed title tbl) ;;
        emit (Saved file))%script
  else emit (Message ("Column '" ++ col ++ "' not found in dataset.")).

(** [sns.boxplot(x=col, y="literacy_score", data=df)] and [savefig]:
    seaborn raises [ValueError] for a name that is not a column of [data]. *)
Definition boxplot (col file : string) (st : frame_state) : script unit :=
  if has_column col (frame st)
  then if has_column "literacy_score" (frame st)
       then emit (Saved file)
       else raise (ValueError "literacy_score")
  else raise (ValueError col).

(** The script up to plot 5 (division). *)
Definition tables_and_bars (df : DataFrame) : script frame_state :=
  (df <- build_literacy df ;;
   let st := build_age_group df in
   report_age_gender st ;;
   report_geo "Census_Region" "=== Literacy by Region ==="
              "literacy_by_region.png" st ;;
   report_geo "Census_Division" "=== Literacy by Division ==="
              "literacy_by_division.png" st ;;
   ret st)%script.

(** The two box plots that end the script. *)
Definition boxplots (st : frame_state) : script unit :=
  (boxplot "Census_Region" "literacy_boxplot_region.png" st ;;
   boxplot "Census_Division" "literacy_boxplot_division.png" st)%script.

(** The whole of [analysis.py] on the frame [pd.read_csv] returns. *)
Definition analysis (df : DataFrame) : script unit :=
  (st <- tables_and_bars df ;; boxplots st)%script.

End Analysis.

(** A reader of whole numbers written in decimal, for the examples. *)
Definition parse_whole (s : string) : option Q :=
  option_map (fun d => inject_Z (Z.of_int d)) (NilZero.int_of_string s).

(** * Notions the statements use *)

(** What [apply_map_safe] does to one cell. *)
Definition safe_cell (m : code_map) (c : cell) : cell :=
  match key_of_cell c with
  | Some k => match dict_get k (mixed m) with Some l => Str l | None => c end
  | None => c
  end.

(** The code map that governs a column: the exact entry of [COLUMN_MAPS],
    else the first prefix of [PREFIX_MAPS] the label starts with. *)
Definition governing_map (col : string) : option code_map :=
  match dict_get col COLUMN_MAPS with
  | Some m => Some m
  | None =>
      option_map snd (find (fun e => String.prefix (fst e) col) PREFIX_MAPS)
  end.

(** What [Series_replace] does to one cell. *)
Definition replace_cell (d : dict pykey string) (c : cell) : cell :=
  match key_of_cell c with
  | Some k => match dict_get k d with Some l => Str l | None => c end
  | None => c
  end.

(** What the special cases do to one cell of column [col]. *)
Definition special_cell (col : string) (c : cell) : cell :=
  let c := if String.eqb col "E5"
           then replace_cell E5_texts (replace_cell E5_numbers c) else c in
  if String.eqb col "A3a" then replace_cell A3a_codes c else c.

(** What section 5 of the script does to one cell of column [col]. *)
Definition recode_cell (col : string) (c : cell) : cell :=
  special_cell col
    (match governing_map col with Some m => safe_cell m c | None => c end).

(** A frame transformed cell by cell, each cell by its column's function. *)
Definition map_cells (f : string -> cell -> cell) (df : DataFrame)
  : DataFrame :=
  map (fun ns => (fst ns, map (f (fst ns)) (snd ns))) df.

(** The exact-column loop applies, to each cell, the maps of the entries
    whose key is the column's label, in order. *)
Definition exact_cell (L : dict string code_map) (n : string) (c : cell) : cell :=
  fold_left (fun c e => if String.eqb n (fst e) then safe_cell (snd e) c else c)
            L c.

(** The prefix loop. *)
Definition prefix_cell (L : dict string code_map) (n : string) (c : cell) : cell :=
  fold_left (fun c e => if String.prefix (fst e) n then safe_cell (snd e) c
                        else c) L c.

(** No prefix of the list is a prefix of another one. *)
Fixpoint incomparable (ps : list string) : bool :=
  match ps with
  | [] => true
  | p :: ps' =>
      forallb (fun q => negb (String.prefix p q) && negb (String.prefix q p)) ps'
      && incomparable ps'
  end.

(** Every label of [d] that is itself a key of [d] maps back to itself. *)
Definition stable (d : dict pykey string) : bool :=
  forallb (fun kv =>
             match dict_get (KStr (snd kv)) d with
             | Some l => String.eqb l (snd kv)
             | None => true
             end) d.

(** The code maps of the two registries. *)
Definition registry_maps : list code_map :=
  dict_values COLUMN_MAPS ++ dict_values PREFIX_MAPS.

(** A frame with a scale column, a column whose labels are digits, a
    prefixed column and the two special columns. *)
Definition idempotence_sample : DataFrame :=
  [("J1", [Int 1; Int 10; Str "7"; Int 98; NaN]);
   ("A11", [Int 4; Int 1; Str "3"]);
   ("M1_3", [Int 2; Int 7]);
   ("E5", [Int (-98); Int 35; Str "-99"]);
   ("A3a", [Int 999; Int 42])].

(** The two sentinel labels. *)
Definition sentinel_label (c : cell) : Prop :=
  c = Str "Don't know" \/ c = Str "Prefer not to say".

(** The exact columns whose code map has no entry for 98. *)
Definition no_98_columns : list string :=
  ["A3"; "A5"; "A6"; "A7"; "A11"; "AM21"; "AM22"; "A9"].

(** The map sends code [z], as a number and as a text, to [label]. *)
Definition sentinel_check (z : Z) (label : string) (m : code_map) : bool :=
  cell_eqb (safe_cell m (Int z)) (Str label)
  && cell_eqb (safe_cell m (Str (py_str z))) (Str label).

(** The map has no entry for code [z] and leaves it as it is. *)
Definition undeclared_check (z : Z) (m : code_map) : bool :=
  negb (dict_has z m)
  && cell_eqb (safe_cell m (Int z)) (Int z)
  && cell_eqb (safe_cell m (Str (py_str z))) (Str (py_str z)).

(** The frame after section 5 of the script, before the pruning. *)
Definition mapped_frame (raw : DataFrame) : DataFrame :=
  apply_mappings
    (rename_columns pre_rename (normalize_columns (normalize_blanks raw))).

(** A cell that is neither missing nor the empty text. *)
Definition nonempty_cell (c : cell) : bool :=
  match c with
  | NaN => false
  | Str EmptyString => false
  | _ => true
  end.

(** Every column has as many cells as the frame has rows. *)
Definition rectangular (df : DataFrame) : bool :=
  forallb (fun ns => (length (snd ns) =? nrows df)%nat) df.

(** The number of the five question columns whose cell in row [i] is the
    answer key of the question. *)
Definition correct_count (df : DataFrame) (i : nat) : Z :=
  Z.of_nat
    (length
       (filter (fun col =>
                  match df_get col df, dict_get col correct_answers with
                  | Some s, Some key => cell_eqb (cell_at s i) (Str key)
                  | _, _ => false
                  end) LITERACY_COLS)).

(** A small survey: three respondents, no region column. *)
Definition survey_sample : DataFrame :=
  [("Q_Interest", [Str "More than $102"; NaN; Str "Don't know"]);
   ("Q_Inflation", [Str "More than today"; Int 1; Str "More than today"]);
   ("Q_Bonds", [Str "Fall"; NaN; Str "Rise"]);
   ("Q_Risk", [Str "True"; Str "true"; Str "True"]);
   ("Q_Mortgage", [Str "False"; NaN; Str "Don't know"]);
   ("Age", [Int 24; Str "70"; Str "Prefer not to say"]);
   ("Gender", [Str "Male"; Str "Female"; Str "Male"]);
   ("Census_Division", [Int 9; Int 9; NaN])].

(** The events of a geographic table and bar chart: the table and the
    chart when the column is there, the diagnostic when it is not. *)
Definition geo_events (col title file : string) (present : bool)
           (tbl : list summary_row) : list event :=
  if present then [Printed title tbl; Saved file]
  else [Message ("Column '" ++ col ++ "' not found in dataset.")].

(** What a finished or interrupted run has printed and saved. *)
Definition output {A : Type} (r : result A) : list event :=
  match r with Ok _ out => out | Raised _ out => out end.

(** The exception of an interrupted run. *)
Definition raised {A : Type} (r : result A) : option error :=
  match r with Ok _ _ => None | Raised e _ => Some e end.

(** The files and messages of an output, tables left out. *)
Definition files_and_messages (out : list event) : list event :=
  filter (fun ev => match ev with Printed _ _ => false | _ => true end) out.


(** A score cell: an integer from 0 to 5. *)
Definition score_cell_ok (c : cell) : bool :=
  match c with
  | Int z => (0 <=? z) && (z <=? 5)
  | _ => false
  end.

(** The column literacy_score is there, has one score per row and every
    score is an integer from 0 to 5. *)
Definition scores_ok (df : DataFrame) : bool :=
  match df_get "literacy_score" df with
  | Some s => (length s =? nrows df)%nat && forallb score_cell_ok s
  | None => false
  end.

(** No text of the list occurs twice. *)
Fixpoint distinct (l : list string) : bool :=
  match l with
  | [] => true
  | x :: l' => negb (existsb (String.eqb x) l') && distinct l'
  end.

(** A categorical column holds only its categories and missing cells, and
    its categories are distinct. *)
Definition category_ok (df : DataFrame) (e : string * list string) : bool :=
  distinct (snd e)
  && match df_get (fst e) df with
     | Some col =>
         forallb (fun c => isna c || existsb (cell_eqb c) (map Str (snd e))) col
     | None => true
     end.

(** The state [summarize] is called on: the scores are in place and the
    categorical columns hold their categories. *)
Definition wf_state (st : frame_state) : bool :=
  scores_ok (frame st) && forallb (category_ok (frame st)) (categories st).

(** The state the script reaches on the sample. *)
Definition sample_state : frame_state :=
  match tables_and_bars parse_whole false survey_sample [] with
  | Ok st _ => st
  | Raised _ _ => {| frame := []; categories := [] |}
  end.

(** The table a call of [summarize] returned. *)
Definition table_of (r : result (list summary_row)) : list summary_row :=
  match r with Ok tbl _ => tbl | Raised _ _ => [] end.

(** The sample's table by gender, and its row for the one woman. *)
Definition gender_table : list summary_row :=
  table_of (summarize false ["Gender"] sample_state []).

Definition female_row : summary_row :=
  nth 0 gender_table
      {| row_key := []; row_n := 0; row_mean := None; row_var := None |}.

(** The number of bytes of the whitespace character a text starts with, 0
    when it starts with none. *)
Definition space_len (s : string) : nat :=
  match s with
  | String a s1 =>
      if ascii_space a then 1%nat
      else match s1 with
           | String b s2 =>
               if space2 a b then 2%nat
               else match s2 with
                    | String c _ => if space3 a b c then 3%nat else 0%nat
                    | EmptyString => 0%nat
                    end
           | EmptyString => 0%nat
           end
  | EmptyString => 0%nat
  end.

(** A whitespace character stands somewhere in the text. *)
Fixpoint has_space (s : string) : bool :=
  match s with
  | EmptyString => false
  | String _ s1 => negb (space_len s =? 0)%nat || has_space s1
  end.

(** A byte that continues a character. *)
Definition continuation (a : ascii) : bool :=
  let n := nat_of_ascii a in ((128 <=? n) && (n <=? 191))%nat.

(** The bytes are the encoding of a text: every character has its lead
    byte and the continuation bytes the lead byte announces. *)
Fixpoint utf8 (s : string) : bool :=
  match s with
  | EmptyString => true
  | String a s1 =>
      let n := nat_of_ascii a in
      if (n <? 128)%nat then utf8 s1
      else if ((194 <=? n) && (n <=? 223))%nat then
        match s1 with
        | String b s2 => continuation b && utf8 s2
        | _ => false
        end
      else if ((224 <=? n) && (n <=? 239))%nat then
        match s1 with
        | String b (String c s3) => continuation b && continuation c && utf8 s3
        | _ => false
        end
      else if ((240 <=? n) && (n <=? 244))%nat then
        match s1 with
        | String b (String c (String d s4)) =>
            continuation b && continuation c && continuation d && utf8 s4
        | _ => false
        end
      else false
  end.

(** Four whitespace characters outside ASCII: the no-break space U+00A0,
    the next-line control U+0085, the em space U+2003 and the ideographic
    space U+3000. *)
Definition nbsp : string :=
  String (ascii_of_nat 194) (String (ascii_of_nat 160) "").

Definition next_line : string :=
  String (ascii_of_nat 194) (String (ascii_of_nat 133) "").

Definition em_space : string :=
  String (ascii_of_nat 226)
         (String (ascii_of_nat 128) (String (ascii_of_nat 131) "")).

Definition ideographic_space : string :=
  String (ascii_of_nat 227)
         (String (ascii_of_nat 128) (String (ascii_of_nat 128) "")).

(** A text made of whitespace only, the empty text included. *)
Definition blank_cell (c : cell) : bool :=
  match c with
  | Str s => all_space s
  | _ => false
  end.

(** The labels of a frame with the number of cells of each column. *)
Definition shape (df : DataFrame) : list (string * nat) :=
  map (fun ns => (fst ns, length (snd ns))) df.

(** The label a column gets from a rename table. *)
Definition renamed (table : dict string string) (n : string) : string :=
  match dict_get n table with Some v => v | None => n end.

(** The entries of [PREFIX_MAPS] whose prefix a label starts with. *)
Definition matching_prefixes (n : string) : list (string * code_map) :=
  filter (fun e => String.prefix (fst e) n) PREFIX_MAPS.

(** The cells the special case of E5, and of A3a, rewrites. *)
Definition E5_sentinels : list cell :=
  [Int (-98); Int (-99); Str "-98"; Str "-99"].

Definition A3a_sentinels : list cell := [Int 999; Str "999"].

(** A raw export with spaces in a header, a blank cell and an empty
    column. *)
Definition raw_sample : DataFrame :=
  [(" NFCSID ", [Int 7; Int 8; Int 9]);
   ("A3", [Int 1; Int 2; Str " "]);
   ("A5_2012", [Int 99; Str "4"; Int 98]);
   ("E5", [Int (-98); Int 40; Str "-99"]);
   ("M1_ 2", [Int 2; Int 7; NaN]);
   ("X9", [NaN; Str "  "; NaN])].

(** What the fallback on Age_Category_Code does to one cell: the codes 1
    to 6 become the six labels, every other cell stays. *)
Definition age_code_cell (c : cell) : cell :=
  match c with
  | Int z =>
      if (1 <=? z) && (z <=? 6)
      then Str (nth (Z.to_nat (z - 1)) labels "")
      else c
  | _ => c
  end.


(** The columns the scoring step writes. *)
Definition score_columns : list string :=
  ["Q_Interest_score"; "Q_Inflation_score"; "Q_Bonds_score";
   "Q_Risk_score"; "Q_Mortgage_score"; "literacy_score"].

(** The seven charts of a complete run, in the order they are saved. *)
Definition all_charts : list event :=
  [Saved "literacy_by_age.png"; Saved "literacy_by_gender.png";
   Saved "literacy_by_age_gender.png"; Saved "literacy_by_region.png";
   Saved "literacy_by_division.png"; Saved "literacy_boxplot_region.png";
   Saved "literacy_boxplot_division.png"].

(** The files of an output. *)
Definition saved_files (out : list event) : list event :=
  filter (fun ev => match ev with Saved _ => true | _ => false end) out.

(** A cleaned file as [pd.read_csv] returns it, texts in the question and
    Gender columns and numbers in the others, without a Census_Region
    column. *)
Definition no_region_sample : DataFrame :=
  [("Q_Interest", [Str "More than $102"; NaN; Str "Don't know"]);
   ("Q_Inflation", [Str "More than today"; Str "Less than today";
                    Str "More than today"]);
   ("Q_Bonds", [Str "Fall"; NaN; Str "Rise"]);
   ("Q_Risk", [Str "True"; Str "Don't know"; Str "True"]);
   ("Q_Mortgage", [Str "False"; NaN; Str "Don't know"]);
   ("Age", [Int 24; Int 70; Int 35]);
   ("Gender", [Str "Male"; Str "Female"; Str "Male"]);
   ("Census_Division", [Int 9; Int 9; Int 2])].

(** The same file with a Census_Region column and without the
    Census_Division column. *)
Definition no_division_sample : DataFrame :=
  (filter (fun ns => negb (String.eqb (fst ns) "Census_Division"))
          no_region_sample
   ++ [("Census_Region", [Int 4; Int 4; Int 1])])%list.


(** The sample with both geographic columns. *)
Definition full_sample : DataFrame :=
  (survey_sample ++ [("Census_Region", [Int 4; Int 4; Int 1])])%list.

(** The pattern of missing cells of a frame, column by column. *)
Definition missing_pattern (df : DataFrame) : list (list bool) :=
  map (fun ns => map isna (snd ns)) df.

(** A cell that holds an answer: neither missing nor a whitespace-only
    text. *)
Definition answered (c : cell) : bool := notna c && negb (blank_cell c).

(** The labels of the export once the headers are normalised and
    harmonised, which is what the mapping loops index the frame by. *)
Definition mapping_labels (raw : DataFrame) : list string :=
  map (fun n => renamed pre_rename (normalize_name n)) (columns raw).

(** The label a column of the raw export has in the cleaned file. *)
Definition final_label (n : string) : string :=
  renamed friendly_names (renamed pre_rename (normalize_name n)).

(** A column that holds an answer. *)
Definition has_answer (ns : string * series) : bool :=
  existsb answered (snd ns).

(** The columns of the raw export the analysis depends on, and the labels
    [analysis.py] reads them under. *)
Definition analysis_sources : list string :=
  ["M6"; "M7"; "M8"; "M9"; "M10"; "A3"; "A3a"; "CENSUSREG"; "CENSUSDIV"].

Definition analysis_columns : list string :=
  ["Q_Interest"; "Q_Inflation"; "Q_Bonds"; "Q_Risk"; "Q_Mortgage";
   "Gender"; "Age"; "Census_Region"; "Census_Division"].

(** A raw export with the nine columns and one more. *)
Definition raw_survey : DataFrame :=
  [("NFCSID", [Int 1; Int 2]);
   ("CENSUSDIV", [Int 9; Int 2]); ("CENSUSREG", [Int 4; Int 1]);
   ("A3", [Int 1; Int 2]); ("A3a", [Int 24; Int 999]);
   ("M6", [Int 1; Int 98]); ("M7", [Int 1; Int 3]); ("M8", [Int 2; Str " "]);
   ("M9", [Int 1; Int 2]); ("M10", [Str "2"; Int 1])].

(** The five questions: the column of the raw export, its label in the
    cleaned file, and the code whose label is the answer key of
    [analysis.py]. *)
Definition question_codes : list (string * string * Z) :=
  [("M6", "Q_Interest", 1); ("M7", "Q_Inflation", 1); ("M8", "Q_Bonds", 2);
   ("M9", "Q_Risk", 1); ("M10", "Q_Mortgage", 2)].

(** The cells of a raw question column that the cleaning turns into the
    label of the counted answer: the code as a number, the code as a text,
    and the label itself. *)
Definition answer_cells (code : Z) (key : string) : list cell :=
  [Int code; Str (py_str code); Str key].


(** The bar charts a run saves before the box plots. *)
Definition bar_charts (region division : bool) : list event :=
  ([Saved "literacy_by_age.png"; Saved "literacy_by_gender.png";
    Saved "literacy_by_age_gender.png"]
   ++ (if region then [Saved "literacy_by_region.png"] else [])
   ++ (if division then [Saved "literacy_by_division.png"] else []))%list.

(** The sample after the scoring step. *)
Definition scored_sample : DataFrame :=
  match build_literacy survey_sample [] with
  | Ok df _ => df
  | Raised _ _ => []
  end.

(** The sample's row for the two men. *)
Definition male_row : summary_row :=
  nth 1 gender_table
      {| row_key := []; row_n := 0; row_mean := None; row_var := None |}.

(** * Properties *)

(** ** [str] on integers is injective *)

Lemma to_int_norm (z : Z) : Decimal.norm (Z.to_int z) = Z.to_int z.
Proof.
  rewrite <- (DecimalZ.to_of (Z.to_int z)), DecimalZ.of_to. reflexivity.
Qed.

Lemma unorm_not_nil (d : Decimal.uint) : Decimal.unorm d <> Decimal.Nil.
Proof.
  induction d; simpl; try discriminate. exact IHd.
Qed.

Lemma to_int_not_nil (z : Z) :
  Z.to_int z <> Decimal.Pos Decimal.Nil /\ Z.to_int z <> Decimal.Neg Decimal.Nil.
Proof.
  rewrite <- (to_int_norm z).
  destruct (Z.to_int z) as [d|d]; simpl.
  - split; [|discriminate].
    intros E. injection E. apply unorm_not_nil.
  - destruct (Decimal.nzhead d) eqn:E; split; try discriminate.
Qed.

Lemma py_str_parse (z : Z) :
  NilZero.int_of_string (py_str z) = Some (Z.to_int z).
Proof.
  destruct (to_int_not_nil z) as [Hp Hn].
  unfold py_str. apply NilZero.isi; assumption.
Qed.

Lemma py_str_inj (a b : Z) : py_str a = py_str b -> a = b.
Proof.
  intros E. apply DecimalZ.to_int_inj.
  pose proof (py_str_parse a) as Ha. rewrite E, py_str_parse in Ha.
  congruence.
Qed.

(** ** Dictionaries *)

Section DictFacts.
Context {K V : Type} `{Key K}.
Implicit Types (d : dict K V) (k : K) (v : V).

Lemma keyb_refl k : keyb k k = true.
Proof. apply keyb_eq. reflexivity. Qed.

Lemma keyb_neq k k' : k <> k' -> keyb k k' = false.
Proof.
  intros N. destruct (keyb k k') eqn:E; [|reflexivity].
  apply keyb_eq in E. contradiction.
Qed.

Lemma dict_get_in d k v : dict_get k d = Some v -> In (k, v) d.
Proof.
  induction d as [|[k' v'] d IH]; simpl; [discriminate|].
  destruct (keyb k k') eqn:E.
  - apply keyb_eq in E. intros [= ->]. left. congruence.
  - intros G. right. auto.
Qed.

Lemma dict_get_none d k : dict_get k d = None <-> ~ In k (dict_keys d).
Proof.
  induction d as [|[k' v'] d IH]; simpl.
  - tauto.
  - destruct (keyb k k') eqn:E.
    + apply keyb_eq in E. split; [discriminate|]. intros N. exfalso. auto.
    + rewrite IH. split; [|tauto].
      intros N [E'|I]; [|auto]. subst. rewrite keyb_refl in E. discriminate.
Qed.

Lemma in_dict_get d k v :
  NoDup (dict_keys d) -> In (k, v) d -> dict_get k d = Some v.
Proof.
  induction d as [|[k' v'] d IH]; simpl; [tauto|].
  intros ND [E|I].
  - injection E as -> ->. rewrite keyb_refl. reflexivity.
  - inversion ND as [|? ? Nin ND']; subst.
    destruct (keyb k k') eqn:E; [|auto].
    apply keyb_eq in E. subst. exfalso. apply Nin.
    change k' with (fst (k', v)). apply in_map. exact I.
Qed.

Lemma dict_get_set d k k' v :
  dict_get k (dict_set k' v d)
  = if keyb k k' then Some v else dict_get k d.
Proof.
  induction d as [|[k0 v0] d IH]; simpl.
  - reflexivity.
  - destruct (keyb k' k0) eqn:E0; simpl.
    + apply keyb_eq in E0. subst. destruct (keyb k k0); reflexivity.
    + destruct (keyb k k0) eqn:E1.
      * apply keyb_eq in E1. subst.
        destruct (keyb k0 k') eqn:E2; [|reflexivity].
        apply keyb_eq in E2. subst. rewrite keyb_refl in E0. discriminate.
      * exact IH.
Qed.

Lemma dict_keys_set d k v :
  dict_keys (dict_set k v d)
  = if dict_has k d then dict_keys d else (dict_keys d ++ [k])%list.
Proof.
  unfold dict_has.
  induction d as [|[k0 v0] d IH]; simpl; [reflexivity|].
  destruct (keyb k k0) eqn:E; simpl; [reflexivity|].
  rewrite IH. destruct (dict_get k d); reflexivity.
Qed.

Lemma dict_set_nodup d k v :
  NoDup (dict_keys d) -> NoDup (dict_keys (dict_set k v d)).
Proof.
  intros ND. rewrite dict_keys_set. unfold dict_has.
  destruct (dict_get k d) eqn:G; [exact ND|].
  apply dict_get_none in G.
  apply NoDup_app; [exact ND|constructor; [simpl; tauto|constructor]|].
  intros x Hx [<-|[]]. exact (G Hx).
Qed.

Lemma fold_set_nodup (items : list (K * V)) d :
  NoDup (dict_keys d) ->
  NoDup (dict_keys (fold_left (fun d kv => dict_set (fst kv) (snd kv) d)
                              items d)).
Proof.
  revert d. induction items as [|[k v] items IH]; simpl; intros d ND.
  - exact ND.
  - apply IH, dict_set_nodup, ND.
Qed.

Lemma dict_lit_nodup (items : list (K * V)) :
  NoDup (dict_keys (dict_lit items)).
Proof. apply fold_set_nodup. constructor. Qed.

(** A display over items with distinct keys is the list of its items. *)
Lemma fold_set_fresh (items : list (K * V)) d :
  NoDup (dict_keys d ++ dict_keys items)%list ->
  fold_left (fun d kv => dict_set (fst kv) (snd kv) d) items d
  = (d ++ items)%list.
Proof.
  revert d. induction items as [|[k v] items IH]; simpl; intros d ND.
  - symmetry. apply app_nil_r.
  - assert (Hset : dict_set k v d = (d ++ [(k, v)])%list).
    { apply NoDup_remove_2 in ND.
      assert (Nin : ~ In k (dict_keys d)) by (rewrite in_app_iff in ND; tauto).
      clear - Nin. induction d as [|[k0 v0] d IHd]; simpl; [reflexivity|].
      simpl in Nin. rewrite keyb_neq by (intros ->; tauto).
      f_equal. apply IHd. tauto. }
    rewrite Hset, IH.
    + rewrite <- app_assoc. reflexivity.
    + unfold dict_keys in *. rewrite map_app, <- app_assoc. exact ND.
Qed.

Lemma dict_lit_id d : NoDup (dict_keys d) -> dict_lit d = d.
Proof. intros ND. unfold dict_lit. rewrite fold_set_fresh; auto. Qed.

Lemma dict_get_app d1 d2 k :
  dict_get k (d1 ++ d2)%list
  = match dict_get k d1 with Some v => Some v | None => dict_get k d2 end.
Proof.
  induction d1 as [|[k0 v0] d1 IH]; simpl; [reflexivity|].
  destruct (keyb k k0); [reflexivity|exact IH].
Qed.
End DictFacts.

(** ** The mixed dictionary and the safe lookup *)

Lemma int_items_keys (m : code_map) :
  dict_keys (int_items m) = map KInt (dict_keys m).
Proof. unfold dict_keys, int_items. rewrite !map_map. reflexivity. Qed.

Lemma str_items_keys (m : code_map) :
  dict_keys (str_items m) = map (fun k => KStr (py_str k)) (dict_keys m).
Proof. unfold dict_keys, str_items. rewrite !map_map. reflexivity. Qed.

Lemma NoDup_map_inj {A B : Type} (f : A -> B) (l : list A) :
  (forall a b, f a = f b -> a = b) -> NoDup l -> NoDup (map f l).
Proof.
  intros Hinj ND. induction ND as [|a l Nin ND IH]; simpl; constructor.
  - rewrite in_map_iff. intros (b & E & I). apply Hinj in E. subst. auto.
  - exact IH.
Qed.

Lemma mixed_items (m : code_map) :
  NoDup (dict_keys m) -> mixed m = (int_items m ++ str_items m)%list.
Proof.
  intros ND. unfold mixed. fold (int_items m) (str_items m).
  assert (NDs : NoDup (dict_keys (str_items m))).
  { rewrite str_items_keys. apply NoDup_map_inj; [|exact ND].
    intros a b E. apply py_str_inj. congruence. }
  rewrite (dict_lit_id (str_items m)) by exact NDs.
  apply dict_lit_id.
  unfold dict_keys at 1. rewrite map_app. apply NoDup_app.
  - fold (dict_keys (int_items m)). rewrite int_items_keys.
    apply NoDup_map_inj; [congruence|exact ND].
  - exact NDs.
  - fold (dict_keys (int_items m)) (dict_keys (str_items m)).
    rewrite int_items_keys, str_items_keys.
    intros x Hi Hs. apply in_map_iff in Hi, Hs.
    destruct Hi as (a & <- & _), Hs as (b & E & _). discriminate.
Qed.

Lemma int_items_get (m : code_map) (k : Z) :
  dict_get (KInt k) (int_items m) = dict_get k m.
Proof.
  induction m as [|[k0 l0] m IH]; simpl; [reflexivity|].
  destruct (k =? k0); [reflexivity|exact IH].
Qed.

Lemma int_items_get_str (m : code_map) (s : string) :
  dict_get (KStr s) (int_items m) = None.
Proof. induction m as [|[k0 l0] m IH]; simpl; auto. Qed.

Lemma str_items_get_int (m : code_map) (k : Z) :
  dict_get (KInt k) (str_items m) = None.
Proof. induction m as [|[k0 l0] m IH]; simpl; auto. Qed.

Lemma str_items_get (m : code_map) (k : Z) :
  dict_get (KStr (py_str k)) (str_items m) = dict_get k m.
Proof.
  induction m as [|[k0 l0] m IH]; simpl; [reflexivity|].
  destruct (Z.eqb_spec k k0) as [->|N].
  - rewrite String.eqb_refl. reflexivity.
  - destruct (String.eqb_spec (py_str k) (py_str k0)) as [E|_]; [|exact IH].
    apply py_str_inj in E. contradiction.
Qed.

Lemma str_items_get_inv (m : code_map) (s l : string) :
  dict_get (KStr s) (str_items m) = Some l ->
  exists k, s = py_str k /\ dict_get k m = Some l.
Proof.
  induction m as [|[k0 l0] m IH]; simpl; [discriminate|].
  destruct (String.eqb_spec s (py_str k0)) as [->|N].
  - intros [= ->]. exists k0. rewrite Z.eqb_refl. auto.
  - intros G. destruct (IH G) as (k & -> & Gk). exists k. split; [reflexivity|].
    destruct (Z.eqb_spec k k0) as [->|_]; [contradiction|exact Gk].
Qed.

Lemma fillna_map (f : cell -> cell) (s : series) :
  fillna (map f s) s = map (fun c => if isna (f c) then c else f c) s.
Proof.
  unfold fillna. induction s as [|c s IH]; simpl; [reflexivity|].
  f_equal. exact IH.
Qed.

Lemma apply_map_safe_cells (s : series) (m : code_map) :
  apply_map_safe s m = map (safe_cell m) s.
Proof.
  unfold apply_map_safe, Series_map. rewrite fillna_map.
  apply map_ext. intros c. unfold safe_cell.
  destruct (key_of_cell c) as [k|] eqn:Ek.
  - destruct (dict_get k (mixed m)); simpl; [reflexivity|].
    destruct c; reflexivity.
  - destruct c; simpl in *; try discriminate. reflexivity.
Qed.

Lemma safe_cell_int (m : code_map) (k : Z) :
  NoDup (dict_keys m) ->
  safe_cell m (Int k)
  = match dict_get k m with Some l => Str l | None => Int k end.
Proof.
  intros ND. unfold safe_cell. simpl. rewrite (mixed_items m ND).
  rewrite dict_get_app, int_items_get, str_items_get_int.
  destruct (dict_get k m); reflexivity.
Qed.

Lemma safe_cell_str (m : code_map) (k : Z) :
  NoDup (dict_keys m) ->
  safe_cell m (Str (py_str k))
  = match dict_get k m with Some l => Str l | None => Str (py_str k) end.
Proof.
  intros ND. unfold safe_cell. simpl. rewrite (mixed_items m ND).
  rewrite dict_get_app, int_items_get_str, str_items_get.
  destruct (dict_get k m); reflexivity.
Qed.

Lemma safe_cell_other (m : code_map) (c : cell) :
  NoDup (dict_keys m) ->
  (forall k, In k (dict_keys m) -> c <> Int k /\ c <> Str (py_str k)) ->
  safe_cell m c = c.
Proof.
  intros ND Hno. destruct c as [|z|s]; [reflexivity| |].
  - rewrite safe_cell_int by exact ND.
    destruct (dict_get z m) eqn:G; [|reflexivity].
    apply dict_get_in in G.
    assert (I : In z (dict_keys m))
      by (change z with (fst (z, s)); apply in_map; exact G).
    destruct (Hno z I) as [N _]. contradiction.
  - unfold safe_cell. simpl. rewrite (mixed_items m ND).
    rewrite dict_get_app, int_items_get_str.
    destruct (dict_get (KStr s) (str_items m)) eqn:G; [|reflexivity].
    apply str_items_get_inv in G. destruct G as (k & -> & G).
    apply dict_get_in in G.
    assert (I : In k (dict_keys m))
      by (change k with (fst (k, s0)); apply in_map; exact G).
    destruct (Hno k I) as [_ N]. contradiction.
Qed.

Lemma py_str_not_nan (k : Z) : py_str k <> "nan".
Proof.
  intros E. pose proof (py_str_parse k) as P. rewrite E in P.
  vm_compute in P. discriminate.
Qed.

(** ** The mapping pass, column by column *)

Lemma columns_map_cells f df : columns (map_cells f df) = columns df.
Proof. unfold columns, map_cells. rewrite map_map. reflexivity. Qed.

Lemma map_cells_compose f g df :
  map_cells g (map_cells f df) = map_cells (fun n c => g n (f n c)) df.
Proof.
  unfold map_cells. rewrite map_map. apply map_ext. intros [n s]. simpl.
  rewrite map_map. reflexivity.
Qed.

Lemma map_cells_ext f g df :
  (forall n c, f n c = g n c) -> map_cells f df = map_cells g df.
Proof.
  intros E. unfold map_cells. apply map_ext. intros [n s]. simpl.
  f_equal. apply map_ext. intros c. apply E.
Qed.

Lemma df_update_cells col (f : cell -> cell) df :
  df_update col (map f) df
  = map_cells (fun n c => if String.eqb n col then f c else c) df.
Proof.
  unfold df_update, map_cells. apply map_ext. intros [n s]. simpl.
  destruct (String.eqb n col); [reflexivity|].
  rewrite map_id. reflexivity.
Qed.

Lemma df_update_ext col (f g : series -> series) df :
  (forall s, f s = g s) -> df_update col f df = df_update col g df.
Proof.
  intros E. unfold df_update. apply map_ext. intros [n s]. simpl.
  rewrite E. reflexivity.
Qed.

Lemma df_update_absent col f df : has_column col df = false -> df_update col f df = df.
Proof.
  unfold has_column, columns, df_update.
  induction df as [|[n s] df IH]; simpl; [reflexivity|].
  rewrite orb_false_iff. intros [E Hr]. rewrite String.eqb_sym, E.
  f_equal. apply IH, Hr.
Qed.

(** The guard [if col in df.columns] changes nothing: an update of an absent
    column is the identity. *)
Lemma guarded_update col f df :
  (if has_column col df then df_update col f df else df) = df_update col f df.
Proof.
  destruct (has_column col df) eqn:E; [reflexivity|].
  symmetry. apply df_update_absent, E.
Qed.

Lemma apply_map_safe_update col m df :
  df_update col (fun s => apply_map_safe s m) df
  = map_cells (fun n c => if String.eqb n col then safe_cell m c else c) df.
Proof.
  rewrite <- df_update_cells. unfold df_update. apply map_ext. intros [n s].
  simpl. rewrite apply_map_safe_cells. reflexivity.
Qed.

Lemma column_maps_fold (L : dict string code_map) df :
  fold_left apply_column_map L df = map_cells (exact_cell L) df.
Proof.
  revert df. induction L as [|[col m] L IH]; intros df; simpl.
  - unfold map_cells, exact_cell. simpl. rewrite <- (map_id df) at 1.
    apply map_ext. intros [n s]. simpl. rewrite map_id. reflexivity.
  - rewrite guarded_update, apply_map_safe_update, IH, map_cells_compose.
    apply map_cells_ext. intros n c. reflexivity.
Qed.

Lemma exact_cell_get (L : dict string code_map) n c :
  NoDup (dict_keys L) ->
  exact_cell L n c
  = match dict_get n L with Some m => safe_cell m c | None => c end.
Proof.
  unfold exact_cell. revert c.
  induction L as [|[col m] L IH]; intros c ND; [reflexivity|].
  inversion ND as [|? ? Nin ND']; subst.
  cbn [fold_left dict_get fst snd]. unfold keyb, Key_string.
  destruct (String.eqb_spec n col) as [->|N].
  - apply dict_get_none in Nin.
    rewrite IH by exact ND'. rewrite Nin. reflexivity.
  - apply IH, ND'.
Qed.

Lemma updates_fold (f : cell -> cell) (cols : list string) df :
  fold_left (fun df col => df_update col (map f) df) cols df
  = map_cells (fun n c =>
                 fold_left (fun c col => if String.eqb n col then f c else c)
                           cols c) df.
Proof.
  revert df. induction cols as [|col cols IH]; intros df; simpl.
  - unfold map_cells. rewrite <- (map_id df) at 1.
    apply map_ext. intros [n s]. simpl. rewrite map_id. reflexivity.
  - rewrite IH, df_update_cells, map_cells_compose. reflexivity.
Qed.

Lemma fold_once (f : cell -> cell) (cols : list string) n c :
  NoDup cols ->
  fold_left (fun c col => if String.eqb n col then f c else c) cols c
  = if existsb (String.eqb n) cols then f c else c.
Proof.
  revert c. induction cols as [|col cols IH]; intros c ND; simpl.
  - reflexivity.
  - inversion ND as [|? ? Nin ND']; subst.
    destruct (String.eqb_spec n col) as [->|N]; simpl.
    + rewrite IH by exact ND'.
      destruct (existsb (String.eqb col) cols) eqn:E; [|reflexivity].
      apply existsb_exists in E. destruct E as (x & I & E).
      apply String.eqb_eq in E. subst. contradiction.
    + apply IH, ND'.
Qed.

Lemma NoDup_filter {A : Type} (p : A -> bool) (l : list A) :
  NoDup l -> NoDup (filter p l).
Proof.
  intros ND. induction ND as [|a l Nin ND IH]; simpl; [constructor|].
  destruct (p a); [|exact IH].
  constructor; [|exact IH]. rewrite filter_In. tauto.
Qed.

Lemma apply_prefix_map_cells df prefix m :
  NoDup (columns df) ->
  apply_prefix_map df (prefix, m)
  = map_cells (fun n c => if String.prefix prefix n then safe_cell m c else c)
              df.
Proof.
  intros ND. unfold apply_prefix_map.
  assert (E : forall d cols,
             fold_left (fun df col =>
                          df_update col (fun s => apply_map_safe s m) df) cols d
             = fold_left (fun df col => df_update col (map (safe_cell m)) df)
                         cols d).
  { intros d cols. revert d. induction cols as [|x cols IH]; intros d.
    - reflexivity.
    - simpl. rewrite IH. f_equal. unfold df_update. apply map_ext.
      intros [n s]. simpl. rewrite apply_map_safe_cells. reflexivity. }
  rewrite E, updates_fold.
  unfold map_cells. apply map_ext_in. intros [n s] I. simpl. f_equal.
  apply map_ext. intros c.
  rewrite fold_once by (apply NoDup_filter, ND).
  destruct (String.prefix prefix n) eqn:P.
  - assert (X : existsb (String.eqb n)
                        (filter (String.prefix prefix) (columns df)) = true).
    { apply existsb_exists. exists n. split; [|apply String.eqb_refl].
      apply filter_In. split; [|exact P].
      change n with (fst (n, s)). apply in_map. exact I. }
    rewrite X. reflexivity.
  - destruct (existsb (String.eqb n)
                      (filter (String.prefix prefix) (columns df))) eqn:X;
      [|reflexivity].
    apply existsb_exists in X. destruct X as (x & Ix & Ex).
    apply String.eqb_eq in Ex. subst x. apply filter_In in Ix.
    destruct Ix as [_ Px]. congruence.
Qed.

Lemma prefix_maps_fold (L : dict string code_map) df :
  NoDup (columns df) ->
  fold_left apply_prefix_map L df = map_cells (prefix_cell L) df.
Proof.
  revert df. induction L as [|[p m] L IH]; intros df ND.
  - simpl. unfold map_cells, prefix_cell. simpl. rewrite <- (map_id df) at 1.
    apply map_ext. intros [n s]. simpl. rewrite map_id. reflexivity.
  - cbn [fold_left]. rewrite apply_prefix_map_cells by exact ND.
    rewrite IH by (rewrite columns_map_cells; exact ND).
    rewrite map_cells_compose. apply map_cells_ext. intros n c. reflexivity.
Qed.

Lemma special_cases_cells df :
  apply_special_cases df = map_cells special_cell df.
Proof.
  unfold apply_special_cases. cbv zeta.
  rewrite !guarded_update.
  change (Series_replace A3a_codes) with (map (replace_cell A3a_codes)).
  change (fun s => Series_replace E5_texts (Series_replace E5_numbers s))
    with (fun s => map (replace_cell E5_texts) (map (replace_cell E5_numbers) s)).
  rewrite (df_update_ext "E5" _
             (map (fun c => replace_cell E5_texts (replace_cell E5_numbers c))))
    by (intros s; apply map_map).
  rewrite !df_update_cells, map_cells_compose.
  apply map_cells_ext. intros n c. reflexivity.
Qed.

(** ** At most one map governs a column *)

Lemma prefix_comparable (a b n : string) :
  String.prefix a n = true -> String.prefix b n = true ->
  String.prefix a b = true \/ String.prefix b a = true.
Proof.
  assert (Hnil : forall s, String.prefix "" s = true) by (intros []; reflexivity).
  revert a b. induction n as [|x n IH]; intros a b Ha Hb.
  - destruct a; [|discriminate]. left. apply Hnil.
  - destruct a as [|xa a]; [left; apply Hnil|].
    destruct b as [|xb b]; [right; apply Hnil|].
    simpl in *.
    destruct (ascii_dec xa x) as [->|]; [|discriminate].
    destruct (ascii_dec xb x) as [->|]; [|discriminate].
    destruct (ascii_dec x x) as [_|N]; [|contradiction].
    apply IH; assumption.
Qed.

Lemma prefix_cell_none (L : dict string code_map) n c :
  (forall e, In e L -> String.prefix (fst e) n = false) ->
  prefix_cell L n c = c.
Proof.
  unfold prefix_cell. revert c.
  induction L as [|e L IH]; intros c Hno; simpl; [reflexivity|].
  rewrite (Hno e) by (left; reflexivity).
  apply IH. intros e' I. apply Hno. right. exact I.
Qed.

Lemma prefix_cell_find (L : dict string code_map) n c :
  incomparable (dict_keys L) = true ->
  prefix_cell L n c
  = match find (fun e => String.prefix (fst e) n) L with
    | Some e => safe_cell (snd e) c
    | None => c
    end.
Proof.
  revert c. induction L as [|e L IH]; intros c Hinc; [reflexivity|].
  simpl in Hinc. apply andb_true_iff in Hinc. destruct Hinc as [He HL].
  unfold prefix_cell. cbn [fold_left find].
  destruct (String.prefix (fst e) n) eqn:P.
  - apply prefix_cell_none. intros e' I.
    destruct (String.prefix (fst e') n) eqn:P'; [|reflexivity].
    rewrite forallb_forall in He.
    assert (I' : In (fst e') (dict_keys L)) by (apply in_map; exact I).
    specialize (He _ I'). apply andb_true_iff in He.
    rewrite !negb_true_iff in He.
    destruct (prefix_comparable _ _ _ P P'); destruct He; congruence.
  - apply IH, HL.
Qed.

Lemma prefixes_incomparable : incomparable (dict_keys PREFIX_MAPS) = true.
Proof. vm_compute. reflexivity. Qed.

Lemma column_maps_nodup : NoDup (dict_keys COLUMN_MAPS).
Proof. apply dict_lit_nodup. Qed.

(** No exact column name starts with one of the prefixes. *)
Lemma exact_not_prefixed :
  forallb (fun col =>
             forallb (fun p => negb (String.prefix p col))
                     (dict_keys PREFIX_MAPS))
          (dict_keys COLUMN_MAPS) = true.
Proof. vm_compute. reflexivity. Qed.

Lemma exact_then_no_prefix n m c :
  dict_get n COLUMN_MAPS = Some m -> prefix_cell PREFIX_MAPS n c = c.
Proof.
  intros G. apply prefix_cell_none. intros e I.
  pose proof exact_not_prefixed as X. rewrite forallb_forall in X.
  apply dict_get_in in G.
  assert (In n (dict_keys COLUMN_MAPS))
    by (change n with (fst (n, m)); apply in_map; exact G).
  specialize (X n H). rewrite forallb_forall in X.
  specialize (X (fst e) (in_map fst _ _ I)).
  apply negb_true_iff in X. exact X.
Qed.

(** Section 5 of the script rewrites every cell by [recode_cell] of its
    column, provided the column labels are distinct. *)
Lemma apply_mappings_cells df :
  NoDup (columns df) -> apply_mappings df = map_cells recode_cell df.
Proof.
  intros ND. unfold apply_mappings, apply_prefix_maps, apply_column_maps.
  rewrite column_maps_fold.
  rewrite prefix_maps_fold by (rewrite columns_map_cells; exact ND).
  rewrite special_cases_cells, !map_cells_compose.
  apply map_cells_ext. intros n c. unfold recode_cell, governing_map.
  f_equal. rewrite exact_cell_get by apply column_maps_nodup.
  destruct (dict_get n COLUMN_MAPS) as [m|] eqn:G.
  - apply (exact_then_no_prefix n m), G.
  - rewrite prefix_cell_find by apply prefixes_incomparable.
    destruct (find _ PREFIX_MAPS); reflexivity.
Qed.

(** ** The safe lookup (C5) *)

Lemma safe_cell_hit (m : code_map) (v : cell) (k : Z) (l : string) :
  NoDup (dict_keys m) ->
  dict_get k m = Some l -> v = Int k \/ cell_str v = py_str k ->
  safe_cell m v = Str l.
Proof.
  intros ND G [->|E].
  - rewrite safe_cell_int, G by exact ND. reflexivity.
  - destruct v as [|z|s]; simpl in E.
    + symmetry in E. apply py_str_not_nan in E. contradiction.
    + apply py_str_inj in E. subst z.
      rewrite safe_cell_int, G by exact ND. reflexivity.
    + subst s. rewrite safe_cell_str, G by exact ND. reflexivity.
Qed.

Lemma safe_cell_miss (m : code_map) (v : cell) :
  NoDup (dict_keys m) ->
  (forall k, In k (dict_keys m) -> v <> Int k /\ cell_str v <> py_str k) ->
  safe_cell m v = v.
Proof.
  intros ND Hno. apply safe_cell_other; [exact ND|].
  intros k I. destruct (Hno k I) as [N1 N2]. split; [exact N1|].
  intros ->. apply N2. reflexivity.
Qed.

(** C5.  For a code map [m] and a column [s], [apply_map_safe s m] has a cell
    for every cell of [s] (nothing is dropped, nothing raises); the cell for
    [v] is the label of the key [k] when [v] is [k] itself or the string form
    of [v] is the string form of [k], and it is [v], unchanged, when no key
    matches in either form. *)
Theorem apply_map_safe_lookup (m : code_map) (s : series) :
  NoDup (dict_keys m) ->
  length (apply_map_safe s m) = length s /\
  forall (i : nat) (v : cell), nth_error s i = Some v ->
    (forall k l, dict_get k m = Some l ->
                 v = Int k \/ cell_str v = py_str k ->
                 nth_error (apply_map_safe s m) i = Some (Str l)) /\
    ((forall k, In k (dict_keys m) -> v <> Int k /\ cell_str v <> py_str k) ->
     nth_error (apply_map_safe s m) i = Some v).
Proof.
  intros ND. rewrite apply_map_safe_cells. split; [apply length_map|].
  intros i v Hv. rewrite nth_error_map, Hv. simpl. split.
  - intros k l G Hk. f_equal. apply (safe_cell_hit m v k l ND G Hk).
  - intros Hno. f_equal. apply safe_cell_miss; assumption.
Qed.

Lemma apply_map_safe_lookup_witness :
  NoDup (dict_keys A5_edu)
  /\ nth_error (apply_map_safe [Int 1; Str "99"; Int 7; NaN] A5_edu) 1
     = Some (Str "Prefer not to say")
  /\ nth_error (apply_map_safe [Int 1; Str "99"; Int 7; NaN] A5_edu) 2
     = Some (Int 7).
Proof.
  pose proof (dict_lit_nodup (K := Z) (V := string)
                [(1, "Did not complete high school");
                 (2, "High school diploma");
                 (3, "GED/alternative credential"); (4, "Some college");
                 (5, "College graduate"); (6, "Post graduate");
                 (99, "Prefer not to say")]) as ND.
  split; [exact ND|].
  destruct (apply_map_safe_lookup A5_edu [Int 1; Str "99"; Int 7; NaN] ND)
    as [_ Hcells].
  split.
  - apply (proj1 (Hcells 1%nat (Str "99") eq_refl) 99 "Prefer not to say").
    + reflexivity.
    + right. reflexivity.
  - apply (proj2 (Hcells 2%nat (Int 7) eq_refl)).
    intros k Hk. vm_compute in Hk.
    repeat (destruct Hk as [<-|Hk]; [split; vm_compute; discriminate|]).
    destruct Hk.
Defined.

(** ** Missingness (C9) *)

Lemma safe_cell_isna (m : code_map) (c : cell) :
  isna (safe_cell m c) = isna c.
Proof.
  unfold safe_cell. destruct c as [|z|s]; simpl; [reflexivity| |].
  - destruct (dict_get (KInt z) (mixed m)); reflexivity.
  - destruct (dict_get (KStr s) (mixed m)); reflexivity.
Qed.

Lemma replace_cell_isna (d : dict pykey string) (c : cell) :
  isna (replace_cell d c) = isna c.
Proof.
  unfold replace_cell. destruct c as [|z|s]; simpl; [reflexivity| |].
  - destruct (dict_get (KInt z) d); reflexivity.
  - destruct (dict_get (KStr s) d); reflexivity.
Qed.

Lemma recode_cell_isna (col : string) (c : cell) :
  isna (recode_cell col c) = isna c.
Proof.
  unfold recode_cell, special_cell.
  destruct (String.eqb col "E5"), (String.eqb col "A3a"),
    (governing_map col);
    rewrite ?replace_cell_isna, ?safe_cell_isna; reflexivity.
Qed.

(** C9.  The safe mapping keeps the pattern of missing cells: row by row,
    the mapped column is missing exactly where the column was, for every
    code map; and so does the whole mapping pass on every cell of every
    column. *)
Theorem apply_map_safe_missingness (m : code_map) (s : series) :
  map isna (apply_map_safe s m) = map isna s
  /\ forall (col : string) (c : cell), isna (recode_cell col c) = isna c.
Proof.
  split; [|apply recode_cell_isna].
  rewrite apply_map_safe_cells, map_map. apply map_ext, safe_cell_isna.
Qed.

(** ** Idempotence of the mapping pass (C7) *)

Lemma replace_cell_idem (d : dict pykey string) (c : cell) :
  stable d = true -> replace_cell d (replace_cell d c) = replace_cell d c.
Proof.
  intros St. unfold replace_cell at 2 3.
  destruct (key_of_cell c) as [k|] eqn:Ek.
  - destruct (dict_get k d) as [l|] eqn:G.
    + unfold stable in St. rewrite forallb_forall in St.
      specialize (St _ (dict_get_in _ _ _ G)). simpl in St.
      unfold replace_cell. simpl.
      destruct (dict_get (KStr l) d) as [l'|]; [|reflexivity].
      apply String.eqb_eq in St. congruence.
    + unfold replace_cell. rewrite Ek, G. reflexivity.
  - unfold replace_cell. rewrite Ek. reflexivity.
Qed.

Lemma safe_cell_replace (m : code_map) (c : cell) :
  safe_cell m c = replace_cell (mixed m) c.
Proof. reflexivity. Qed.

Lemma governing_in_registry (col : string) (m : code_map) :
  governing_map col = Some m -> In m registry_maps.
Proof.
  unfold governing_map, registry_maps. intros G. apply in_or_app.
  destruct (dict_get col COLUMN_MAPS) as [m'|] eqn:E.
  - injection G as ->. left. apply dict_get_in in E.
    change m with (snd (col, m)). apply in_map. exact E.
  - right. destruct (find _ PREFIX_MAPS) as [e|] eqn:F; [|discriminate].
    injection G as <-. apply find_some in F. apply in_map. apply F.
Qed.

Lemma registry_stable :
  forallb (fun m => stable (mixed m)) registry_maps = true.
Proof. vm_compute. reflexivity. Qed.

Lemma governed_not_special (col : string) (m : code_map) (c : cell) :
  governing_map col = Some m -> special_cell col c = c.
Proof.
  intros G. unfold special_cell.
  destruct (String.eqb_spec col "E5") as [->|_];
    [vm_compute in G; discriminate|].
  destruct (String.eqb_spec col "A3a") as [->|_];
    [vm_compute in G; discriminate|].
  reflexivity.
Qed.

Lemma E5_replace_idem (c : cell) :
  replace_cell E5_texts (replace_cell E5_numbers
    (replace_cell E5_texts (replace_cell E5_numbers c)))
  = replace_cell E5_texts (replace_cell E5_numbers c).
Proof.
  destruct c as [|z|s]; [reflexivity| |].
  - destruct (Z.eq_dec z (-98)) as [->|N98]; [reflexivity|].
    destruct (Z.eq_dec z (-99)) as [->|N99]; [reflexivity|].
    assert (E : replace_cell E5_numbers (Int z) = Int z).
    { unfold replace_cell. cbn.
      rewrite (proj2 (Z.eqb_neq z (-98)) N98), (proj2 (Z.eqb_neq z (-99)) N99).
      reflexivity. }
    rewrite E. change (replace_cell E5_texts (Int z)) with (Int z).
    rewrite E. reflexivity.
  - change (replace_cell E5_numbers (Str s)) with (Str s).
    assert (N : forall c, (exists t, c = Str t) ->
                          replace_cell E5_numbers c = c)
      by (intros c [t ->]; reflexivity).
    rewrite (N (replace_cell E5_texts (Str s))).
    + apply replace_cell_idem. vm_compute. reflexivity.
    + unfold replace_cell. cbn [key_of_cell].
      destruct (dict_get (KStr s) E5_texts); eauto.
Qed.

Lemma recode_cell_idem (col : string) (c : cell) :
  recode_cell col (recode_cell col c) = recode_cell col c.
Proof.
  unfold recode_cell.
  destruct (governing_map col) as [m|] eqn:G.
  - rewrite !(governed_not_special col m) by exact G.
    rewrite !safe_cell_replace. apply replace_cell_idem.
    pose proof registry_stable as St. rewrite forallb_forall in St.
    apply St, (governing_in_registry col), G.
  - unfold special_cell.
    destruct (String.eqb_spec col "E5") as [->|_]; simpl.
    + apply E5_replace_idem.
    + destruct (String.eqb col "A3a"); [|reflexivity].
      apply replace_cell_idem. vm_compute. reflexivity.
Qed.

(** C7.  On a frame with distinct column labels, running the mapping pass
    (exact-column maps, then prefix maps, then special cases) on its own
    output changes nothing.  What makes it so: in every code map of the two
    registries a label that is also a key, such as "1" to "10" of the 1-10
    scale, maps back to itself. *)
Theorem apply_mappings_idempotent (df : DataFrame) :
  NoDup (columns df) ->
  apply_mappings (apply_mappings df) = apply_mappings df
  /\ forallb (fun m => stable (mixed m)) registry_maps = true
  /\ map (safe_cell SCALE_1_10) (map (fun i => Str (py_str i)) range_1_11)
     = map (fun i => Str (py_str i)) range_1_11.
Proof.
  intros ND. split; [|split; vm_compute; reflexivity].
  rewrite (apply_mappings_cells df ND).
  rewrite apply_mappings_cells by (rewrite columns_map_cells; exact ND).
  rewrite map_cells_compose. apply map_cells_ext. intros n c.
  apply recode_cell_idem.
Qed.

Lemma apply_mappings_idempotent_witness :
  NoDup (columns idempotence_sample)
  /\ apply_mappings idempotence_sample
     = [("J1", [Str "1"; Str "10"; Str "7"; Str "Don't know"; NaN]);
        ("A11", [Str "4 or more"; Str "1"; Str "3"]);
        ("M1_3", [Str ""; Str "Strongly agree"]);
        ("E5", [Str "Don't know"; Int 35; Str "Prefer not to say"]);
        ("A3a", [Str "Prefer not to say"; Int 42])]
  /\ apply_mappings (apply_mappings idempotence_sample)
     = apply_mappings idempotence_sample.
Proof.
  assert (ND : NoDup (columns idempotence_sample)).
  { repeat constructor; simpl; intuition discriminate. }
  split; [exact ND|]. split; [vm_compute; reflexivity|].
  apply (proj1 (apply_mappings_idempotent idempotence_sample ND)).
Defined.

(** ** Sentinel codes (C2) *)

Lemma governed_recode (col : string) (m : code_map) (c : cell) :
  governing_map col = Some m -> recode_cell col c = safe_cell m c.
Proof.
  intros G. unfold recode_cell. rewrite G. apply (governed_not_special col m), G.
Qed.

Lemma governing_cases (col : string) (m : code_map) :
  governing_map col = Some m ->
  In (col, m) COLUMN_MAPS \/ In m (dict_values PREFIX_MAPS).
Proof.
  unfold governing_map. intros G.
  destruct (dict_get col COLUMN_MAPS) as [m'|] eqn:E.
  - injection G as ->. left. apply dict_get_in, E.
  - right. destruct (find _ PREFIX_MAPS) as [e|] eqn:F; [|discriminate].
    injection G as <-. apply find_some in F. apply in_map, F.
Qed.

Lemma cell_eqb_eq (a b : cell) : cell_eqb a b = true -> a = b.
Proof.
  destruct a, b; simpl; try discriminate.
  - rewrite Z.eqb_eq. congruence.
  - rewrite String.eqb_eq. congruence.
Qed.

Lemma registry_99 :
  forallb (fun e => if String.eqb (fst e) "A3"
                    then undeclared_check 99 (snd e)
                    else sentinel_check 99 "Prefer not to say" (snd e))
          COLUMN_MAPS
  && forallb (sentinel_check 99 "Prefer not to say") (dict_values PREFIX_MAPS)
  = true.
Proof. vm_compute. reflexivity. Qed.

Lemma registry_98 :
  forallb (fun e => if existsb (String.eqb (fst e)) no_98_columns
                    then undeclared_check 98 (snd e)
                    else sentinel_check 98 "Don't know" (snd e))
          COLUMN_MAPS
  && forallb (sentinel_check 98 "Don't know") (dict_values PREFIX_MAPS)
  = true.
Proof. vm_compute. reflexivity. Qed.

Lemma no_98_not_prefixed (col : string) (m : code_map) :
  governing_map col = Some m -> In col no_98_columns ->
  In (col, m) COLUMN_MAPS.
Proof.
  intros G I. unfold governing_map in G.
  destruct (dict_get col COLUMN_MAPS) as [m'|] eqn:E.
  - injection G as ->. apply dict_get_in, E.
  - exfalso. simpl in I.
    repeat (destruct I as [<-|I]; [vm_compute in E; discriminate|]).
    exact I.
Qed.

(** C2, as the code has it.  In a column governed by an exact or a prefix
    code map: code 99, as a number or as the text "99", becomes
    "Prefer not to say" unless the column is A3, whose map declares no
    sentinel and leaves 99 in place; code 98, as a number or as the text
    "98", becomes "Don't know" unless the column is one of A3, A5, A6, A7,
    A11, AM21, AM22, A9, whose maps do not declare 98 and leave it in place.
    Neither code ever becomes another label.  The special cases map -98 and
    -99 of E5 and 999 of A3a to the sentinel labels. *)
Theorem declared_sentinels_recode (col : string) (m : code_map) :
  governing_map col = Some m ->
  (col <> "A3" ->
   recode_cell col (Int 99) = Str "Prefer not to say"
   /\ recode_cell col (Str "99") = Str "Prefer not to say")
  /\ (col = "A3" ->
      recode_cell col (Int 99) = Int 99
      /\ recode_cell col (Str "99") = Str "99")
  /\ (~ In col no_98_columns ->
      recode_cell col (Int 98) = Str "Don't know"
      /\ recode_cell col (Str "98") = Str "Don't know")
  /\ (In col no_98_columns ->
      recode_cell col (Int 98) = Int 98
      /\ recode_cell col (Str "98") = Str "98")
  /\ recode_cell "E5" (Int (-98)) = Str "Don't know"
  /\ recode_cell "E5" (Int (-99)) = Str "Prefer not to say"
  /\ recode_cell "A3a" (Int 999) = Str "Prefer not to say".
Proof.
  intros G.
  pose proof registry_99 as R99. pose proof registry_98 as R98.
  apply andb_true_iff in R99, R98.
  destruct R99 as [C99 P99], R98 as [C98 P98].
  rewrite forallb_forall in C99, P99, C98, P98.
  rewrite !(governed_recode col m) by exact G.
  change (Str "99") with (Str (py_str 99)).
  change (Str "98") with (Str (py_str 98)).
  assert (S : forall z l, sentinel_check z l m = true ->
                          safe_cell m (Int z) = Str l
                          /\ safe_cell m (Str (py_str z)) = Str l).
  { intros z l Hc. apply andb_true_iff in Hc. destruct Hc as [H1 H2].
    split; apply cell_eqb_eq; assumption. }
  assert (U : forall z, undeclared_check z m = true ->
                        safe_cell m (Int z) = Int z
                        /\ safe_cell m (Str (py_str z)) = Str (py_str z)).
  { intros z Hc. apply andb_true_iff in Hc. destruct Hc as [Hc H2].
    apply andb_true_iff in Hc. destruct Hc as [_ H1].
    split; apply cell_eqb_eq; assumption. }
  repeat split; try reflexivity.
  - apply S. destruct (governing_cases col m G) as [I|I].
    + specialize (C99 _ I). simpl in C99.
      destruct (String.eqb_spec col "A3"); [contradiction|exact C99].
    + apply P99, I.
  - apply S. destruct (governing_cases col m G) as [I|I].
    + specialize (C99 _ I). simpl in C99.
      destruct (String.eqb_spec col "A3"); [contradiction|exact C99].
    + apply P99, I.
  - apply U. subst col. vm_compute in G. injection G as <-.
    vm_compute. reflexivity.
  - apply U. subst col. vm_compute in G. injection G as <-.
    vm_compute. reflexivity.
  - apply S. destruct (governing_cases col m G) as [I|I].
    + specialize (C98 _ I). cbn [fst snd] in C98.
      destruct (existsb (String.eqb col) no_98_columns) eqn:X; [|exact C98].
      exfalso. apply H. apply existsb_exists in X. destruct X as (x & Ix & Ex).
      apply String.eqb_eq in Ex. subst x. exact Ix.
    + apply P98, I.
  - apply S. destruct (governing_cases col m G) as [I|I].
    + specialize (C98 _ I). cbn [fst snd] in C98.
      destruct (existsb (String.eqb col) no_98_columns) eqn:X; [|exact C98].
      exfalso. apply H. apply existsb_exists in X. destruct X as (x & Ix & Ex).
      apply String.eqb_eq in Ex. subst x. exact Ix.
    + apply P98, I.
  - apply U. pose proof (no_98_not_prefixed col m G H) as I.
    specialize (C98 _ I). cbn [fst snd] in C98.
    assert (X : existsb (String.eqb col) no_98_columns = true).
    { apply existsb_exists. exists col. split; [exact H|apply String.eqb_refl]. }
    rewrite X in C98. exact C98.
  - apply U. pose proof (no_98_not_prefixed col m G H) as I.
    specialize (C98 _ I). cbn [fst snd] in C98.
    assert (X : existsb (String.eqb col) no_98_columns = true).
    { apply existsb_exists. exists col. split; [exact H|apply String.eqb_refl]. }
    rewrite X in C98. exact C98.
Qed.

Lemma declared_sentinels_recode_witness :
  governing_map "M1_7" = Some AGREE_1_7
  /\ recode_cell "M1_7" (Int 99) = Str "Prefer not to say"
  /\ recode_cell "M1_7" (Int 98) = Str "Don't know".
Proof.
  assert (G : governing_map "M1_7" = Some AGREE_1_7)
    by (vm_compute; reflexivity).
  split; [exact G|].
  destruct (declared_sentinels_recode "M1_7" AGREE_1_7 G)
    as (H99 & _ & H98 & _).
  split.
  - apply H99. discriminate.
  - apply H98. simpl. intuition discriminate.
Defined.

(** The claim of C2 as it is worded fails on the Gender column: the map of
    A3 has no entry for 99, so the cleaned column keeps the number. *)
Lemma sentinel_counterexample :
  governing_map "A3" = Some A3_gender
  /\ clean_data [("A3", [Int 1; Int 99; Int 98])]
     = [("Gender", [Str "Male"; Int 99; Int 98])]
  /\ clean_data [("A5", [Int 6; Int 99; Int 98])]
     = [("Education", [Str "Post graduate"; Str "Prefer not to say"; Int 98])]
  /\ ~ (forall col m z,
          governing_map col = Some m -> z = 98 \/ z = 99 ->
          sentinel_label (recode_cell col (Int z))).
Proof.
  assert (G : governing_map "A3" = Some A3_gender)
    by (vm_compute; reflexivity).
  split; [exact G|]. split; [vm_compute; reflexivity|].
  split; [vm_compute; reflexivity|].
  intros Hall.
  destruct (Hall "A3" A3_gender 99 G (or_intror eq_refl)) as [E|E];
    vm_compute in E; discriminate.
Qed.

(** ** Column pruning (C8) *)

Lemma rename_columns_series table df :
  map snd (rename_columns table df) = map snd df.
Proof.
  unfold rename_columns. rewrite map_map. apply map_ext. intros [n s]. simpl.
  destruct (dict_get n _); reflexivity.
Qed.

(** C8.  The pruning keeps a column that is empty in every row.  The
    script turns the empty text into a missing cell before the mapping so
    that blanks count as missing, and its pruning is to drop the columns
    that are fully empty; but the agreement scale labels the points 2, 3, 5
    and 6 with the empty text, the mapping writes that text into the
    cells, and the pruning, which looks for missing cells only, keeps a
    column of G23 whose answers are all such points. *)
Lemma pruning_counterexample :
  blank_to_nan (Str "") = NaN
  /\ apply_map_safe [Int 2; Int 5] AGREE_1_7 = [Str ""; Str ""]
  /\ NoDup (mapping_labels
              [("NFCSID", [Int 1; Int 2]); ("G23", [Int 2; Int 5])])
  /\ clean_data [("NFCSID", [Int 1; Int 2]); ("G23", [Int 2; Int 5])]
     = [("Respondent_ID", [Int 1; Int 2]); ("G23", [Str ""; Str ""])]
  /\ ~ (forall raw,
          Forall (fun ns => existsb nonempty_cell (snd ns) = true)
                 (clean_data raw)).
Proof.
  assert (E : clean_data [("NFCSID", [Int 1; Int 2]); ("G23", [Int 2; Int 5])]
              = [("Respondent_ID", [Int 1; Int 2]); ("G23", [Str ""; Str ""])])
    by (vm_compute; reflexivity).
  split; [reflexivity|]. split; [vm_compute; reflexivity|].
  split; [vm_compute; repeat constructor; simpl; intuition discriminate|].
  split; [exact E|].
  intros Hall.
  specialize (Hall [("NFCSID", [Int 1; Int 2]); ("G23", [Int 2; Int 5])]).
  rewrite E in Hall.
  inversion Hall as [|? ? _ Hrest]. inversion Hrest as [|? ? Hg _].
  simpl in Hg. discriminate.
Qed.

(** ** Age buckets (C4) *)

Lemma Qle_bool_true (q b : Q) : (q <= b)%Q -> Qle_bool q b = true.
Proof. apply Qle_bool_iff. Qed.

Lemma Qle_bool_false (q b : Q) : (b < q)%Q -> Qle_bool q b = false.
Proof.
  intros L. destruct (Qle_bool q b) eqn:E; [|reflexivity].
  apply Qle_bool_iff in E. exfalso. apply (Qlt_not_le _ _ L E).
Qed.

Lemma Qle_bool_compat (q q' b : Q) : (q == q')%Q -> Qle_bool q b = Qle_bool q' b.
Proof.
  intros E. destruct (Qle_bool q' b) eqn:E'.
  - apply Qle_bool_iff. apply Qle_bool_iff in E'. rewrite E. exact E'.
  - destruct (Qle_bool q b) eqn:E''; [|reflexivity].
    apply Qle_bool_iff in E''. rewrite E in E''.
    apply Qle_bool_iff in E''. congruence.
Qed.

Ltac decide_edges q :=
  repeat match goal with
    | |- context [Qle_bool q ?b] =>
        first [ rewrite (Qle_bool_true q b) by (unfold inject_Z; lra)
              | rewrite (Qle_bool_false q b) by (unfold inject_Z; lra) ]
    end.

Lemma Age_group_bucket (q : Q) :
  ((17 < q <= 24)%Q -> Age_group (Some q) = Some "18-24")
  /\ ((24 < q <= 34)%Q -> Age_group (Some q) = Some "25-34")
  /\ ((34 < q <= 44)%Q -> Age_group (Some q) = Some "35-44")
  /\ ((44 < q <= 54)%Q -> Age_group (Some q) = Some "45-54")
  /\ ((54 < q <= 64)%Q -> Age_group (Some q) = Some "55-64")
  /\ ((64 < q <= 120)%Q -> Age_group (Some q) = Some "65+")
  /\ ((q <= 17)%Q \/ (120 < q)%Q -> Age_group (Some q) = None).
Proof.
  unfold Age_group, cut, bins.
  repeat split; intros H; cbn [filter]; try destruct H as [H|H];
    decide_edges q; reflexivity.
Qed.

(** C4, as the code has it.  The bucket is a function of the numeric age
    alone and does not tell equal numbers apart.  An age in (17,24] is in
    "18-24", in (24,34] in "25-34", in (34,44] in "35-44", in (44,54] in
    "45-54", in (54,64] in "55-64", in (64,120] in "65+"; an edge belongs to
    the bucket below it, 24 to "18-24" and 25 to "25-34".  An age that is at
    most 17 or above 120 has no bucket, and neither has a cell that is not
    a number; for whole ages that is every age outside [18,120]. *)
Theorem Age_group_intervals (q : Q) :
  ((17 < q <= 24)%Q -> Age_group (Some q) = Some "18-24")
  /\ ((24 < q <= 34)%Q -> Age_group (Some q) = Some "25-34")
  /\ ((34 < q <= 44)%Q -> Age_group (Some q) = Some "35-44")
  /\ ((44 < q <= 54)%Q -> Age_group (Some q) = Some "45-54")
  /\ ((54 < q <= 64)%Q -> Age_group (Some q) = Some "55-64")
  /\ ((64 < q <= 120)%Q -> Age_group (Some q) = Some "65+")
  /\ ((q <= 17)%Q \/ (120 < q)%Q -> Age_group (Some q) = None)
  /\ (forall q', (q == q')%Q -> Age_group (Some q) = Age_group (Some q'))
  /\ (forall z : Z, z < 18 \/ 120 < z -> Age_group (Some (inject_Z z)) = None)
  /\ map Age_group [Some 24%Q; Some 25%Q; Some 34%Q; Some 44%Q; Some 54%Q;
                    Some 64%Q; Some 120%Q]
     = [Some "18-24"; Some "25-34"; Some "25-34"; Some "35-44"; Some "45-54";
        Some "55-64"; Some "65+"]
  /\ Age_group None = None
  /\ (forall parse c, to_numeric parse c = None ->
                      cell_of_label (Age_group (to_numeric parse c)) = NaN).
Proof.
  pose proof (Age_group_bucket q) as (B1 & B2 & B3 & B4 & B5 & B6 & B7).
  repeat split; try assumption.
  - intros q' E. unfold Age_group, cut, bins. cbn [filter].
    rewrite !(Qle_bool_compat q q') by exact E. reflexivity.
  - intros z Hz.
    apply (proj2 (proj2 (proj2 (proj2 (proj2 (proj2
             (Age_group_bucket (inject_Z z)))))))).
    destruct Hz as [Hz|Hz]; [left|right].
    + unfold Qle. simpl. lia.
    + unfold Qlt. simpl. lia.
  - intros parse c E. rewrite E. reflexivity.
Qed.

(** The claim of C4 as it is worded fails between 17 and 18: the age 17.5
    is outside [18,120] and is put in "18-24". *)
Lemma Age_group_counterexample :
  Age_group (Some (35 # 2)) = Some "18-24"
  /\ ~ (18 <= 35 # 2)%Q
  /\ ~ (forall q : Q, ~ (18 <= q <= 120)%Q -> Age_group (Some q) = None).
Proof.
  split; [reflexivity|]. split.
  - intros L. unfold Qle in L. simpl in L. lia.
  - intros Hall.
    assert (N : ~ (18 <= 35 # 2 <= 120)%Q)
      by (intros [L _]; unfold Qle in L; simpl in L; lia).
    specialize (Hall (35 # 2) N). discriminate.
Qed.

(** ** Frames: reading back what was assigned *)

Lemma has_column_get (col : string) (df : DataFrame) :
  has_column col df = true <-> exists s, df_get col df = Some s.
Proof.
  unfold has_column, columns, df_get.
  induction df as [|[n s] df IH]; simpl.
  - split; [discriminate|intros [s E]; discriminate].
  - unfold keyb, Key_string. destruct (String.eqb col n); simpl.
    + split; eauto.
    + exact IH.
Qed.

Lemma has_column_false (col : string) (df : DataFrame) :
  has_column col df = false <-> df_get col df = None.
Proof.
  pose proof (has_column_get col df) as E.
  destruct (has_column col df), (df_get col df) as [s|].
  - split; [discriminate|discriminate].
  - destruct (proj1 E eq_refl) as [s E']. discriminate.
  - assert (X : false = true) by (apply E; eauto). discriminate.
  - tauto.
Qed.

Lemma df_get_update (c col : string) (f : series -> series) (df : DataFrame) :
  df_get c (df_update col f df)
  = if String.eqb c col then option_map f (df_get c df) else df_get c df.
Proof.
  unfold df_get, df_update.
  induction df as [|[n s] df IH]; simpl.
  - destruct (String.eqb c col); reflexivity.
  - unfold keyb, Key_string in *.
    destruct (String.eqb_spec n col) as [->|N]; simpl.
    + destruct (String.eqb_spec c col) as [->|N'].
      * reflexivity.
      * exact IH.
    + destruct (String.eqb_spec c n) as [->|N'].
      * destruct (String.eqb_spec n col); [contradiction|reflexivity].
      * exact IH.
Qed.

Lemma df_get_setitem (c col : string) (s : series) (df : DataFrame) :
  df_get c (df_setitem col s df)
  = if String.eqb c col then Some s else df_get c df.
Proof.
  unfold df_setitem. destruct (has_column col df) eqn:Hc.
  - rewrite df_get_update. destruct (String.eqb_spec c col) as [->|]; [|reflexivity].
    apply has_column_get in Hc. destruct Hc as [s0 ->]. reflexivity.
  - apply has_column_false in Hc. unfold df_get in *. rewrite dict_get_app.
    cbn [dict_get]. change (keyb c col) with (String.eqb c col).
    destruct (String.eqb_spec c col) as [->|].
    + rewrite Hc. reflexivity.
    + destruct (dict_get c df); reflexivity.
Qed.

Lemma has_column_setitem (c col : string) (s : series) (df : DataFrame) :
  has_column c (df_setitem col s df)
  = String.eqb c col || has_column c df.
Proof.
  pose proof (df_get_setitem c col s df) as E.
  destruct (String.eqb c col); simpl.
  - apply has_column_get. eauto.
  - destruct (has_column c df) eqn:Hc.
    + apply has_column_get. rewrite E. apply has_column_get, Hc.
    + apply has_column_false. rewrite E. apply has_column_false, Hc.
Qed.

Lemma rectangular_get (df : DataFrame) (col : string) (s : series) :
  rectangular df = true -> df_get col df = Some s -> length s = nrows df.
Proof.
  unfold rectangular. intros R G. rewrite forallb_forall in R.
  apply dict_get_in in G. specialize (R _ G). apply Nat.eqb_eq in R. exact R.
Qed.

Lemma nrows_setitem (col : string) (s : series) (df : DataFrame) :
  length s = nrows df -> nrows (df_setitem col s df) = nrows df.
Proof.
  intros L. unfold df_setitem. destruct (has_column col df).
  - destruct df as [|[n0 s0] df]; [reflexivity|]. simpl.
    destruct (String.eqb n0 col); simpl; [exact L|reflexivity].
  - destruct df as [|[n0 s0] df]; [exact L|reflexivity].
Qed.

Lemma rectangular_setitem (col : string) (s : series) (df : DataFrame) :
  rectangular df = true -> length s = nrows df ->
  rectangular (df_setitem col s df) = true.
Proof.
  intros R L. unfold rectangular. rewrite nrows_setitem by exact L.
  unfold rectangular in R. rewrite forallb_forall in R.
  apply forallb_forall. intros [n0 s0] I. simpl.
  unfold df_setitem in I. destruct (has_column col df).
  - unfold df_update in I. apply in_map_iff in I.
    destruct I as ([n1 s1] & E & I). simpl in E.
    destruct (String.eqb n1 col); injection E as <- <-.
    + apply Nat.eqb_eq, L.
    + apply (R _ I).
  - apply in_app_or in I. destruct I as [I|[E|[]]].
    + apply (R _ I).
    + injection E as <- <-. apply Nat.eqb_eq, L.
Qed.

(** ** The literacy score (C1) *)

Lemma cell_eqb_str (c : cell) (key : string) :
  cell_eqb c (Str key) = true <-> c = Str key.
Proof.
  split; [apply cell_eqb_eq|]. intros ->. simpl. apply String.eqb_refl.
Qed.

Lemma cell_at_map (f : cell -> cell) (s : series) (i : nat) :
  (i < length s)%nat -> cell_at (map f s) i = f (cell_at s i).
Proof.
  intros L. unfold cell_at.
  rewrite (nth_indep (map f s) NaN (f NaN)) by (rewrite length_map; exact L).
  apply map_nth.
Qed.

Lemma sum_axis1_length (cols : list series) (rows : nat) :
  length (sum_axis1 cols rows) = rows.
Proof. unfold sum_axis1. rewrite length_map, length_seq. reflexivity. Qed.

Lemma sum_axis1_nth (cols : list series) (rows i : nat) :
  (i < rows)%nat ->
  nth_error (sum_axis1 cols rows) i
  = Some (Int (fold_right (fun s acc => int_value (cell_at s i) + acc) 0 cols)).
Proof.
  intros L. unfold sum_axis1. rewrite nth_error_map.
  rewrite (nth_error_nth' (seq 0 rows) 0%nat) by (rewrite length_seq; exact L).
  rewrite seq_nth by exact L. reflexivity.
Qed.

Lemma bind_ok {A B : Type} (m : script A) (f : A -> script B)
      (a : A) (out out' : list event) :
  m out = Ok a out' -> bind m f out = f a out'.
Proof. intros E. unfold bind. rewrite E. reflexivity. Qed.

Lemma bind_raised {A B : Type} (m : script A) (f : A -> script B)
      (e : error) (out out' : list event) :
  m out = Raised e out' -> bind m f out = Raised e out'.
Proof. intros E. unfold bind. rewrite E. reflexivity. Qed.

Lemma getitem_ok (col : string) (df : DataFrame) (s : series)
      (out : list event) :
  df_get col df = Some s -> getitem col df out = Ok s out.
Proof. intros E. unfold getitem. rewrite E. reflexivity. Qed.

Lemma getitem_raised (col : string) (df : DataFrame) (out : list event) :
  df_get col df = None -> getitem col df out = Raised (KeyError col) out.
Proof. intros E. unfold getitem. rewrite E. reflexivity. Qed.

Lemma get_all_ok (cols : list string) (df : DataFrame) (ss : list series)
      (out : list event) :
  Forall2 (fun c s => df_get c df = Some s) cols ss ->
  get_all cols df out = Ok ss out.
Proof.
  intros F. induction F as [|c s cols ss G F IH]; [reflexivity|].
  cbn [get_all].
  rewrite (bind_ok _ _ s out out) by (apply getitem_ok, G).
  rewrite (bind_ok _ _ ss out out) by exact IH.
  reflexivity.
Qed.

Lemma score_step_ok (df : DataFrame) (col key : string) (s : series)
      (out : list event) :
  df_get col df = Some s -> dict_get col correct_answers = Some key ->
  score_step df col out
  = Ok (df_setitem (col ++ "_score") (score_column key s) df) out.
Proof.
  intros G K. unfold score_step.
  rewrite (bind_ok _ _ s out out) by (apply getitem_ok, G).
  rewrite K. reflexivity.
Qed.

(** Decides the comparisons of column labels a goal holds. *)
Ltac eval_labels :=
  repeat match goal with
    | |- context [String.eqb ?a ?b] =>
        let v := eval vm_compute in (String.eqb a b) in
        change (String.eqb a b) with v
    end;
  cbv iota.

Ltac read_back := rewrite ?df_get_setitem; eval_labels; try eassumption;
                  try reflexivity.

Lemma build_literacy_frame (df : DataFrame) (out : list event)
      (s1 s2 s3 s4 s5 : series) :
  df_get "Q_Interest" df = Some s1 ->
  df_get "Q_Inflation" df = Some s2 ->
  df_get "Q_Bonds" df = Some s3 ->
  df_get "Q_Risk" df = Some s4 ->
  df_get "Q_Mortgage" df = Some s5 ->
  let scored :=
    df_setitem "Q_Mortgage_score" (score_column "False" s5)
      (df_setitem "Q_Risk_score" (score_column "True" s4)
         (df_setitem "Q_Bonds_score" (score_column "Fall" s3)
            (df_setitem "Q_Inflation_score" (score_column "More than today" s2)
               (df_setitem "Q_Interest_score"
                  (score_column "More than $102" s1) df)))) in
  build_literacy df out
  = Ok (df_setitem "literacy_score"
          (sum_axis1 [score_column "More than $102" s1;
                      score_column "More than today" s2;
                      score_column "Fall" s3;
                      score_column "True" s4;
                      score_column "False" s5] (nrows scored)) scored) out.
Proof.
  intros G1 G2 G3 G4 G5 scored.
  unfold build_literacy, LITERACY_COLS.
  rewrite (bind_ok _ _ scored out out).
  - cbn [map].
    change ("Q_Interest" ++ "_score") with "Q_Interest_score".
    change ("Q_Inflation" ++ "_score") with "Q_Inflation_score".
    change ("Q_Bonds" ++ "_score") with "Q_Bonds_score".
    change ("Q_Risk" ++ "_score") with "Q_Risk_score".
    change ("Q_Mortgage" ++ "_score") with "Q_Mortgage_score".
    rewrite (bind_ok _ _ [score_column "More than $102" s1;
                          score_column "More than today" s2;
                          score_column "Fall" s3;
                          score_column "True" s4;
                          score_column "False" s5] out out); [reflexivity|].
    apply get_all_ok. unfold scored.
    repeat (constructor; [read_back|]). constructor.
  - cbn [for_each].
    repeat (erewrite bind_ok;
            [|apply score_step_ok; [read_back|vm_compute; reflexivity]]).
    reflexivity.
Qed.

Lemma score_column_at (key : string) (s : series) (i : nat) :
  (i < length s)%nat ->
  int_value (cell_at (score_column key s) i) = is_correct key (cell_at s i).
Proof.
  intros L. unfold score_column.
  rewrite (cell_at_map (fun c => Int (is_correct key c))) by exact L.
  reflexivity.
Qed.

(** C1.  On a frame that has the five question columns, the scoring step
    does not raise and gives every row a score: an integer that is the
    number of the five columns whose cell is the text of the answer key, hence
    between 0 and 5.  A cell counts exactly when it is that text; a missing
    cell and any other text count 0. *)
Theorem literacy_score_counts (df : DataFrame) (out : list event) :
  rectangular df = true ->
  forallb (fun c => has_column c df) LITERACY_COLS = true ->
  (exists df' scores,
      build_literacy df out = Ok df' out
      /\ df_get "literacy_score" df' = Some scores
      /\ length scores = nrows df
      /\ forall i, (i < nrows df)%nat ->
           exists z, nth_error scores i = Some (Int z)
                     /\ z = correct_count df i
                     /\ 0 <= z <= 5)
  /\ (forall key c, is_correct key c = 1 <-> c = Str key)
  /\ (forall key c, c <> Str key -> is_correct key c = 0)
  /\ (forall key, is_correct key NaN = 0).
Proof.
  intros R Hcols.
  assert (Hone : forall key c, is_correct key c = 1 <-> c = Str key).
  { intros key c. unfold is_correct. rewrite <- cell_eqb_str.
    destruct (cell_eqb c (Str key)); split; congruence. }
  split; [|split; [exact Hone|split]].
  2:{ intros key c N. unfold is_correct.
      destruct (cell_eqb c (Str key)) eqn:E; [|reflexivity].
      apply cell_eqb_str in E. contradiction. }
  2:{ reflexivity. }
  cbn [forallb LITERACY_COLS] in Hcols.
  repeat (apply andb_true_iff in Hcols;
          let H := fresh "P" in destruct Hcols as [H Hcols]).
  apply has_column_get in P, P0, P1, P2, P3.
  destruct P as [s1 G1], P0 as [s2 G2], P1 as [s3 G3], P2 as [s4 G4],
    P3 as [s5 G5].
  pose proof (rectangular_get df _ _ R G1) as L1.
  pose proof (rectangular_get df _ _ R G2) as L2.
  pose proof (rectangular_get df _ _ R G3) as L3.
  pose proof (rectangular_get df _ _ R G4) as L4.
  pose proof (rectangular_get df _ _ R G5) as L5.
  pose proof (build_literacy_frame df out s1 s2 s3 s4 s5 G1 G2 G3 G4 G5) as B.
  cbv zeta in B.
  assert (N : nrows
                (df_setitem "Q_Mortgage_score" (score_column "False" s5)
                   (df_setitem "Q_Risk_score" (score_column "True" s4)
                      (df_setitem "Q_Bonds_score" (score_column "Fall" s3)
                         (df_setitem "Q_Inflation_score"
                            (score_column "More than today" s2)
                            (df_setitem "Q_Interest_score"
                               (score_column "More than $102" s1) df)))))
              = nrows df).
  { repeat (rewrite nrows_setitem;
            [|unfold score_column; rewrite length_map;
              rewrite ?nrows_setitem;
              try (unfold score_column; rewrite length_map); eauto]).
    all: try reflexivity.
    all: repeat (rewrite nrows_setitem;
                 [|unfold score_column; rewrite length_map;
                   rewrite ?nrows_setitem;
                   try (unfold score_column; rewrite length_map); eauto]);
      eauto. }
  rewrite N in B.
  eexists. eexists. split; [exact B|].
  split; [rewrite df_get_setitem; rewrite String.eqb_refl; reflexivity|].
  split; [apply sum_axis1_length|].
  intros i Hi. eexists. split; [apply sum_axis1_nth, Hi|].
  cbn [fold_right].
  rewrite !score_column_at by congruence.
  unfold correct_count. cbn [LITERACY_COLS filter].
  rewrite G1, G2, G3, G4, G5.
  change (dict_get "Q_Interest" correct_answers) with (Some "More than $102").
  change (dict_get "Q_Inflation" correct_answers) with (Some "More than today").
  change (dict_get "Q_Bonds" correct_answers) with (Some "Fall").
  change (dict_get "Q_Risk" correct_answers) with (Some "True").
  change (dict_get "Q_Mortgage" correct_answers) with (Some "False").
  unfold is_correct.
  destruct (cell_eqb (cell_at s1 i) (Str "More than $102"));
    destruct (cell_eqb (cell_at s2 i) (Str "More than today"));
    destruct (cell_eqb (cell_at s3 i) (Str "Fall"));
    destruct (cell_eqb (cell_at s4 i) (Str "True"));
    destruct (cell_eqb (cell_at s5 i) (Str "False"));
    cbn [length]; split; try reflexivity; lia.
Qed.

Lemma literacy_score_counts_witness :
  rectangular survey_sample = true
  /\ forallb (fun c => has_column c survey_sample) LITERACY_COLS = true
  /\ exists df' scores,
      build_literacy survey_sample [] = Ok df' []
      /\ df_get "literacy_score" df' = Some scores
      /\ length scores = nrows survey_sample
      /\ forall i, (i < nrows survey_sample)%nat ->
           exists z, nth_error scores i = Some (Int z)
                     /\ z = correct_count survey_sample i
                     /\ 0 <= z <= 5.
Proof.
  assert (R : rectangular survey_sample = true) by (vm_compute; reflexivity).
  assert (C : forallb (fun c => has_column c survey_sample) LITERACY_COLS
              = true) by (vm_compute; reflexivity).
  split; [exact R|]. split; [exact C|].
  exact (proj1 (literacy_score_counts survey_sample [] R C)).
Defined.

(** ** Missing grouping columns (C3) *)

Section Report.

Variable parse_number : string -> option Q.
Variable observed : bool.

Lemma build_age_group_get (c : string) (df : DataFrame) :
  c <> "Age_group" ->
  df_get c (frame (build_age_group parse_number df)) = df_get c df.
Proof.
  intros N. unfold build_age_group.
  destruct (df_get "Age" df); [|destruct (df_get "Age_Category_Code" df)];
    cbn [frame]; rewrite ?df_get_setitem;
    try (destruct (String.eqb_spec c "Age_group"); [contradiction|]);
    reflexivity.
Qed.

Lemma get_all_present (cols : list string) (df : DataFrame)
      (out : list event) :
  forallb (fun c => has_column c df) cols = true ->
  exists ss, get_all cols df out = Ok ss out
             /\ Forall2 (fun c s => df_get c df = Some s) cols ss.
Proof.
  induction cols as [|c cols IH]; intros H.
  - exists []. split; [reflexivity|constructor].
  - cbn [forallb] in H. apply andb_true_iff in H. destruct H as [Hc H].
    apply has_column_get in Hc. destruct Hc as [s G].
    destruct (IH H) as (ss & E & F). exists (s :: ss).
    split; [|constructor; assumption].
    cbn [get_all].
    rewrite (bind_ok _ _ s out out) by (apply getitem_ok, G).
    rewrite (bind_ok _ _ ss out out) by exact E.
    reflexivity.
Qed.

(** [summarize] returns a table when the grouping columns and the score
    are there and the keys can be put in order. *)
Lemma summarize_ok (cols : list string) (st : frame_state)
      (out : list event) :
  forallb (fun c => has_column c (frame st)) cols = true ->
  has_column "literacy_score" (frame st) = true ->
  (forall ss, Forall2 (fun c s => df_get c (frame st) = Some s) cols ss ->
              unsortable observed (categories st) cols ss = None) ->
  exists tbl, summarize observed cols st out = Ok tbl out.
Proof.
  intros Hc Hs Hu.
  destruct (get_all_present cols (frame st) out Hc) as (ss & E & F).
  apply has_column_get in Hs. destruct Hs as [scores G].
  eexists. unfold summarize.
  rewrite (bind_ok _ _ ss out out) by exact E.
  rewrite (bind_ok _ _ scores out out) by (apply getitem_ok, G).
  cbv zeta. rewrite (Hu ss F). reflexivity.
Qed.

(** A table by one column never fails for the order of its keys. *)
Lemma unsortable_one (cats : dict string (list string)) (c : string)
      (ss : list series) :
  unsortable observed cats [c] ss = None.
Proof.
  unfold unsortable. destruct observed; [reflexivity|]. cbn [orb existsb].
  rewrite orb_false_r.
  destruct (dict_has c cats) eqn:D; [|reflexivity]. cbn [negb].
  destruct ss as [|s ss]; [reflexivity|]. cbn [combine find fst snd].
  rewrite D. destruct ss; reflexivity.
Qed.

Lemma summarize_one_ok (c : string) (st : frame_state) (out : list event) :
  has_column c (frame st) = true ->
  has_column "literacy_score" (frame st) = true ->
  exists tbl, summarize observed [c] st out = Ok tbl out.
Proof.
  intros Hc Hs. apply summarize_ok; [|exact Hs|].
  - cbn [forallb]. rewrite Hc. reflexivity.
  - intros ss _. apply unsortable_one.
Qed.

(** A table by age group and gender does not fail for the order of its
    keys when the Gender column does not mix numbers and texts. *)
Lemma unsortable_age_gender (st : frame_state) (ss : list series) :
  (forall c, dict_has c (categories st) = true -> c = "Age_group") ->
  (forall s, df_get "Gender" (frame st) = Some s -> mixes s = false) ->
  Forall2 (fun c s => df_get c (frame st) = Some s)
          ["Age_group"; "Gender"] ss ->
  unsortable observed (categories st) ["Age_group"; "Gender"] ss = None.
Proof.
  intros Hc Hg F. inversion F as [|c1 s1 l1 ss1 G1 F1]. subst.
  inversion F1 as [|c2 s2 l2 ss2 G2 F2]. subst. inversion F2. subst.
  unfold unsortable. cbn [existsb]. rewrite orb_false_r.
  destruct (dict_has "Gender" (categories st)) eqn:Dg;
    [specialize (Hc _ Dg); discriminate|].
  rewrite orb_false_r.
  destruct (dict_has "Age_group" (categories st)) eqn:Da.
  - destruct observed; [reflexivity|]. cbn [orb negb].
    cbn [combine find fst snd]. rewrite Da, Dg, (Hg s2 G2). reflexivity.
  - rewrite orb_true_r. reflexivity.
Qed.

Lemma build_age_group_categories (df : DataFrame) (c : string) :
  dict_has c (categories (build_age_group parse_number df)) = true ->
  c = "Age_group".
Proof.
  unfold build_age_group.
  destruct (df_get "Age" df); [|destruct (df_get "Age_Category_Code" df)];
    cbn [categories]; try discriminate.
  unfold dict_has, dict_lit. cbn.
  destruct (String.eqb_spec c "Age_group"); [tauto|discriminate].
Qed.


Lemma emit_ok (ev : event) (out : list event) :
  emit ev out = Ok tt (out ++ [ev])%list.
Proof. reflexivity. Qed.

Lemma report_geo_ok (col title file : string) (st : frame_state)
      (out : list event) :
  has_column "literacy_score" (frame st) = true ->
  exists tbl,
    report_geo observed col title file st out
    = Ok tt (out ++ geo_events col title file (has_column col (frame st)) tbl)%list.
Proof.
  intros Hs. unfold report_geo, geo_events.
  destruct (has_column col (frame st)) eqn:Hc.
  - destruct (summarize_one_ok col st out Hc Hs) as [tbl E].
    exists tbl. rewrite (bind_ok _ _ tbl out out) by exact E.
    unfold bind. rewrite !emit_ok. rewrite <- app_assoc. reflexivity.
  - exists []. apply emit_ok.
Qed.

Lemma report_age_gender_ok (st : frame_state) (out : list event) :
  has_column "Age_group" (frame st) = true ->
  has_column "Gender" (frame st) = true ->
  has_column "literacy_score" (frame st) = true ->
  (forall c, dict_has c (categories st) = true -> c = "Age_group") ->
  (forall s, df_get "Gender" (frame st) = Some s -> mixes s = false) ->
  exists age_tbl gender_tbl age_gender_tbl,
    report_age_gender observed st out
    = Ok tt (out ++ [Printed "=== Literacy by Age Group ===" age_tbl;
                     Printed "=== Literacy by Gender ===" gender_tbl;
                     Printed "=== Literacy by Age × Gender ===" age_gender_tbl;
                     Saved "literacy_by_age.png";
                     Saved "literacy_by_gender.png";
                     Saved "literacy_by_age_gender.png"])%list.
Proof.
  intros Ha Hg Hs Hc Hm.
  destruct (summarize_one_ok "Age_group" st out Ha Hs) as [t1 E1].
  destruct (summarize_one_ok "Gender" st out Hg Hs) as [t2 E2].
  destruct (summarize_ok ["Age_group"; "Gender"] st out) as [t3 E3];
    [cbn [forallb]; rewrite Ha, Hg; reflexivity|exact Hs|
     intros ss F; apply unsortable_age_gender; assumption|].
  exists t1, t2, t3. unfold report_age_gender.
  rewrite (bind_ok _ _ t1 out out) by exact E1.
  rewrite (bind_ok _ _ t2 out out) by exact E2.
  rewrite (bind_ok _ _ t3 out out) by exact E3.
  unfold bind. rewrite !emit_ok. rewrite <- !app_assoc. reflexivity.
Qed.

Lemma has_column_as_get (c : string) (df : DataFrame) :
  has_column c df = match df_get c df with Some _ => true | None => false end.
Proof.
  destruct (df_get c df) eqn:G.
  - apply has_column_get. eauto.
  - apply has_column_false, G.
Qed.

Lemma build_age_group_keeps (c : string) (df : DataFrame) :
  c <> "Age_group" ->
  has_column c (frame (build_age_group parse_number df)) = has_column c df.
Proof.
  intros N. rewrite !has_column_as_get, build_age_group_get by exact N.
  reflexivity.
Qed.

(** The frame after the scoring step has the columns of the input and the
    six score columns. *)
Lemma build_literacy_columns (df : DataFrame) (out : list event) :
  forallb (fun c => has_column c df) LITERACY_COLS = true ->
  exists df',
    build_literacy df out = Ok df' out
    /\ has_column "literacy_score" df' = true
    /\ forall c, has_column c df = true -> has_column c df' = true.
Proof.
  intros Hcols. cbn [forallb LITERACY_COLS] in Hcols.
  repeat (apply andb_true_iff in Hcols;
          let H := fresh "P" in destruct Hcols as [H Hcols]).
  apply has_column_get in P, P0, P1, P2, P3.
  destruct P as [s1 G1], P0 as [s2 G2], P1 as [s3 G3], P2 as [s4 G4],
    P3 as [s5 G5].
  eexists. split; [apply (build_literacy_frame df out s1 s2 s3 s4 s5);
                   assumption|].
  split.
  - rewrite has_column_setitem. reflexivity.
  - intros c Hc. rewrite !has_column_setitem, Hc.
    rewrite !orb_true_r. reflexivity.
Qed.

Lemma build_literacy_keeps (df df' : DataFrame) (out out' : list event)
      (c : string) :
  build_literacy df out = Ok df' out' ->
  has_column c df = false ->
  forallb (fun n => negb (String.eqb c n))
          ["Q_Interest_score"; "Q_Inflation_score"; "Q_Bonds_score";
           "Q_Risk_score"; "Q_Mortgage_score"; "literacy_score"] = true ->
  has_column c df' = false.
Proof.
  intros B Hc Hn.
  destruct (forallb (fun c => has_column c df) LITERACY_COLS) eqn:Hcols.
  - cbn [forallb LITERACY_COLS] in Hcols.
    repeat (apply andb_true_iff in Hcols;
            let H := fresh "P" in destruct Hcols as [H Hcols]).
    apply has_column_get in P, P0, P1, P2, P3.
    destruct P as [s1 G1], P0 as [s2 G2], P1 as [s3 G3], P2 as [s4 G4],
      P3 as [s5 G5].
    rewrite (build_literacy_frame df out s1 s2 s3 s4 s5 G1 G2 G3 G4 G5) in B.
    injection B as <- _.
    cbn [forallb] in Hn.
    repeat (apply andb_true_iff in Hn;
            let H := fresh "N" in destruct Hn as [H Hn]).
    rewrite negb_true_iff in N, N0, N1, N2, N3, N4.
    rewrite !has_column_setitem, Hc, N, N0, N1, N2, N3, N4. reflexivity.
  - exfalso. clear Hn Hc.
    unfold build_literacy in B.
    assert (X : exists e o, for_each score_step LITERACY_COLS df out
                            = Raised e o).
    { clear B. cbn [forallb LITERACY_COLS] in Hcols.
      unfold LITERACY_COLS. cbn [for_each].
      destruct (df_get "Q_Interest" df) as [s1|] eqn:G1.
      2:{ eexists. eexists. apply bind_raised. unfold score_step.
          apply bind_raised. apply getitem_raised, G1. }
      erewrite bind_ok;
        [|apply score_step_ok; [read_back|vm_compute; reflexivity]].
      destruct (df_get "Q_Inflation" df) as [s2|] eqn:G2.
      2:{ eexists. eexists. apply bind_raised. unfold score_step.
          apply bind_raised. apply getitem_raised. read_back. }
      erewrite bind_ok;
        [|apply score_step_ok; [read_back|vm_compute; reflexivity]].
      destruct (df_get "Q_Bonds" df) as [s3|] eqn:G3.
      2:{ eexists. eexists. apply bind_raised. unfold score_step.
          apply bind_raised. apply getitem_raised. read_back. }
      erewrite bind_ok;
        [|apply score_step_ok; [read_back|vm_compute; reflexivity]].
      destruct (df_get "Q_Risk" df) as [s4|] eqn:G4.
      2:{ eexists. eexists. apply bind_raised. unfold score_step.
          apply bind_raised. apply getitem_raised. read_back. }
      erewrite bind_ok;
        [|apply score_step_ok; [read_back|vm_compute; reflexivity]].
      destruct (df_get "Q_Mortgage" df) as [s5|] eqn:G5.
      2:{ eexists. eexists. apply bind_raised. unfold score_step.
          apply bind_raised. apply getitem_raised. read_back. }
      exfalso.
      rewrite !has_column_as_get, G1, G2, G3, G4, G5 in Hcols.
      discriminate. }
    destruct X as (e & o & X).
    rewrite (bind_raised _ _ e out o X) in B. discriminate.
Qed.

Lemma build_literacy_same (df df' : DataFrame) (out out' : list event)
      (c : string) :
  build_literacy df out = Ok df' out' ->
  forallb (fun c => has_column c df) LITERACY_COLS = true ->
  forallb (fun n => negb (String.eqb c n))
          ["Q_Interest_score"; "Q_Inflation_score"; "Q_Bonds_score";
           "Q_Risk_score"; "Q_Mortgage_score"; "literacy_score"] = true ->
  has_column c df' = has_column c df.
Proof.
  intros B Hcols Hn. destruct (has_column c df) eqn:Hc.
  - destruct (build_literacy_columns df out Hcols) as (df2 & B2 & _ & K).
    rewrite B in B2. injection B2 as <- _. apply K, Hc.
  - apply (build_literacy_keeps df df' out out' c B Hc Hn).
Qed.

End Report.

(** C3.  The two box plots that end the script have no guard.  The bar
    chart of an absent Census_Region or Census_Division is skipped with a
    diagnostic, as the guards of plots 4 and 5 provide; the box plot of the
    same column then raises [ValueError] and the run stops, so the charts
    that follow are never drawn.  Without Census_Region neither box plot is
    saved; without Census_Division the region box plot is the last file. *)
Lemma box_plot_aborts_run :
  has_column "Census_Region" no_region_sample = false
  /\ raised (analysis parse_whole false no_region_sample [])
     = Some (ValueError "Census_Region")
  /\ raised (analysis parse_whole true no_region_sample [])
     = Some (ValueError "Census_Region")
  /\ files_and_messages (output (analysis parse_whole false no_region_sample []))
     = [Saved "literacy_by_age.png"; Saved "literacy_by_gender.png";
        Saved "literacy_by_age_gender.png";
        Message "Column 'Census_Region' not found in dataset.";
        Saved "literacy_by_division.png"]
  /\ has_column "Census_Division" no_division_sample = false
  /\ raised (analysis parse_whole false no_division_sample [])
     = Some (ValueError "Census_Division")
  /\ files_and_messages
       (output (analysis parse_whole false no_division_sample []))
     = [Saved "literacy_by_age.png"; Saved "literacy_by_gender.png";
        Saved "literacy_by_age_gender.png";
        Saved "literacy_by_region.png";
        Message "Column 'Census_Division' not found in dataset.";
        Saved "literacy_boxplot_region.png"]
  /\ ~ (forall df col,
          In col ["Census_Region"; "Census_Division"] ->
          has_column col df = false ->
          raised (analysis parse_whole false df []) = None).
Proof.
  split; [vm_compute; reflexivity|]. split; [vm_compute; reflexivity|].
  split; [vm_compute; reflexivity|]. split; [vm_compute; reflexivity|].
  split; [vm_compute; reflexivity|]. split; [vm_compute; reflexivity|].
  split; [vm_compute; reflexivity|].
  intros Hall.
  assert (I : In "Census_Region" ["Census_Region"; "Census_Division"])
    by (left; reflexivity).
  assert (A : has_column "Census_Region" no_region_sample = false)
    by (vm_compute; reflexivity).
  pose proof (Hall no_region_sample "Census_Region" I A) as E.
  assert (E' : raised (analysis parse_whole false no_region_sample [])
               = Some (ValueError "Census_Region"))
    by (vm_compute; reflexivity).
  rewrite E' in E. discriminate.
Qed.

(** ** Group keys *)

Lemma cell_eqb_notna (a b : cell) : cell_eqb a b = true -> isna a = false.
Proof. destruct a, b; simpl; congruence. Qed.

Lemma cell_eqb_refl (a : cell) : isna a = false -> cell_eqb a a = true.
Proof.
  destruct a; simpl; [discriminate| |]; intros _.
  - apply Z.eqb_refl.
  - apply String.eqb_refl.
Qed.

Lemma key_eqb_eq (a b : list cell) : key_eqb a b = true -> a = b.
Proof.
  revert b. induction a as [|x a IH]; intros [|y b]; simpl; try discriminate.
  - reflexivity.
  - intros H. apply andb_true_iff in H. destruct H as [H1 H2].
    apply cell_eqb_eq in H1. apply IH in H2. congruence.
Qed.

Lemma key_eqb_present (a b : list cell) :
  key_eqb a b = true -> key_missing a = false.
Proof.
  revert b. induction a as [|x a IH]; intros [|y b]; simpl; try discriminate.
  - reflexivity.
  - intros H. apply andb_true_iff in H. destruct H as [H1 H2].
    apply cell_eqb_notna in H1. rewrite H1. simpl. apply (IH b H2).
Qed.

Lemma key_eqb_refl (a : list cell) : key_missing a = false -> key_eqb a a = true.
Proof.
  induction a as [|x a IH]; simpl; [reflexivity|].
  intros H. apply orb_false_iff in H. destruct H as [H1 H2].
  rewrite cell_eqb_refl by exact H1. simpl. apply IH, H2.
Qed.

Lemma uniq_incl (l : list (list cell)) (x : list cell) :
  In x (uniq l) -> In x l.
Proof.
  induction l as [|k l IH]; simpl; [tauto|].
  intros [E|I]; [left; exact E|].
  apply filter_In in I. right. apply IH, I.
Qed.

Lemma uniq_complete (l : list (list cell)) (x : list cell) :
  In x l -> In x (uniq l).
Proof.
  induction l as [|k l IH]; simpl; [tauto|].
  intros [E|I]; [left; exact E|].
  destruct (key_eqb k x) eqn:E.
  - left. apply key_eqb_eq, E.
  - right. apply filter_In. split; [apply IH, I|]. rewrite E. reflexivity.
Qed.

Lemma uniq_nodup (l : list (list cell)) :
  Forall (fun k => key_missing k = false) l -> NoDup (uniq l).
Proof.
  induction l as [|k l IH]; intros F; simpl; [constructor|].
  inversion F as [|? ? Hk F']; subst. constructor.
  - intros I. apply filter_In in I. destruct I as [_ N].
    rewrite key_eqb_refl in N by exact Hk. discriminate.
  - apply NoDup_filter, IH, F'.
Qed.

Lemma in_product (k : list cell) (ls : list (list cell)) :
  Forall2 (fun x l => In x l) k ls -> In k (product ls).
Proof.
  intros F. induction F as [|x l k ls Hx F IH]; simpl; [tauto|].
  apply in_flat_map. exists x. split; [exact Hx|]. apply in_map, IH.
Qed.

Lemma product_nodup (ls : list (list cell)) :
  Forall (fun l => NoDup l) ls -> NoDup (product ls).
Proof.
  induction ls as [|l ls IH]; intros F; simpl.
  - constructor; [simpl; tauto|constructor].
  - inversion F as [|? ? Hl F']; subst. specialize (IH F').
    clear F F'. induction Hl as [|x l Nin Hl IHl]; simpl; [constructor|].
    apply NoDup_app.
    + apply NoDup_map_inj; [|exact IH]. intros a b E. congruence.
    + exact IHl.
    + intros k I1 I2. apply in_map_iff in I1. destruct I1 as (t & <- & _).
      apply in_flat_map in I2. destruct I2 as (y & Iy & I2).
      apply in_map_iff in I2. destruct I2 as (t' & E & _).
      injection E as -> _. contradiction.
Qed.

(** The group sizes add up to the number of rows whose key is present. *)
Lemma group_sizes_sum (kf : nat -> list cell) (keys : list (list cell))
      (idx : list nat) :
  NoDup keys ->
  (forall i, In i idx -> key_missing (kf i) = false -> In (kf i) keys) ->
  fold_right Nat.add 0%nat
    (map (fun k => length (filter (fun i => key_eqb (kf i) k) idx)) keys)
  = length (filter (fun i => negb (key_missing (kf i))) idx).
Proof.
  intros ND Hin. induction idx as [|i idx IH].
  - clear. simpl. induction keys as [|k keys IHk]; [reflexivity|].
    simpl. exact IHk.
  - assert (IH' := IH (fun j I => Hin j (or_intror I))). clear IH.
    assert (Hsplit :
      fold_right Nat.add 0%nat
        (map (fun k => length (filter (fun i0 => key_eqb (kf i0) k)
                                      (i :: idx))) keys)
      = (fold_right Nat.add 0%nat
           (map (fun k => if key_eqb (kf i) k then 1%nat else 0%nat) keys)
         + fold_right Nat.add 0%nat
             (map (fun k => length (filter (fun i0 => key_eqb (kf i0) k) idx))
                  keys))%nat).
    { clear. induction keys as [|k keys IHk]; [reflexivity|].
      cbn [map fold_right]. rewrite IHk. cbn [filter].
      destruct (key_eqb (kf i) k); simpl; lia. }
    rewrite Hsplit, IH'. clear Hsplit IH'. cbn [filter].
    assert (Hone :
      fold_right Nat.add 0%nat
        (map (fun k => if key_eqb (kf i) k then 1%nat else 0%nat) keys)
      = if key_missing (kf i) then 0%nat else 1%nat).
    { destruct (key_missing (kf i)) eqn:M.
      - clear - M. induction keys as [|k keys IHk]; [reflexivity|].
        cbn [map fold_right]. rewrite IHk.
        destruct (key_eqb (kf i) k) eqn:E; [|reflexivity].
        apply key_eqb_present in E. congruence.
      - specialize (Hin i (or_introl eq_refl) M).
        clear - ND Hin M. induction keys as [|k keys IHk]; [contradiction|].
        inversion ND as [|? ? Nin ND']; subst. cbn [map fold_right].
        destruct Hin as [->|I].
        + rewrite key_eqb_refl by exact M.
          assert (Z0 : fold_right Nat.add 0%nat
                         (map (fun k => if key_eqb (kf i) k then 1%nat else 0%nat)
                              keys) = 0%nat).
          { clear - Nin. induction keys as [|k keys IHk]; [reflexivity|].
            cbn [map fold_right].
            destruct (key_eqb (kf i) k) eqn:E.
            - apply key_eqb_eq in E. exfalso. apply Nin. left. congruence.
            - apply IHk. intros I. apply Nin. right. exact I. }
          rewrite Z0. reflexivity.
        + destruct (key_eqb (kf i) k) eqn:E.
          * apply key_eqb_eq in E. subst k. contradiction.
          * apply IHk; assumption. }
    rewrite Hone. destruct (key_missing (kf i)); reflexivity.
Qed.

(** ** The state [summarize] works on *)

Lemma distinct_nodup (l : list string) : distinct l = true -> NoDup l.
Proof.
  induction l as [|x l IH]; simpl; intros H; constructor.
  - apply andb_true_iff in H. destruct H as [H _].
    apply negb_true_iff in H. intros I.
    assert (X : existsb (String.eqb x) l = true).
    { apply existsb_exists. exists x. split; [exact I|apply String.eqb_refl]. }
    congruence.
  - apply IH. apply andb_true_iff in H. apply H.
Qed.

Lemma cell_at_in (s : series) (i : nat) :
  isna (cell_at s i) = false -> In (cell_at s i) s.
Proof.
  unfold cell_at. intros H. destruct (Nat.lt_ge_cases i (length s)) as [L|G].
  - apply nth_In, L.
  - rewrite nth_overflow in H by exact G. discriminate.
Qed.

(** ** Sorted levels *)

Lemma insert_in (c x : cell) (l : list cell) :
  In x (insert c l) <-> x = c \/ In x l.
Proof.
  induction l as [|y l IH]; cbn [insert].
  - simpl. intuition congruence.
  - destruct (cell_leb c y); cbn [In]; [intuition congruence|].
    rewrite IH. intuition congruence.
Qed.

Lemma sort_cells_in (x : cell) (l : list cell) :
  In x (sort_cells l) <-> In x l.
Proof.
  unfold sort_cells. induction l as [|y l IH]; cbn [fold_right]; [tauto|].
  rewrite insert_in, IH. cbn [In]. intuition congruence.
Qed.

Lemma insert_nodup (c : cell) (l : list cell) :
  ~ In c l -> NoDup l -> NoDup (insert c l).
Proof.
  intros N ND. induction ND as [|y l Ny ND IH]; cbn [insert].
  - constructor; [exact N|constructor].
  - destruct (cell_leb c y).
    + constructor; [exact N|constructor; assumption].
    + constructor.
      * rewrite insert_in. intros [E|I]; [|contradiction].
        apply N. left. exact E.
      * apply IH. intros I. apply N. right. exact I.
Qed.

Lemma sort_cells_nodup (l : list cell) : NoDup l -> NoDup (sort_cells l).
Proof.
  unfold sort_cells. induction 1 as [|y l Ny ND IH]; cbn [fold_right];
    [constructor|].
  apply insert_nodup; [|exact IH].
  intros I. apply Ny. apply (sort_cells_in y l), I.
Qed.

Lemma cell_leb_total (a b : cell) :
  cell_leb a b = true \/ cell_leb b a = true.
Proof.
  destruct a as [|x|s], b as [|y|t]; simpl; auto.
  - destruct (Z.leb_spec x y); [auto|right; apply Z.leb_le; lia].
  - apply String.leb_total.
Qed.

Lemma insert_sorted (c : cell) (l : list cell) :
  Sorted (fun a b => cell_leb a b = true) l ->
  Sorted (fun a b => cell_leb a b = true) (insert c l).
Proof.
  induction 1 as [|y l S IH Hd]; cbn [insert].
  - constructor; constructor.
  - destruct (cell_leb c y) eqn:E.
    + constructor; [constructor; assumption|constructor; exact E].
    + constructor; [exact IH|].
      assert (Y : cell_leb y c = true)
        by (destruct (cell_leb_total c y); congruence).
      destruct l as [|z l]; cbn [insert]; [constructor; exact Y|].
      destruct (cell_leb c z); constructor; [exact Y|].
      inversion Hd. assumption.
Qed.

Lemma sort_cells_sorted (l : list cell) :
  Sorted (fun a b => cell_leb a b = true) (sort_cells l).
Proof.
  unfold sort_cells. induction l as [|y l IH]; cbn [fold_right];
    [constructor|apply insert_sorted, IH].
Qed.

Section Summaries.

Variable observed : bool.

Lemma levels_nodup (st : frame_state) (rows : nat) (name : string)
      (col : series) :
  wf_state st = true -> NoDup (levels (categories st) rows name col).
Proof.
  intros W. unfold levels.
  destruct (dict_get name (categories st)) as [names|] eqn:G.
  - unfold wf_state in W. apply andb_true_iff in W. destruct W as [_ W].
    rewrite forallb_forall in W. specialize (W _ (dict_get_in _ _ _ G)).
    unfold category_ok in W. apply andb_true_iff in W. destruct W as [D _].
    apply NoDup_map_inj; [congruence|apply distinct_nodup, D].
  - set (singles := filter (fun k => negb (key_missing k))
                           (map (fun i => [cell_at col i]) (seq 0 rows))).
    assert (ND : NoDup (uniq singles)).
    { apply uniq_nodup. apply Forall_forall. intros k I.
      apply filter_In in I. apply negb_true_iff, I. }
    assert (S : forall k, In k (uniq singles) -> exists c, k = [c]).
    { intros k I. apply uniq_incl in I. apply filter_In in I.
      destruct I as [I _]. apply in_map_iff in I.
      destruct I as (i & <- & _). eauto. }
    apply sort_cells_nodup.
    induction ND as [|k l Nin ND IH]; simpl; constructor.
    + intros I. apply in_map_iff in I. destruct I as (k' & E & I).
      destruct (S k (or_introl eq_refl)) as [c ->].
      destruct (S k' (or_intror I)) as [c' ->]. simpl in E. subst c'.
      contradiction.
    + apply IH. intros k' I. apply S. right. exact I.
Qed.

Lemma group_keys_nodup (st : frame_state) (rows : nat) (names : list string)
      (cols : list series) :
  wf_state st = true ->
  NoDup (group_keys observed (categories st) rows names cols).
Proof.
  intros W. unfold group_keys. cbv zeta.
  assert (ND : NoDup (product (map (fun nc => levels (categories st) rows
                                                     (fst nc) (snd nc))
                                   (combine names cols)))).
  { apply product_nodup. apply Forall_forall. intros l I.
    apply in_map_iff in I. destruct I as ([n c] & <- & _).
    apply levels_nodup, W. }
  destruct (observed || negb (existsb _ names)); [|exact ND].
  apply NoDup_filter, ND.
Qed.

Lemma levels_complete (st : frame_state) (rows : nat) (name : string)
      (col : series) (i : nat) :
  wf_state st = true -> df_get name (frame st) = Some col ->
  (i < rows)%nat -> isna (cell_at col i) = false ->
  In (cell_at col i) (levels (categories st) rows name col).
Proof.
  intros W G L N. unfold levels.
  destruct (dict_get name (categories st)) as [names|] eqn:C.
  - unfold wf_state in W. apply andb_true_iff in W. destruct W as [_ W].
    rewrite forallb_forall in W. specialize (W _ (dict_get_in _ _ _ C)).
    unfold category_ok in W. apply andb_true_iff in W. destruct W as [_ W].
    cbn [fst snd] in W. rewrite G in W. rewrite forallb_forall in W.
    specialize (W _ (cell_at_in col i N)). rewrite N in W. simpl in W.
    apply existsb_exists in W. destruct W as (x & Ix & E).
    apply cell_eqb_eq in E. rewrite E. exact Ix.
  - apply sort_cells_in.
    change (cell_at col i) with (hd NaN [cell_at col i]).
    apply in_map. apply uniq_complete. apply filter_In. split.
    + apply in_map_iff. exists i. split; [reflexivity|].
      apply in_seq. lia.
    + simpl. rewrite N. reflexivity.
Qed.

Lemma group_keys_complete (st : frame_state) (rows : nat)
      (names : list string) (cols : list series) (i : nat) :
  wf_state st = true ->
  Forall2 (fun c s => df_get c (frame st) = Some s) names cols ->
  (i < rows)%nat -> key_missing (key_at cols i) = false ->
  In (key_at cols i) (group_keys observed (categories st) rows names cols).
Proof.
  intros W F L M. unfold group_keys. cbv zeta.
  assert (A : In (key_at cols i)
                 (product (map (fun nc => levels (categories st) rows
                                                 (fst nc) (snd nc))
                               (combine names cols)))).
  { apply in_product. clear - W F L M.
    induction F as [|n c names cols G F IH].
    - constructor.
    - simpl in M. apply orb_false_iff in M. destruct M as [M1 M2].
      cbn [combine map key_at]. constructor.
      + cbn [fst snd]. apply (levels_complete st rows n c i W G L M1).
      + apply IH, M2. }
  destruct (observed || negb (existsb _ names)); [|exact A].
  apply filter_In. split; [exact A|].
  apply existsb_exists. exists i. split; [apply in_seq; lia|].
  apply key_eqb_refl, M.
Qed.

(** With [observed] on, or without a categorical grouping column, a key of
    the table is the key of some row. *)
Lemma group_keys_occur (cats : dict string (list string)) (rows : nat)
      (names : list string) (cols : list series) (k : list cell) :
  observed || negb (existsb (fun c => dict_has c cats) names) = true ->
  In k (group_keys observed cats rows names cols) ->
  exists i, (i < rows)%nat /\ key_at cols i = k /\ key_missing k = false.
Proof.
  intros O I. unfold group_keys in I. cbv zeta in I. rewrite O in I.
  apply filter_In in I. destruct I as [_ I].
  apply existsb_exists in I. destruct I as (i & Ii & E).
  apply in_seq in Ii. exists i. split; [lia|].
  pose proof (key_eqb_eq _ _ E) as Ek. split; [exact Ek|].
  rewrite <- Ek. apply (key_eqb_present _ _ E).
Qed.

End Summaries.

(** ** Grouped summaries (C6, C10) *)

Lemma bind_inv {A B : Type} (m : script A) (f : A -> script B)
      (b : B) (out out' : list event) :
  bind m f out = Ok b out' ->
  exists a mid, m out = Ok a mid /\ f a mid = Ok b out'.
Proof.
  unfold bind. destruct (m out) as [a mid|e mid]; [eauto|discriminate].
Qed.

Lemma getitem_inv (col : string) (df : DataFrame) (s : series)
      (out out' : list event) :
  getitem col df out = Ok s out' -> df_get col df = Some s /\ out' = out.
Proof.
  unfold getitem. destruct (df_get col df); [|discriminate].
  unfold ret. intros [= -> ->]. auto.
Qed.

Lemma get_all_inv (cols : list string) (df : DataFrame) (ss : list series)
      (out out' : list event) :
  get_all cols df out = Ok ss out' ->
  Forall2 (fun c s => df_get c df = Some s) cols ss /\ out' = out.
Proof.
  revert ss out'. induction cols as [|c cols IH]; intros ss out' E.
  - injection E as <- <-. split; [constructor|reflexivity].
  - cbn [get_all] in E.
    apply bind_inv in E. destruct E as (s & mid & E1 & E).
    apply getitem_inv in E1. destruct E1 as [G ->].
    apply bind_inv in E. destruct E as (ss' & mid & E2 & E).
    apply IH in E2. destruct E2 as [F ->].
    injection E as <- <-. split; [constructor; assumption|reflexivity].
Qed.

Lemma Zsum_bounds (vals : list Z) :
  Forall (fun v => 0 <= v <= 5) vals ->
  0 <= Zsum vals <= 5 * Z.of_nat (length vals).
Proof.
  induction 1 as [|v vals Hv F IH]; simpl Zsum; [simpl; lia|].
  cbn [length]. lia.
Qed.

Lemma mean_of_bounds (vals : list Z) :
  Forall (fun v => 0 <= v <= 5) vals -> vals <> [] ->
  (0 <= mean_of vals <= 5)%Q.
Proof.
  intros F N. pose proof (Zsum_bounds vals F) as [L U].
  assert (P : 0 < Z.of_nat (length vals)) by (destruct vals; [congruence|simpl; lia]).
  assert (PQ : (0 < inject_Z (Z.of_nat (length vals)))%Q).
  { change 0%Q with (inject_Z 0). rewrite <- Zlt_Qlt. exact P. }
  unfold mean_of. split.
  - apply Qle_shift_div_l; [exact PQ|].
    rewrite Qmult_0_l. change 0%Q with (inject_Z 0). rewrite <- Zle_Qle.
    exact L.
  - apply Qle_shift_div_r; [exact PQ|].
    change 5%Q with (inject_Z 5). rewrite <- inject_Z_mult, <- Zle_Qle.
    exact U.
Qed.

Lemma scores_ok_cells (df : DataFrame) :
  scores_ok df = true ->
  exists scores,
    df_get "literacy_score" df = Some scores
    /\ length scores = nrows df
    /\ forall i, (i < nrows df)%nat ->
         exists z, cell_at scores i = Int z /\ 0 <= z <= 5.
Proof.
  unfold scores_ok. destruct (df_get "literacy_score" df) as [s|];
    [|discriminate].
  intros H. apply andb_true_iff in H. destruct H as [L F].
  apply Nat.eqb_eq in L. exists s. split; [reflexivity|]. split; [exact L|].
  intros i Hi. rewrite forallb_forall in F.
  assert (I : In (cell_at s i) s) by (apply nth_In; lia).
  specialize (F _ I). destruct (cell_at s i) as [|z|t]; try discriminate.
  exists z. split; [reflexivity|]. simpl in F.
  apply andb_true_iff in F. destruct F as [F1 F2].
  apply Z.leb_le in F1. apply Z.leb_le in F2. lia.
Qed.

Lemma members_in_range (cols : list series) (rows : nat) (k : list cell)
      (i : nat) :
  In i (members cols rows k) -> (i < rows)%nat.
Proof.
  unfold members. intros I. apply filter_In in I. destruct I as [I _].
  apply in_seq in I. lia.
Qed.

Lemma group_values_scores (scores : series) (rows : nat) (idx : list nat) :
  (forall i, (i < rows)%nat ->
             exists z, cell_at scores i = Int z /\ 0 <= z <= 5) ->
  (forall i, In i idx -> (i < rows)%nat) ->
  group_values scores idx = map (fun i => int_value (cell_at scores i)) idx
  /\ Forall (fun v => 0 <= v <= 5) (group_values scores idx).
Proof.
  intros Hs Hi. unfold group_values.
  induction idx as [|i idx IH]; [split; [reflexivity|constructor]|].
  destruct (IH (fun j I => Hi j (or_intror I))) as [E F].
  destruct (Hs i (Hi i (or_introl eq_refl))) as (z & Ez & Bz).
  cbn [map filter]. rewrite Ez. cbn [notna isna negb map int_value].
  split.
  - f_equal. exact E.
  - constructor; [exact Bz|exact F].
Qed.

Lemma summarize_inv (observed : bool) (group_cols : list string)
      (st : frame_state) (tbl : list summary_row) (out out' : list event) :
  summarize observed group_cols st out = Ok tbl out' ->
  exists cols scores,
    Forall2 (fun c s => df_get c (frame st) = Some s) group_cols cols
    /\ df_get "literacy_score" (frame st) = Some scores
    /\ out' = out
    /\ tbl = map (fun k => aggregate k
                             (group_values scores
                                (members cols (nrows (frame st)) k)))
                 (group_keys observed (categories st) (nrows (frame st))
                             group_cols cols).
Proof.
  unfold summarize. intros E.
  apply bind_inv in E. destruct E as (cols & mid & E1 & E).
  apply get_all_inv in E1. destruct E1 as [F ->].
  apply bind_inv in E. destruct E as (scores & mid & E2 & E).
  apply getitem_inv in E2. destruct E2 as [G ->].
  cbv zeta in E.
  destruct (unsortable observed (categories st) group_cols cols);
    [discriminate|].
  injection E as <- <-. exists cols, scores. auto.
Qed.

Lemma Zsum_of_nat (l : list nat) :
  Zsum (map Z.of_nat l) = Z.of_nat (fold_right Nat.add 0%nat l).
Proof.
  induction l as [|x l IH]; [reflexivity|].
  cbn [map fold_right Zsum]. fold (Zsum (map Z.of_nat l)). rewrite IH. lia.
Qed.

(** The squared deviations from any centre, written out. *)
Lemma squared_deviations (m : Q) (vals : list Z) :
  (Qsum (map (fun x => (inject_Z x - m) * (inject_Z x - m)) vals)
   == inject_Z (fold_right Z.add 0%Z (map (fun x => (x * x)%Z) vals))
      - 2 * m * inject_Z (fold_right Z.add 0%Z vals)
      + inject_Z (Z.of_nat (length vals)) * m * m)%Q.
Proof.
  induction vals as [|x vals IH].
  - simpl. ring.
  - cbn [map Qsum fold_right length].
    fold (Qsum (map (fun x => (inject_Z x - m) * (inject_Z x - m))%Q vals)).
    rewrite IH. rewrite Nat2Z.inj_succ. unfold Z.succ.
    rewrite !inject_Z_plus, inject_Z_mult. ring.
Qed.

Lemma mean_of_total (vals : list Z) :
  0 < Z.of_nat (length vals) ->
  (mean_of vals * inject_Z (Z.of_nat (length vals))
   == inject_Z (fold_right Z.add 0%Z vals))%Q.
Proof.
  intros P. unfold mean_of, Zsum. field.
  intros E. unfold Qeq in E. simpl in E. lia.
Qed.

(** The sum of squared deviations from the mean, by the sum and the sum of
    squares of the values. *)
Lemma sq_dev_by_sums (vals : list Z) :
  0 < Z.of_nat (length vals) ->
  (sq_dev vals * inject_Z (Z.of_nat (length vals))
   == inject_Z (Z.of_nat (length vals)
                * fold_right Z.add 0%Z (map (fun x => (x * x)%Z) vals)
                - fold_right Z.add 0%Z vals * fold_right Z.add 0%Z vals)%Z)%Q.
Proof.
  intros P. pose proof (mean_of_total vals P) as M.
  unfold sq_dev. rewrite squared_deviations.
  set (m := mean_of vals) in *.
  set (n := inject_Z (Z.of_nat (length vals))) in *.
  unfold Z.sub. rewrite inject_Z_plus, inject_Z_opp, !inject_Z_mult.
  fold n.
  set (q := inject_Z (fold_right Z.add 0 (map (fun x => x * x) vals))).
  set (t := inject_Z (fold_right Z.add 0 vals)) in *.
  assert (E : ((q - 2 * m * t + n * m * m) * n
               == n * q + - (t * t) + (m * n - t) * (m * n - t))%Q) by ring.
  rewrite E, M. ring.
Qed.

Lemma Qsum_squares_nonneg (f : Z -> Q) (l : list Z) :
  (0 <= Qsum (map (fun x => f x * f x) l))%Q.
Proof.
  induction l as [|x l IH]; [apply Qle_refl|].
  cbn [map Qsum fold_right]. fold (Qsum (map (fun x => f x * f x)%Q l)).
  assert (S : (0 <= f x * f x)%Q) by nra.
  generalize dependent (Qsum (map (fun x => f x * f x)%Q l)).
  intros q IH. lra.
Qed.

Lemma sq_dev_nonneg (vals : list Z) : (0 <= sq_dev vals)%Q.
Proof.
  unfold sq_dev.
  apply (Qsum_squares_nonneg (fun x => inject_Z x - mean_of vals)%Q).
Qed.

Lemma filter_all {A : Type} (f : A -> bool) (l : list A) :
  (forall x, In x l -> f x = true) -> filter f l = l.
Proof.
  induction l as [|x l IH]; intros H; [reflexivity|]. cbn [filter].
  rewrite (H x (or_introl eq_refl)), IH; [reflexivity|].
  intros y I. apply H. right. exact I.
Qed.

Lemma filter_none {A : Type} (f : A -> bool) (l : list A) :
  (forall x, In x l -> f x = false) -> filter f l = [].
Proof.
  induction l as [|x l IH]; intros H; [reflexivity|]. cbn [filter].
  rewrite (H x (or_introl eq_refl)). apply IH.
  intros y I. apply H. right. exact I.
Qed.

(** The rows of a group that one respondent makes up. *)
Lemma members_single (cols : list series) (rows i : nat) :
  (i < rows)%nat -> key_missing (key_at cols i) = false ->
  (forall j, (j < rows)%nat -> key_at cols j = key_at cols i -> j = i) ->
  members cols rows (key_at cols i) = [i].
Proof.
  intros L M U. unfold members.
  assert (S : seq 0 rows = (seq 0 i ++ i :: seq (S i) (rows - S i))%list).
  { replace rows with (i + S (rows - S i))%nat at 1 by lia.
    rewrite seq_app. reflexivity. }
  rewrite S, filter_app. cbn [filter].
  rewrite (key_eqb_refl _ M).
  rewrite !filter_none; [reflexivity| |].
  - intros j I. apply in_seq in I.
    destruct (key_eqb (key_at cols j) (key_at cols i)) eqn:E; [|reflexivity].
    apply key_eqb_eq in E. apply U in E; lia.
  - intros j I. apply in_seq in I.
    destruct (key_eqb (key_at cols j) (key_at cols i)) eqn:E; [|reflexivity].
    apply key_eqb_eq in E. apply U in E; lia.
Qed.

Lemma product_one (l : list cell) : product [l] = map (fun x => [x]) l.
Proof.
  cbn [product]. induction l as [|x l IH]; [reflexivity|].
  simpl. simpl in IH. rewrite IH. reflexivity.
Qed.

(** The keys of a table by one column that is not categorical: the values
    of the column, each once, in order. *)
Lemma group_keys_one (observed : bool) (cats : dict string (list string))
      (rows : nat) (c : string) (col : series) :
  dict_has c cats = false ->
  group_keys observed cats rows [c] [col]
  = map (fun x => [x]) (levels cats rows c col).
Proof.
  intros D. unfold group_keys. cbv zeta. cbn [existsb combine map fst snd].
  rewrite D. cbn [orb negb]. rewrite orb_true_r. rewrite product_one.
  apply filter_all. intros k I. apply in_map_iff in I.
  destruct I as (x & <- & I). unfold levels in I. unfold dict_has in D.
  destruct (dict_get c cats); [discriminate|].
  apply (proj1 (sort_cells_in _ _)) in I. apply in_map_iff in I.
  destruct I as (k & <- & I). apply uniq_incl in I. apply filter_In in I.
  destruct I as [I N]. apply in_map_iff in I. destruct I as (i & <- & I).
  apply existsb_exists. exists i. split; [exact I|].
  cbn [hd key_at map]. apply key_eqb_refl.
  apply negb_true_iff in N. exact N.
Qed.

Lemma levels_sorted (cats : dict string (list string)) (rows : nat)
      (c : string) (col : series) :
  dict_has c cats = false ->
  Sorted (fun a b => cell_leb a b = true) (levels cats rows c col).
Proof.
  intros D. unfold levels. unfold dict_has in D.
  destruct (dict_get c cats); [discriminate|]. apply sort_cells_sorted.
Qed.

(** C6.  On a state whose literacy scores are in place, a table
    [summarize] returns has one row per group key and a row for the key of
    every respondent whose key has no missing cell.  A row's [n] is the
    number of rows of the frame in the group; its mean times [n] is the sum
    of their scores, and lies between 0 and 5; its variance [v], the square
    of the standard deviation, is the sample variance with divisor [n - 1]:
    [v * n * (n - 1)] is [n] times the sum of the squared scores less the
    square of their sum; the standard error is that deviation over the
    square root of [max(n, 1)], so its square times [n] is [v].  A group of
    no row has no mean, a group of at most one row neither deviation nor
    standard error.  The [n] of the rows add up to the number of rows of
    the frame whose key has no missing cell.  The rows of a table by one
    column that is not categorical come in the order of the column's
    values, numbers before texts. *)
Theorem summarize_rows (observed : bool) (group_cols : list string)
        (st : frame_state) (tbl : list summary_row) (out out' : list event) :
  wf_state st = true ->
  summarize observed group_cols st out = Ok tbl out' ->
  exists cols scores,
    Forall2 (fun c s => df_get c (frame st) = Some s) group_cols cols
    /\ df_get "literacy_score" (frame st) = Some scores
    /\ NoDup (map row_key tbl)
    /\ (forall i, (i < nrows (frame st))%nat ->
                  key_missing (key_at cols i) = false ->
                  In (key_at cols i) (map row_key tbl))
    /\ (forall r, In r tbl ->
          let idx := filter (fun i => key_eqb (key_at cols i) (row_key r))
                            (seq 0 (nrows (frame st))) in
          let vals := map (fun i => int_value (cell_at scores i)) idx in
          let n := Z.of_nat (length idx) in
          let total := fold_right Z.add 0 vals in
          let squares := fold_right Z.add 0 (map (fun x => x * x) vals) in
          row_n r = n
          /\ (n = 0 -> row_mean r = None)
          /\ (0 < n ->
              exists m, row_mean r = Some m
                        /\ (m * inject_Z n == inject_Z total)%Q
                        /\ (0 <= m <= 5)%Q)
          /\ (n <= 1 -> row_std r = None /\ row_se r = None)
          /\ (1 < n ->
              exists v sd se,
                row_var r = Some v
                /\ (v * inject_Z (n * (n - 1))
                    == inject_Z (n * squares - total * total))%Q
                /\ row_std r = Some sd /\ row_se r = Some se
                /\ (0 <= sd)%R /\ (sd * sd = Q2R v)%R
                /\ (0 <= se)%R /\ (se * se * IZR n = Q2R v)%R)
          /\ row_se r
             = option_map (fun sd => (sd / sqrt (IZR (Z.max n 1)))%R)
                          (row_std r))
    /\ fold_right Z.add 0 (map row_n tbl)
       = Z.of_nat
           (length (filter (fun i => negb (key_missing (key_at cols i)))
                           (seq 0 (nrows (frame st)))))
    /\ (forall c col, group_cols = [c] -> cols = [col] ->
                      dict_has c (categories st) = false ->
          exists L, map row_key tbl = map (fun x => [x]) L
                    /\ Sorted (fun a b => cell_leb a b = true) L).
Proof.
  intros W E.
  destruct (summarize_inv observed group_cols st tbl out out' E)
    as (cols & scores & F & G & _ & ->).
  exists cols, scores. split; [exact F|]. split; [exact G|].
  assert (W' := W). unfold wf_state in W'. apply andb_true_iff in W'.
  destruct W' as [Ws _].
  destruct (scores_ok_cells _ Ws) as (scores' & G' & Ls & Hs).
  rewrite G in G'. injection G' as <-.
  set (rows := nrows (frame st)) in *.
  assert (V : forall k,
             group_values scores (members cols rows k)
             = map (fun i => int_value (cell_at scores i)) (members cols rows k)
             /\ Forall (fun v => 0 <= v <= 5)
                       (group_values scores (members cols rows k))).
  { intros k. apply (group_values_scores scores rows); [exact Hs|].
    intros i I. apply (members_in_range cols rows k i I). }
  assert (K : map row_key
                  (map (fun k => aggregate k (group_values scores
                                                (members cols rows k)))
                       (group_keys observed (categories st) rows group_cols
                                   cols))
              = group_keys observed (categories st) rows group_cols cols).
  { rewrite map_map. cbn [aggregate row_key]. apply map_id. }
  split; [rewrite K; apply group_keys_nodup, W|].
  split.
  { intros i Li M. rewrite K.
    apply (group_keys_complete observed st rows group_cols cols i W F Li M). }
  split; [|split].
  - intros r I. apply in_map_iff in I. destruct I as (k & <- & _).
    cbn [aggregate row_key row_n row_mean]. cbv zeta.
    fold (members cols rows k).
    destruct (V k) as [Ev Fv]. rewrite Ev in *. rewrite length_map.
    set (idx := members cols rows k) in *.
    set (vals := map (fun i => int_value (cell_at scores i)) idx) in *.
    assert (Lv : length vals = length idx) by apply length_map.
    rewrite <- Lv.
    set (n := Z.of_nat (length vals)).
    assert (Estd : row_std (aggregate k vals)
                   = if n <=? 1 then None
                     else Some (sqrt (Q2R (sq_dev vals / inject_Z (n - 1))))).
    { unfold row_std. cbn [aggregate row_var]. fold n.
      destruct (n <=? 1); reflexivity. }
    assert (Ese : row_se (aggregate k vals)
                  = option_map (fun sd => (sd / sqrt (IZR (Z.max n 1)))%R)
                               (row_std (aggregate k vals)))
      by reflexivity.
    split; [reflexivity|]. split; [|split; [|split; [|split]]].
    + intros Z0. rewrite Z0. reflexivity.
    + intros P. destruct (Z.eqb_spec n 0) as [Z0|_]; [lia|].
      exists (mean_of vals). split; [reflexivity|]. split.
      * apply mean_of_total. exact P.
      * apply mean_of_bounds; [exact Fv|].
        intros Ev0. unfold n in P. rewrite Ev0 in P. simpl in P. lia.
    + intros L1. rewrite Ese, Estd.
      destruct (Z.leb_spec n 1); [split; reflexivity|lia].
    + intros G1.
      assert (N1 : ~ (inject_Z (n - 1) == 0)%Q)
        by (intros Q0; unfold Qeq in Q0; simpl in Q0; lia).
      assert (Vn : (0 <= sq_dev vals / inject_Z (n - 1))%Q).
      { apply Qle_shift_div_l.
        - change 0%Q with (inject_Z 0). rewrite <- Zlt_Qlt. lia.
        - rewrite Qmult_0_l. apply sq_dev_nonneg. }
      exists (sq_dev vals / inject_Z (n - 1))%Q.
      exists (sqrt (Q2R (sq_dev vals / inject_Z (n - 1)))).
      exists (sqrt (Q2R (sq_dev vals / inject_Z (n - 1)))
              / sqrt (IZR (Z.max n 1)))%R.
      assert (Pv : (0 <= Q2R (sq_dev vals / inject_Z (n - 1)))%R).
      { rewrite <- RMicromega.Q2R_0. apply Qle_Rle, Vn. }
      assert (Pn : (0 < IZR n)%R) by (apply IZR_lt; lia).
      assert (Sn : (sqrt (IZR n) * sqrt (IZR n) = IZR n)%R)
        by (apply sqrt_sqrt; Lra.lra).
      assert (Sp : (0 < sqrt (IZR n))%R) by (apply sqrt_lt_R0, Pn).
      split.
      { cbn [aggregate row_var]. fold n.
        destruct (Z.leb_spec n 1); [lia|reflexivity]. }
      split.
      { rewrite inject_Z_mult.
        transitivity (sq_dev vals * inject_Z n)%Q; [field; exact N1|].
        apply sq_dev_by_sums. fold n. lia. }
      split.
      { rewrite Estd. destruct (Z.leb_spec n 1); [lia|reflexivity]. }
      split.
      { rewrite Ese, Estd. destruct (Z.leb_spec n 1); [lia|reflexivity]. }
      split; [apply sqrt_pos|]. split; [apply sqrt_sqrt, Pv|].
      rewrite Z.max_l by lia.
      set (sd := sqrt (Q2R (sq_dev vals / inject_Z (n - 1)))).
      assert (Sd : (sd * sd = Q2R (sq_dev vals / inject_Z (n - 1)))%R)
        by (apply sqrt_sqrt, Pv).
      assert (Psd : (0 <= sd)%R) by apply sqrt_pos.
      split.
      { unfold Rdiv. apply Rmult_le_pos; [exact Psd|].
        apply Rlt_le, Rinv_0_lt_compat, Sp. }
      rewrite <- Sd. rewrite <- Sn at 3. field. Lra.lra.
    + exact Ese.
  - rewrite map_map. cbn [aggregate row_n].
    rewrite (map_ext _ (fun k => Z.of_nat (length (members cols rows k)))).
    + rewrite <- (map_map (fun k => length (members cols rows k)) Z.of_nat).
      fold (Zsum (map Z.of_nat
                      (map (fun k => length (members cols rows k))
                           (group_keys observed (categories st) rows
                                       group_cols cols)))).
      rewrite Zsum_of_nat. f_equal. unfold members.
      apply (group_sizes_sum (key_at cols)).
      * apply group_keys_nodup, W.
      * intros i I M. apply in_seq in I.
        apply (group_keys_complete observed st rows group_cols cols i W F);
          [lia|exact M].
    + intros k. destruct (V k) as [Ev _]. rewrite Ev, length_map. reflexivity.
  - intros c col -> -> D. rewrite K.
    exists (levels (categories st) rows c col). split.
    + apply group_keys_one, D.
    + apply levels_sorted, D.
Qed.

Lemma summarize_rows_witness :
  wf_state sample_state = true
  /\ summarize false ["Gender"] sample_state [] = Ok gender_table []
  /\ map row_key gender_table = [[Str "Female"]; [Str "Male"]]
  /\ map row_n gender_table = [1; 2]
  /\ (exists m v, row_mean male_row = Some m /\ (m == 7 # 2)%Q
                  /\ row_var male_row = Some v /\ (v == 9 # 2)%Q)
  /\ (exists m, row_mean female_row = Some m /\ (m == 0)%Q)
  /\ row_var female_row = None
  /\ exists cols scores,
      Forall2 (fun c s => df_get c (frame sample_state) = Some s)
              ["Gender"] cols
      /\ df_get "literacy_score" (frame sample_state) = Some scores
      /\ NoDup (map row_key gender_table)
      /\ fold_right Z.add 0 (map row_n gender_table)
         = Z.of_nat
             (length (filter (fun i => negb (key_missing (key_at cols i)))
                             (seq 0 (nrows (frame sample_state))))).
Proof.
  assert (W : wf_state sample_state = true) by (vm_compute; reflexivity).
  assert (E : summarize false ["Gender"] sample_state [] = Ok gender_table [])
    by (vm_compute; reflexivity).
  split; [exact W|]. split; [exact E|].
  split; [vm_compute; reflexivity|]. split; [vm_compute; reflexivity|].
  split.
  { eexists. eexists. split; [vm_compute; reflexivity|].
    split; [vm_compute; reflexivity|].
    split; [vm_compute; reflexivity|vm_compute; reflexivity]. }
  split.
  { eexists. split; [vm_compute; reflexivity|vm_compute; reflexivity]. }
  split; [vm_compute; reflexivity|].
  destruct (summarize_rows false ["Gender"] sample_state _ [] [] W E)
    as (cols & scores & F & G & ND & _ & _ & S & _).
  exists cols, scores. split; [exact F|]. split; [exact G|].
  split; [exact ND|exact S].
Defined.

(** C10.  A respondent who alone has a group key gets a row of the table:
    the row has that key, [n = 1], the respondent's score as its mean, and
    neither a standard deviation nor a standard error, the guard
    [max(n, 1)] dividing a deviation that is already missing.  Every row
    with [n = 1] is such a row. *)
Theorem singleton_group_row (observed : bool) (group_cols : list string)
        (st : frame_state) (tbl : list summary_row) (out out' : list event) :
  wf_state st = true ->
  summarize observed group_cols st out = Ok tbl out' ->
  exists cols scores,
    Forall2 (fun c s => df_get c (frame st) = Some s) group_cols cols
    /\ df_get "literacy_score" (frame st) = Some scores
    /\ (forall i, (i < nrows (frame st))%nat ->
          key_missing (key_at cols i) = false ->
          (forall j, (j < nrows (frame st))%nat ->
                     key_at cols j = key_at cols i -> j = i) ->
          exists r z,
            In r tbl /\ row_key r = key_at cols i /\ row_n r = 1
            /\ cell_at scores i = Int z
            /\ (exists m, row_mean r = Some m /\ (m == inject_Z z)%Q)
            /\ row_std r = None
            /\ row_se r = None)
    /\ (forall r, In r tbl -> row_n r = 1 ->
          exists i z,
            members cols (nrows (frame st)) (row_key r) = [i]
            /\ cell_at scores i = Int z
            /\ (exists m, row_mean r = Some m /\ (m == inject_Z z)%Q)
            /\ row_std r = None
            /\ row_se r = None).
Proof.
  intros W E.
  destruct (summarize_inv observed group_cols st tbl out out' E)
    as (cols & scores & F & G & _ & ->).
  assert (W' := W). unfold wf_state in W'. apply andb_true_iff in W'.
  destruct W' as [Ws _].
  destruct (scores_ok_cells _ Ws) as (scores' & G' & Ls & Hs).
  rewrite G in G'. injection G' as <-.
  set (rows := nrows (frame st)) in *.
  assert (One : forall k i,
             members cols rows k = [i] ->
             exists z,
               cell_at scores i = Int z
               /\ row_n (aggregate k (group_values scores (members cols rows k)))
                  = 1
               /\ (exists m,
                     row_mean (aggregate k (group_values scores
                                              (members cols rows k)))
                     = Some m /\ (m == inject_Z z)%Q)
               /\ row_std (aggregate k (group_values scores
                                          (members cols rows k))) = None
               /\ row_se (aggregate k (group_values scores
                                         (members cols rows k))) = None).
  { intros k i M.
    assert (Hi : (i < rows)%nat).
    { apply (members_in_range cols rows k). rewrite M. left. reflexivity. }
    destruct (Hs i Hi) as (z & Ez & _). exists z. split; [exact Ez|].
    destruct (group_values_scores scores rows (members cols rows k) Hs
                (fun j J => members_in_range cols rows k j J)) as [Ev _].
    rewrite Ev, M. cbn [map]. rewrite Ez. cbn [int_value].
    unfold row_se, row_std. cbn [aggregate row_mean row_var row_n length].
    split; [reflexivity|]. split; [|split; reflexivity].
    eexists. split; [reflexivity|].
    unfold mean_of. cbn [length Zsum fold_right].
    rewrite Z.add_0_r. unfold Qeq. simpl. lia. }
  exists cols, scores. split; [exact F|]. split; [exact G|]. split.
  - intros i Li M U.
    pose proof (members_single cols rows i Li M U) as Mi.
    destruct (One (key_at cols i) i Mi) as (z & Ez & N1 & Hm & Hsd & Hse).
    exists (aggregate (key_at cols i)
              (group_values scores (members cols rows (key_at cols i)))), z.
    split.
    { apply (in_map (fun k => aggregate k (group_values scores
                                             (members cols rows k)))).
      apply (group_keys_complete observed st rows group_cols cols i W F Li M). }
    split; [reflexivity|]. split; [exact N1|]. split; [exact Ez|].
    split; [exact Hm|]. split; assumption.
  - intros r I N1. apply in_map_iff in I. destruct I as (k & <- & _).
    cbn [aggregate row_key row_n] in *.
    destruct (group_values_scores scores rows (members cols rows k) Hs
                (fun j J => members_in_range cols rows k j J)) as [Ev _].
    rewrite Ev, length_map in N1.
    destruct (members cols rows k) as [|i [|j idx]] eqn:M;
      cbn [length] in N1; try lia.
    destruct (One k i M) as (z & Ez & _ & Hm & Hsd & Hse).
    rewrite M in Hm, Hsd, Hse.
    exists i, z. split; [reflexivity|]. split; [exact Ez|].
    split; [exact Hm|]. split; assumption.
Qed.

Lemma singleton_group_row_witness :
  wf_state sample_state = true
  /\ summarize false ["Gender"] sample_state [] = Ok gender_table []
  /\ exists r,
       In r gender_table
       /\ row_key r = [Str "Female"]
       /\ row_n r = 1
       /\ (exists m, row_mean r = Some m /\ (m == 0)%Q)
       /\ row_std r = None
       /\ row_se r = None.
Proof.
  assert (W : wf_state sample_state = true) by (vm_compute; reflexivity).
  assert (E : summarize false ["Gender"] sample_state [] = Ok gender_table [])
    by (vm_compute; reflexivity).
  split; [exact W|]. split; [exact E|].
  destruct (singleton_group_row false ["Gender"] sample_state gender_table
              [] [] W E) as (cols & scores & F & G & Hex & _).
  assert (Ec : cols = [[Str "Male"; Str "Female"; Str "Male"]]).
  { inversion F as [|c s l ss Gc F']. subst. inversion F'. subst.
    vm_compute in Gc. injection Gc as <-. reflexivity. }
  assert (Es : scores = [Int 5; Int 0; Int 2]).
  { vm_compute in G. injection G as <-. reflexivity. }
  subst cols scores.
  destruct (Hex 1%nat) as (r & z & I & K & N & Ez & Hm & Hsd & Hse).
  - vm_compute. lia.
  - vm_compute. reflexivity.
  - intros j L Ej.
    assert (L3 : (j < 3)%nat) by (vm_compute in L; lia).
    destruct j as [|[|[|j]]]; [discriminate Ej|reflexivity|discriminate Ej|lia].
  - exists r. split; [exact I|]. split; [exact K|]. split; [exact N|].
    vm_compute in Ez. injection Ez as <-.
    split; [exact Hm|]. split; assumption.
Defined.

(** ** The state of the script is well formed *)

Ltac eval_labels_in H :=
  repeat match type of H with
    | context [String.eqb ?a ?b] =>
        let v := eval vm_compute in (String.eqb a b) in
        change (String.eqb a b) with v in H
    end;
  cbv iota in H.

Lemma build_literacy_inv (df df' : DataFrame) (out out' : list event) :
  build_literacy df out = Ok df' out' ->
  forallb (fun c => has_column c df) LITERACY_COLS = true.
Proof.
  intros B.
  unfold build_literacy in B. apply bind_inv in B.
  destruct B as (d & mid & B & _).
  unfold LITERACY_COLS in B. cbn [for_each] in B.
  repeat (apply bind_inv in B;
          let d := fresh "d" in
          let m := fresh "m" in
          let S := fresh "S" in
          destruct B as (d & m & S & B);
          unfold score_step in S; apply bind_inv in S;
          let s := fresh "s" in
          let m' := fresh "m" in
          let G := fresh "G" in
          destruct S as (s & m' & G & S);
          apply getitem_inv in G; destruct G as [G _]).
  repeat match goal with
    | H : match dict_get ?c correct_answers with _ => _ end _ = Ok _ _ |- _ =>
        let v := eval vm_compute in (dict_get c correct_answers) in
        change (dict_get c correct_answers) with v in H;
        cbv iota beta in H; unfold ret in H;
        injection H as ? ?; subst
    end.
  repeat rewrite df_get_setitem in G0. repeat rewrite df_get_setitem in G1.
  repeat rewrite df_get_setitem in G2. repeat rewrite df_get_setitem in G3.
  eval_labels_in G0. eval_labels_in G1. eval_labels_in G2. eval_labels_in G3.
  cbn [forallb LITERACY_COLS].
  rewrite !has_column_as_get, G, G0, G1, G2, G3. reflexivity.
Qed.

(** A score of one question is 0 or 1, whatever the row. *)
Lemma score_cell_range (key : string) (s : series) (i : nat) :
  0 <= int_value (cell_at (score_column key s) i) <= 1.
Proof.
  destruct (Nat.lt_ge_cases i (length s)) as [L|G].
  - rewrite score_column_at by exact L. unfold is_correct.
    destruct (cell_eqb _ _); lia.
  - unfold cell_at. rewrite nth_overflow; [simpl; lia|].
    unfold score_column. rewrite length_map. exact G.
Qed.

Lemma sum_axis1_ok (s1 s2 s3 s4 s5 : series) (k1 k2 k3 k4 k5 : string)
      (rows : nat) :
  forallb score_cell_ok
    (sum_axis1 [score_column k1 s1; score_column k2 s2; score_column k3 s3;
                score_column k4 s4; score_column k5 s5] rows) = true.
Proof.
  apply forallb_forall. intros c I. unfold sum_axis1 in I.
  apply in_map_iff in I. destruct I as (i & <- & _).
  cbn [fold_right score_cell_ok].
  pose proof (score_cell_range k1 s1 i). pose proof (score_cell_range k2 s2 i).
  pose proof (score_cell_range k3 s3 i). pose proof (score_cell_range k4 s4 i).
  pose proof (score_cell_range k5 s5 i).
  apply andb_true_iff. split; apply Z.leb_le; lia.
Qed.

Lemma Age_group_label (x : option Q) (l : string) :
  Age_group x = Some l -> In l labels.
Proof.
  unfold Age_group, cut. destruct x as [q|]; [|discriminate].
  destruct (_ || _); [discriminate|]. apply nth_error_In.
Qed.

Lemma setitem_keeps_shape (col : string) (s : series) (df : DataFrame)
      (rows : nat) :
  rectangular df = true -> nrows df = rows -> length s = rows ->
  rectangular (df_setitem col s df) = true
  /\ nrows (df_setitem col s df) = rows.
Proof.
  intros R <- L. split.
  - apply rectangular_setitem; assumption.
  - apply nrows_setitem, L.
Qed.

Lemma build_literacy_state (df df' : DataFrame) (out out' : list event) :
  rectangular df = true ->
  build_literacy df out = Ok df' out' ->
  rectangular df' = true /\ scores_ok df' = true.
Proof.
  intros R B. pose proof (build_literacy_inv df df' out out' B) as Hcols.
  cbn [forallb LITERACY_COLS] in Hcols.
  repeat (apply andb_true_iff in Hcols;
          let H := fresh "P" in destruct Hcols as [H Hcols]).
  apply has_column_get in P, P0, P1, P2, P3.
  destruct P as [s1 G1], P0 as [s2 G2], P1 as [s3 G3], P2 as [s4 G4],
    P3 as [s5 G5].
  pose proof (rectangular_get df _ _ R G1) as L1.
  pose proof (rectangular_get df _ _ R G2) as L2.
  pose proof (rectangular_get df _ _ R G3) as L3.
  pose proof (rectangular_get df _ _ R G4) as L4.
  pose proof (rectangular_get df _ _ R G5) as L5.
  rewrite (build_literacy_frame df out s1 s2 s3 s4 s5 G1 G2 G3 G4 G5) in B.
  injection B as <- _.
  assert (Lk : forall key s, length s = nrows df ->
                             length (score_column key s) = nrows df)
    by (intros key s L; unfold score_column; rewrite length_map; exact L).
  pose proof (setitem_keeps_shape "Q_Interest_score" _ df _ R eq_refl
                (Lk "More than $102" s1 L1)) as [Ra1 Rb1].
  pose proof (setitem_keeps_shape "Q_Inflation_score" _ _ _ Ra1 Rb1
                (Lk "More than today" s2 L2)) as [Ra2 Rb2].
  pose proof (setitem_keeps_shape "Q_Bonds_score" _ _ _ Ra2 Rb2
                (Lk "Fall" s3 L3)) as [Ra3 Rb3].
  pose proof (setitem_keeps_shape "Q_Risk_score" _ _ _ Ra3 Rb3
                (Lk "True" s4 L4)) as [Ra4 Rb4].
  pose proof (setitem_keeps_shape "Q_Mortgage_score" _ _ _ Ra4 Rb4
                (Lk "False" s5 L5)) as [Ra Rb].
  split.
  - apply rectangular_setitem; [exact Ra|]. apply sum_axis1_length.
  - unfold scores_ok. rewrite df_get_setitem, String.eqb_refl.
    rewrite (nrows_setitem "literacy_score") by apply sum_axis1_length.
    rewrite sum_axis1_length, Nat.eqb_refl. apply sum_axis1_ok.
Qed.

(** The state the script summarizes is well formed: the scores are in
    place and the age groups made by [pd.cut] are among its labels. *)
Lemma script_state_wf (parse : string -> option Q) (df df' : DataFrame)
      (out out' : list event) :
  rectangular df = true ->
  build_literacy df out = Ok df' out' ->
  wf_state (build_age_group parse df') = true.
Proof.
  intros R B. destruct (build_literacy_state df df' out out' R B) as [R' S'].
  unfold wf_state. apply andb_true_iff. split.
  - unfold scores_ok in *. rewrite build_age_group_get by discriminate.
    destruct (df_get "literacy_score" df') as [s|]; [|discriminate].
    assert (N : nrows (frame (build_age_group parse df')) = nrows df').
    { unfold build_age_group.
      destruct (df_get "Age" df') as [age|] eqn:A.
      - cbn [frame]. apply nrows_setitem. rewrite length_map.
        apply (rectangular_get df' _ _ R' A).
      - destruct (df_get "Age_Category_Code" df') as [code|] eqn:C;
          [|reflexivity].
        cbn [frame]. apply nrows_setitem.
        unfold Series_map. rewrite fillna_map, length_map.
        apply (rectangular_get df' _ _ R' C). }
    rewrite N. exact S'.
  - unfold build_age_group.
    destruct (df_get "Age" df') as [age|] eqn:A.
    + cbn [frame categories]. apply andb_true_iff. split; [|reflexivity].
      unfold category_ok. cbn [fst snd].
      apply andb_true_iff. split; [vm_compute; reflexivity|].
      rewrite df_get_setitem, String.eqb_refl.
      apply forallb_forall. intros c I. apply in_map_iff in I.
      destruct I as (a & <- & _).
      destruct (Age_group (to_numeric parse a)) as [l|] eqn:E; [|reflexivity].
      cbn [cell_of_label isna orb].
      apply existsb_exists. exists (Str l). split.
      * apply in_map, (Age_group_label _ _ E).
      * simpl. apply String.eqb_refl.
    + destruct (df_get "Age_Category_Code" df'); reflexivity.
Qed.

(** * Further properties of [clean_data.py] *)

(** ** Blanks and headers *)

Lemma blank_to_nan_fixed (c : cell) :
  blank_cell c = false -> blank_to_nan c = c.
Proof.
  destruct c as [|z|s]; simpl; try reflexivity.
  intros ->. reflexivity.
Qed.

Lemma blank_to_nan_clears (c : cell) : blank_cell (blank_to_nan c) = false.
Proof.
  destruct c as [|z|s]; simpl; try reflexivity.
  destruct (all_space s) eqn:E; simpl; [reflexivity|exact E].
Qed.

(** X1.  The blank normalisation keeps the labels and the number of cells
    of every column, leaves every cell that is not a whitespace-only text
    as it is, and turns each whitespace-only text, the empty text included,
    into a missing cell: no such text is left, a second pass changes
    nothing, and a blank text is never looked up in a code map.  Whitespace
    is what Python takes for it: a cell holding only a no-break space, a
    next-line control, an em space or an ideographic space is blank too. *)
Theorem normalize_blanks_clears (df : DataFrame) :
  shape (normalize_blanks df) = shape df
  /\ (forall n s c, In (n, s) (normalize_blanks df) -> In c s ->
                    blank_cell c = false)
  /\ (forall c, blank_cell c = false -> blank_to_nan c = c)
  /\ (forall c, blank_cell c = true -> blank_to_nan c = NaN)
  /\ normalize_blanks (normalize_blanks df) = normalize_blanks df
  /\ (forall m c, blank_cell c = true -> safe_cell m (blank_to_nan c) = NaN)
  /\ map blank_to_nan
         [Str ""; Str "  "; Str nbsp; Str next_line; Str em_space;
          Str (" " ++ ideographic_space); Str ("a" ++ nbsp); Int 0; NaN]
     = [NaN; NaN; NaN; NaN; NaN; NaN; Str ("a" ++ nbsp); Int 0; NaN].
Proof.
  assert (B : forall c, blank_cell c = true -> blank_to_nan c = NaN).
  { intros [|z|s]; simpl; try discriminate. intros ->. reflexivity. }
  split; [|split; [|split; [|split; [|split; [|split]]]]].
  - unfold shape, normalize_blanks. rewrite map_map. apply map_ext.
    intros [n s]. simpl. rewrite length_map. reflexivity.
  - intros n s c I Ic. unfold normalize_blanks in I. apply in_map_iff in I.
    destruct I as ([n0 s0] & E & _). injection E as _ <-.
    apply in_map_iff in Ic. destruct Ic as (c0 & <- & _).
    apply blank_to_nan_clears.
  - apply blank_to_nan_fixed.
  - exact B.
  - unfold normalize_blanks. rewrite map_map. apply map_ext. intros [n s].
    simpl. f_equal. rewrite map_map. apply map_ext. intros c.
    apply blank_to_nan_fixed, blank_to_nan_clears.
  - intros m c Hc. rewrite (B c Hc). reflexivity.
  - vm_compute. reflexivity.
Qed.

(** ** Whitespace in a text *)

(** Settles a goal about the bytes of a character by arithmetic. *)
Ltac bytes :=
  unfold ascii_space, space2, space3, continuation in *; cbv zeta in *;
  repeat match goal with
    | H : context [nat_of_ascii ?a] |- _ =>
        let n := fresh "n" in generalize dependent (nat_of_ascii a); intros n
    | |- context [nat_of_ascii ?a] =>
        let n := fresh "n" in generalize dependent (nat_of_ascii a); intros n
    end;
  intros;
  repeat match goal with
    | H : _ = true |- _ =>
        first [ apply andb_true_iff in H; destruct H
              | apply orb_true_iff in H; destruct H
              | apply Nat.eqb_eq in H | apply Nat.leb_le in H
              | apply Nat.ltb_lt in H ]
    | H : _ = false |- _ =>
        first [ apply Nat.eqb_neq in H | apply Nat.leb_gt in H
              | apply Nat.ltb_ge in H ]
    end;
  repeat match goal with
    | |- context [(?x =? ?y)%nat] => destruct (Nat.eqb_spec x y)
    | |- context [(?x <=? ?y)%nat] => destruct (Nat.leb_spec x y)
    | |- context [(?x <? ?y)%nat] => destruct (Nat.ltb_spec x y)
    end;
  simpl; try reflexivity; try discriminate; try lia.

Lemma high_not_ascii_space (a : ascii) :
  (128 <= nat_of_ascii a)%nat -> ascii_space a = false.
Proof. intros H. bytes. Qed.

Lemma space2_lead (a b : ascii) :
  space2 a b = true -> nat_of_ascii a = 194%nat.
Proof. intros H. bytes. Qed.

Lemma space3_lead (a b c : ascii) :
  space3 a b c = true -> (225 <= nat_of_ascii a <= 227)%nat.
Proof. intros H. bytes. Qed.

Lemma not_space2 (a b : ascii) :
  nat_of_ascii a <> 194%nat -> space2 a b = false.
Proof.
  intros N. destruct (space2 a b) eqn:E; [|reflexivity].
  apply space2_lead in E. contradiction.
Qed.

Lemma not_space3 (a b c : ascii) :
  ~ (225 <= nat_of_ascii a <= 227)%nat -> space3 a b c = false.
Proof.
  intros N. destruct (space3 a b c) eqn:E; [|reflexivity].
  apply space3_lead in E. contradiction.
Qed.

Lemma space_len_none (a : ascii) (s : string) :
  ascii_space a = false ->
  nat_of_ascii a <> 194%nat -> ~ (225 <= nat_of_ascii a <= 227)%nat ->
  space_len (String a s) = 0%nat.
Proof.
  intros A N2 N3. cbn [space_len]. rewrite A.
  destruct s as [|b s]; [reflexivity|]. rewrite (not_space2 a b N2).
  destruct s as [|c s]; [reflexivity|]. rewrite (not_space3 a b c N3).
  reflexivity.
Qed.

Lemma space_len_two (a b : ascii) (s : string) :
  ascii_space a = false -> space2 a b = false ->
  ~ (225 <= nat_of_ascii a <= 227)%nat ->
  space_len (String a (String b s)) = 0%nat.
Proof.
  intros A N2 N3. cbn [space_len]. rewrite A, N2.
  destruct s as [|c s]; [reflexivity|]. rewrite (not_space3 a b c N3).
  reflexivity.
Qed.

Lemma space_len_three (a b c : ascii) (s : string) :
  ascii_space a = false -> space2 a b = false -> space3 a b c = false ->
  space_len (String a (String b (String c s))) = 0%nat.
Proof. intros A N2 N3. cbn [space_len]. rewrite A, N2, N3. reflexivity. Qed.

Lemma remove_space_keep (a : ascii) (s : string) :
  space_len (String a s) = 0%nat ->
  remove_space (String a s) = String a (remove_space s).
Proof.
  cbn [space_len remove_space]. destruct (ascii_space a); [discriminate|].
  destruct s as [|b s]; [reflexivity|].
  destruct (space2 a b); [discriminate|].
  destruct s as [|c s]; [reflexivity|].
  destruct (space3 a b c); [discriminate|reflexivity].
Qed.

Lemma remove_space_skip2 (a b : ascii) (s : string) :
  space2 a b = true ->
  remove_space (String a (String b s)) = remove_space s.
Proof.
  intros E. cbn [remove_space].
  rewrite high_not_ascii_space by (rewrite (space2_lead a b E); lia).
  rewrite E. reflexivity.
Qed.

Lemma remove_space_skip3 (a b c : ascii) (s : string) :
  space3 a b c = true ->
  remove_space (String a (String b (String c s))) = remove_space s.
Proof.
  intros E. pose proof (space3_lead a b c E) as L. cbn [remove_space].
  rewrite high_not_ascii_space by lia.
  rewrite not_space2 by lia. rewrite E. reflexivity.
Qed.

Lemma continuation_kept (b : ascii) (s : string) :
  continuation b = true -> space_len (String b s) = 0%nat.
Proof.
  intros C. apply space_len_none.
  - clear s. bytes.
  - clear s. bytes.
  - clear s. bytes.
Qed.

(** Induction along the characters of a text. *)
Lemma utf8_chars (P : string -> Prop) :
  P "" ->
  (forall a s, (nat_of_ascii a < 128)%nat -> utf8 s = true -> P s ->
               P (String a s)) ->
  (forall a b s, (194 <= nat_of_ascii a <= 223)%nat ->
                 continuation b = true -> utf8 s = true -> P s ->
                 P (String a (String b s))) ->
  (forall a b c s, (224 <= nat_of_ascii a <= 239)%nat ->
                   continuation b = true -> continuation c = true ->
                   utf8 s = true -> P s ->
                   P (String a (String b (String c s)))) ->
  (forall a b c d s, (240 <= nat_of_ascii a <= 244)%nat ->
                     continuation b = true -> continuation c = true ->
                     continuation d = true -> utf8 s = true -> P s ->
                     P (String a (String b (String c (String d s))))) ->
  forall s, utf8 s = true -> P s.
Proof.
  intros H0 H1 H2 H3 H4 s.
  assert (G : forall k s, (String.length s <= k)%nat -> utf8 s = true -> P s).
  { clear s. induction k as [|k IH]; intros s L U.
    - destruct s; [exact H0|simpl in L; lia].
    - destruct s as [|a s]; [exact H0|]. cbn [utf8] in U. cbv zeta in U.
      simpl in L.
      destruct (Nat.ltb_spec (nat_of_ascii a) 128) as [A1|A1].
      { apply H1; [exact A1|exact U|apply IH; [lia|exact U]]. }
      destruct ((194 <=? nat_of_ascii a)%nat && (nat_of_ascii a <=? 223)%nat)
        eqn:A2.
      { apply andb_true_iff in A2. destruct A2 as [L2 U2].
        apply Nat.leb_le in L2. apply Nat.leb_le in U2.
        destruct s as [|b s]; [discriminate|].
        apply andb_true_iff in U. destruct U as [Cb U]. simpl in L.
        apply H2; [lia|exact Cb|exact U|apply IH; [lia|exact U]]. }
      destruct ((224 <=? nat_of_ascii a)%nat && (nat_of_ascii a <=? 239)%nat)
        eqn:A3.
      { apply andb_true_iff in A3. destruct A3 as [L3 U3].
        apply Nat.leb_le in L3. apply Nat.leb_le in U3.
        destruct s as [|b [|c s]]; try discriminate.
        apply andb_true_iff in U. destruct U as [U Us].
        apply andb_true_iff in U. destruct U as [Cb Cc]. simpl in L.
        apply H3; [lia|exact Cb|exact Cc|exact Us|apply IH; [lia|exact Us]]. }
      destruct ((240 <=? nat_of_ascii a)%nat && (nat_of_ascii a <=? 244)%nat)
        eqn:A4; [|discriminate].
      apply andb_true_iff in A4. destruct A4 as [L4 U4].
      apply Nat.leb_le in L4. apply Nat.leb_le in U4.
      destruct s as [|b [|c [|d s]]]; try discriminate.
      apply andb_true_iff in U. destruct U as [U Us].
      apply andb_true_iff in U. destruct U as [U Cd].
      apply andb_true_iff in U. destruct U as [Cb Cc]. simpl in L.
      apply H4; [lia|exact Cb|exact Cc|exact Cd|exact Us|
                 apply IH; [lia|exact Us]]. }
  apply (G (String.length s)). lia.
Qed.

(** Induction along the characters of a whitespace-only text. *)
Lemma all_space_chars (P : string -> Prop) :
  P "" ->
  (forall a s, ascii_space a = true -> all_space s = true -> P s ->
               P (String a s)) ->
  (forall a b s, space2 a b = true -> all_space s = true -> P s ->
                 P (String a (String b s))) ->
  (forall a b c s, space3 a b c = true -> all_space s = true -> P s ->
                   P (String a (String b (String c s)))) ->
  forall s, all_space s = true -> P s.
Proof.
  intros H0 H1 H2 H3 s.
  assert (G : forall k s, (String.length s <= k)%nat ->
                          all_space s = true -> P s).
  { clear s. induction k as [|k IH]; intros s L U.
    - destruct s; [exact H0|simpl in L; lia].
    - destruct s as [|a s]; [exact H0|]. cbn [all_space] in U. simpl in L.
      destruct (ascii_space a) eqn:A1.
      { apply H1; [exact A1|exact U|apply IH; [lia|exact U]]. }
      destruct s as [|b s]; [discriminate|]. simpl in L.
      destruct (space2 a b) eqn:A2.
      { apply H2; [exact A2|exact U|apply IH; [lia|exact U]]. }
      destruct s as [|c s]; [discriminate|]. simpl in L.
      apply andb_true_iff in U. destruct U as [A3 U].
      apply H3; [exact A3|exact U|apply IH; [lia|exact U]]. }
  apply (G (String.length s)). lia.
Qed.

Lemma remove_space_ascii (a : ascii) (s : string) :
  ascii_space a = true -> remove_space (String a s) = remove_space s.
Proof. intros E. cbn [remove_space]. rewrite E. reflexivity. Qed.

Lemma remove_space_blank (w t : string) :
  all_space w = true -> remove_space (w ++ t) = remove_space t.
Proof.
  intros W. revert w W. apply all_space_chars.
  - reflexivity.
  - intros a s A _ IH. cbn [append]. rewrite remove_space_ascii; assumption.
  - intros a b s A _ IH. cbn [append]. rewrite remove_space_skip2; assumption.
  - intros a b c s A _ IH. cbn [append].
    rewrite remove_space_skip3; assumption.
Qed.

Lemma no_space_kept (s : string) :
  has_space s = false -> remove_space s = s.
Proof.
  induction s as [|a s IH]; [reflexivity|]. cbn [has_space]. intros H.
  apply orb_false_iff in H. destruct H as [H0 H].
  apply negb_false_iff, Nat.eqb_eq in H0.
  rewrite remove_space_keep by exact H0. rewrite IH by exact H. reflexivity.
Qed.

Lemma has_space_keep (a : ascii) (s : string) :
  space_len (String a s) = 0%nat ->
  has_space (String a s) = has_space s.
Proof. intros E. cbn [has_space]. rewrite E. reflexivity. Qed.

Lemma remove_space_clean (s : string) :
  utf8 s = true -> has_space (remove_space s) = false.
Proof.
  revert s. apply utf8_chars.
  - reflexivity.
  - intros a s A _ IH. destruct (ascii_space a) eqn:E.
    + rewrite remove_space_ascii by exact E. exact IH.
    + assert (Z0 : forall t, space_len (String a t) = 0%nat)
        by (intros t; apply space_len_none; [exact E|lia|lia]).
      rewrite remove_space_keep, has_space_keep by apply Z0. exact IH.
  - intros a b s A Cb _ IH. destruct (space2 a b) eqn:E.
    + rewrite remove_space_skip2 by exact E. exact IH.
    + assert (Z0 : forall t, space_len (String a (String b t)) = 0%nat).
      { intros t. apply space_len_two;
          [apply high_not_ascii_space; lia|exact E|lia]. }
      assert (Z1 : forall t, space_len (String b t) = 0%nat)
        by (intros t; apply continuation_kept, Cb).
      rewrite remove_space_keep by apply Z0.
      rewrite remove_space_keep by apply Z1.
      rewrite has_space_keep by apply Z0.
      rewrite has_space_keep by apply Z1. exact IH.
  - intros a b c s A Cb Cc _ IH. destruct (space3 a b c) eqn:E.
    + rewrite remove_space_skip3 by exact E. exact IH.
    + assert (Z0 : forall t,
                 space_len (String a (String b (String c t))) = 0%nat).
      { intros t. apply space_len_three;
          [apply high_not_ascii_space; lia|apply not_space2; lia|exact E]. }
      assert (Z1 : forall t, space_len (String b t) = 0%nat)
        by (intros t; apply continuation_kept, Cb).
      assert (Z2 : forall t, space_len (String c t) = 0%nat)
        by (intros t; apply continuation_kept, Cc).
      rewrite remove_space_keep by apply Z0.
      rewrite remove_space_keep by apply Z1.
      rewrite remove_space_keep by apply Z2.
      rewrite has_space_keep by apply Z0.
      rewrite has_space_keep by apply Z1.
      rewrite has_space_keep by apply Z2. exact IH.
  - intros a b c d s A Cb Cc Cd _ IH.
    assert (Z0 : forall t, space_len (String a t) = 0%nat).
    { intros t. apply space_len_none;
        [apply high_not_ascii_space; lia|lia|lia]. }
    assert (Z1 : forall t, space_len (String b t) = 0%nat)
      by (intros t; apply continuation_kept, Cb).
    assert (Z2 : forall t, space_len (String c t) = 0%nat)
      by (intros t; apply continuation_kept, Cc).
    assert (Z3 : forall t, space_len (String d t) = 0%nat)
      by (intros t; apply continuation_kept, Cd).
    rewrite remove_space_keep by apply Z0.
    rewrite remove_space_keep by apply Z1.
    rewrite remove_space_keep by apply Z2.
    rewrite remove_space_keep by apply Z3.
    rewrite has_space_keep by apply Z0.
    rewrite has_space_keep by apply Z1.
    rewrite has_space_keep by apply Z2.
    rewrite has_space_keep by apply Z3. exact IH.
Qed.

Lemma remove_space_app (s t : string) :
  utf8 s = true ->
  remove_space (s ++ t) = remove_space s ++ remove_space t.
Proof.
  revert s. apply utf8_chars.
  - reflexivity.
  - intros a s A _ IH. cbn [append]. destruct (ascii_space a) eqn:E.
    + rewrite !remove_space_ascii by exact E. exact IH.
    + assert (Z0 : forall u, space_len (String a u) = 0%nat)
        by (intros u; apply space_len_none; [exact E|lia|lia]).
      rewrite !remove_space_keep by apply Z0. cbn [append]. rewrite IH.
      reflexivity.
  - intros a b s A Cb _ IH. cbn [append]. destruct (space2 a b) eqn:E.
    + rewrite !remove_space_skip2 by exact E. exact IH.
    + assert (Z0 : forall u, space_len (String a (String b u)) = 0%nat).
      { intros u. apply space_len_two;
          [apply high_not_ascii_space; lia|exact E|lia]. }
      assert (Z1 : forall u, space_len (String b u) = 0%nat)
        by (intros u; apply continuation_kept, Cb).
      rewrite !(remove_space_keep a) by apply Z0.
      rewrite !(remove_space_keep b) by apply Z1.
      cbn [append]. rewrite IH. reflexivity.
  - intros a b c s A Cb Cc _ IH. cbn [append].
    destruct (space3 a b c) eqn:E.
    + rewrite !remove_space_skip3 by exact E. exact IH.
    + assert (Z0 : forall u,
                 space_len (String a (String b (String c u))) = 0%nat).
      { intros u. apply space_len_three;
          [apply high_not_ascii_space; lia|apply not_space2; lia|exact E]. }
      assert (Z1 : forall u, space_len (String b u) = 0%nat)
        by (intros u; apply continuation_kept, Cb).
      assert (Z2 : forall u, space_len (String c u) = 0%nat)
        by (intros u; apply continuation_kept, Cc).
      rewrite !(remove_space_keep a) by apply Z0.
      rewrite !(remove_space_keep b) by apply Z1.
      rewrite !(remove_space_keep c) by apply Z2.
      cbn [append]. rewrite IH. reflexivity.
  - intros a b c d s A Cb Cc Cd _ IH. cbn [append].
    assert (Z0 : forall u, space_len (String a u) = 0%nat).
    { intros u. apply space_len_none;
        [apply high_not_ascii_space; lia|lia|lia]. }
    assert (Z1 : forall u, space_len (String b u) = 0%nat)
      by (intros u; apply continuation_kept, Cb).
    assert (Z2 : forall u, space_len (String c u) = 0%nat)
      by (intros u; apply continuation_kept, Cc).
    assert (Z3 : forall u, space_len (String d u) = 0%nat)
      by (intros u; apply continuation_kept, Cd).
    rewrite !(remove_space_keep a) by apply Z0.
    rewrite !(remove_space_keep b) by apply Z1.
    rewrite !(remove_space_keep c) by apply Z2.
    rewrite !(remove_space_keep d) by apply Z3.
    cbn [append]. rewrite IH. reflexivity.
Qed.

(** X2.  For a header that is the encoding of a text: the normalised
    header holds no whitespace character; a header without whitespace is
    kept as it is, so a second normalisation changes nothing; and
    whitespace is removed wherever it stands, so two headers that differ
    only in whitespace get the same name.  Whitespace is what Python takes
    for it, the no-break space and the other spaces outside ASCII
    included. *)
Theorem normalize_name_no_space (n : string) :
  utf8 n = true ->
  has_space (normalize_name n) = false
  /\ (has_space n = false -> normalize_name n = n)
  /\ normalize_name (normalize_name n) = normalize_name n
  /\ (forall w b, all_space w = true ->
                  normalize_name (n ++ w ++ b) = normalize_name (n ++ b))
  /\ map normalize_name
         [" A 3 "; "A" ++ nbsp ++ "3"; "A" ++ next_line ++ "3";
          em_space ++ "A3"; "A3" ++ ideographic_space; "E4a"]
     = ["A3"; "A3"; "A3"; "A3"; "A3"; "E4a"].
Proof.
  intros U. unfold normalize_name.
  pose proof (remove_space_clean n U) as C.
  split; [exact C|]. split; [apply no_space_kept|].
  split; [apply no_space_kept, C|]. split; [|vm_compute; reflexivity].
  intros w b W. rewrite !(remove_space_app n) by exact U.
  rewrite remove_space_blank by exact W. reflexivity.
Qed.

Lemma normalize_name_no_space_witness :
  utf8 (" M1_" ++ nbsp ++ "2") = true
  /\ normalize_name (" M1_" ++ nbsp ++ "2") = "M1_2"
  /\ has_space (normalize_name (" M1_" ++ nbsp ++ "2")) = false.
Proof.
  assert (U : utf8 (" M1_" ++ nbsp ++ "2") = true)
    by (vm_compute; reflexivity).
  split; [exact U|]. split; [vm_compute; reflexivity|].
  exact (proj1 (normalize_name_no_space (" M1_" ++ nbsp ++ "2") U)).
Defined.

(** ** Renaming *)

Lemma dict_get_filter_same {V : Type} (p : string * V -> bool)
      (t : dict string V) (n : string) :
  (forall v, p (n, v) = true) ->
  dict_get n (filter p t) = dict_get n t.
Proof.
  intros Hp. induction t as [|[k v] t IH]; [reflexivity|].
  cbn [filter dict_get]. change (keyb n k) with (String.eqb n k).
  destruct (String.eqb_spec n k) as [<-|N].
  - rewrite Hp. cbn [dict_get]. change (keyb n n) with (String.eqb n n).
    rewrite String.eqb_refl. reflexivity.
  - destruct (p (k, v)); [|exact IH].
    cbn [dict_get]. change (keyb n k) with (String.eqb n k).
    destruct (String.eqb_spec n k); [contradiction|exact IH].
Qed.

Lemma has_column_in (n : string) (s : series) (df : DataFrame) :
  In (n, s) df -> has_column n df = true.
Proof.
  intros I. unfold has_column. apply existsb_exists. exists n.
  split; [|apply String.eqb_refl].
  unfold columns. change n with (fst (n, s)). apply in_map, I.
Qed.

Lemma rename_columns_map (table : dict string string) (df : DataFrame) :
  rename_columns table df
  = map (fun ns => (renamed table (fst ns), snd ns)) df.
Proof.
  unfold rename_columns. apply map_ext_in. intros [n s] I. cbn [fst snd].
  unfold renamed.
  rewrite (dict_get_filter_same
             (fun kv => has_column (fst kv) df) table n)
    by (intros v; apply (has_column_in n s df I)).
  destruct (dict_get n table); reflexivity.
Qed.

(** X3.  A rename gives every column whose label is a key of the table the
    alias of the table and keeps every other label; the guard that skips the
    keys the frame does not have changes nothing of that.  The cells, the
    number of columns and their order are kept. *)
Theorem rename_columns_aliases (table : dict string string) (df : DataFrame) :
  rename_columns table df
  = map (fun ns => (renamed table (fst ns), snd ns)) df
  /\ columns (rename_columns table df) = map (renamed table) (columns df)
  /\ map snd (rename_columns table df) = map snd df.
Proof.
  pose proof (rename_columns_map table df) as E.
  split; [exact E|]. split.
  - rewrite E. unfold columns. rewrite !map_map. reflexivity.
  - apply rename_columns_series.
Qed.

(** ** The mapping pass keeps the frame's shape *)

Lemma shape_update (col : string) (f : series -> series) (df : DataFrame) :
  (forall s, length (f s) = length s) ->
  shape (df_update col f df) = shape df.
Proof.
  intros L. unfold shape, df_update. rewrite map_map. apply map_ext.
  intros [n s]. cbn [fst snd]. destruct (String.eqb n col); cbn [fst snd];
    [rewrite L|]; reflexivity.
Qed.

Lemma shape_columns (df df' : DataFrame) :
  shape df = shape df' -> columns df = columns df'.
Proof.
  intros E.
  assert (C : forall d, columns d = map fst (shape d)).
  { intros d. unfold columns, shape. rewrite map_map. reflexivity. }
  rewrite (C df), (C df'), E. reflexivity.
Qed.

Lemma apply_map_safe_length (s : series) (m : code_map) :
  length (apply_map_safe s m) = length s.
Proof. rewrite apply_map_safe_cells. apply length_map. Qed.

Lemma Series_replace_length (d : dict pykey string) (s : series) :
  length (Series_replace d s) = length s.
Proof. apply length_map. Qed.

Lemma shape_column_maps (L : dict string code_map) (df : DataFrame) :
  shape (fold_left apply_column_map L df) = shape df.
Proof.
  revert df. induction L as [|[col m] L IH]; intros df; [reflexivity|].
  cbn [fold_left]. rewrite IH. unfold apply_column_map.
  rewrite guarded_update. apply shape_update.
  intros s. apply apply_map_safe_length.
Qed.

Lemma shape_updates (m : code_map) (cols : list string) (df : DataFrame) :
  shape (fold_left (fun df col =>
                      df_update col (fun s => apply_map_safe s m) df) cols df)
  = shape df.
Proof.
  revert df. induction cols as [|c cols IH]; intros df; [reflexivity|].
  cbn [fold_left]. rewrite IH. apply shape_update.
  intros s. apply apply_map_safe_length.
Qed.

Lemma shape_prefix_maps (L : dict string code_map) (df : DataFrame) :
  shape (fold_left apply_prefix_map L df) = shape df.
Proof.
  revert df. induction L as [|[p m] L IH]; intros df; [reflexivity|].
  cbn [fold_left]. rewrite IH. unfold apply_prefix_map. apply shape_updates.
Qed.

Lemma shape_special_cases (df : DataFrame) :
  shape (apply_special_cases df) = shape df.
Proof.
  unfold apply_special_cases. cbv zeta. rewrite !guarded_update.
  rewrite shape_update by apply Series_replace_length.
  apply shape_update. intros s. rewrite !Series_replace_length. reflexivity.
Qed.

Lemma shape_mappings (df : DataFrame) :
  shape (apply_mappings df) = shape df.
Proof.
  unfold apply_mappings, apply_prefix_maps, apply_column_maps.
  rewrite shape_special_cases, shape_prefix_maps, shape_column_maps.
  reflexivity.
Qed.

(** X4.  On a frame with distinct labels, the mapping pass (exact columns,
    prefixes, special cases) keeps the frame's shape: the same labels in
    the same order and, in every column, as many cells as before.  It adds
    no column, drops none and loses no row. *)
Theorem apply_mappings_shape (df : DataFrame) :
  NoDup (columns df) ->
  shape (apply_mappings df) = shape df
  /\ columns (apply_mappings df) = columns df
  /\ length (apply_mappings df) = length df.
Proof.
  intros _. pose proof (shape_mappings df) as E.
  split; [exact E|]. split; [apply shape_columns, E|].
  assert (L : forall d, length d = length (shape d))
    by (intros d; unfold shape; symmetry; apply length_map).
  rewrite (L (apply_mappings df)), (L df), E. reflexivity.
Qed.

Lemma apply_mappings_shape_witness :
  NoDup (columns idempotence_sample)
  /\ shape (apply_mappings idempotence_sample)
     = [("J1", 5%nat); ("A11", 3%nat); ("M1_3", 2%nat); ("E5", 3%nat);
        ("A3a", 2%nat)]
  /\ shape (apply_mappings idempotence_sample) = shape idempotence_sample.
Proof.
  assert (ND : NoDup (columns idempotence_sample)).
  { repeat constructor; simpl; intuition discriminate. }
  split; [exact ND|]. split; [vm_compute; reflexivity|].
  exact (proj1 (apply_mappings_shape idempotence_sample ND)).
Defined.

(** ** Columns no map governs *)

Lemma special_cell_other (col : string) (c : cell) :
  col <> "E5" -> col <> "A3a" -> special_cell col c = c.
Proof.
  intros N1 N2. unfold special_cell.
  destruct (String.eqb_spec col "E5"); [contradiction|].
  destruct (String.eqb_spec col "A3a"); [contradiction|reflexivity].
Qed.

Lemma df_get_map_cells (f : string -> cell -> cell) (n : string)
      (df : DataFrame) :
  df_get n (map_cells f df) = option_map (map (f n)) (df_get n df).
Proof.
  unfold df_get, map_cells. induction df as [|[n0 s0] df IH]; [reflexivity|].
  cbn [map dict_get fst snd]. change (keyb n n0) with (String.eqb n n0).
  destruct (String.eqb_spec n n0) as [->|_]; [reflexivity|exact IH].
Qed.

(** X5.  A column that no code map governs and that is not one of the two
    special columns passes through the mapping pass unchanged, cell for
    cell, on a frame with distinct labels. *)
Theorem ungoverned_column_unchanged (df : DataFrame) (n : string)
        (s : series) :
  NoDup (columns df) -> In (n, s) df ->
  governing_map n = None -> n <> "E5" -> n <> "A3a" ->
  In (n, s) (apply_mappings df)
  /\ df_get n (apply_mappings df) = Some s.
Proof.
  intros ND I G N1 N2.
  assert (R : forall c, recode_cell n c = c).
  { intros c. unfold recode_cell. rewrite G.
    apply special_cell_other; assumption. }
  assert (I' : In (n, s) (apply_mappings df)).
  { rewrite (apply_mappings_cells df ND). unfold map_cells.
    apply in_map_iff. exists (n, s). split; [|exact I]. cbn [fst snd].
    rewrite (map_ext _ (fun c => c)) by exact R. rewrite map_id.
    reflexivity. }
  split; [exact I'|].
  rewrite (apply_mappings_cells df ND), df_get_map_cells.
  unfold df_get.
  rewrite (@in_dict_get string series Key_string df n s ND I).
  cbn [option_map].
  rewrite (map_ext _ (fun c => c)) by exact R. rewrite map_id. reflexivity.
Qed.

Lemma ungoverned_column_unchanged_witness :
  NoDup (columns survey_sample)
  /\ In ("Gender", [Str "Male"; Str "Female"; Str "Male"]) survey_sample
  /\ governing_map "Gender" = None
  /\ df_get "Gender" (apply_mappings survey_sample)
     = Some [Str "Male"; Str "Female"; Str "Male"].
Proof.
  assert (ND : NoDup (columns survey_sample)).
  { vm_compute. repeat constructor; simpl; intuition discriminate. }
  assert (I : In ("Gender", [Str "Male"; Str "Female"; Str "Male"])
                 survey_sample).
  { unfold survey_sample. do 6 right. left. reflexivity. }
  assert (G : governing_map "Gender" = None) by (vm_compute; reflexivity).
  split; [exact ND|]. split; [exact I|]. split; [exact G|].
  refine (proj2 (ungoverned_column_unchanged survey_sample "Gender"
                   [Str "Male"; Str "Female"; Str "Male"] ND I G _ _));
    discriminate.
Defined.

(** ** The two special columns *)

(** X6.  In E5 only the four sentinel cells ([-98] and [-99], as numbers
    or as texts) are rewritten, to "Don't know" and "Prefer not to say";
    every other cell, a percentage or the plain codes 98 and 99 among them,
    is kept.  In A3a only 999, as a number or as a text, is rewritten.
    On a frame with distinct labels the column E5 of the mapped frame is
    the old one with just these cells replaced. *)
Theorem special_columns_keep_values (c : cell) :
  (~ In c E5_sentinels -> recode_cell "E5" c = c)
  /\ (~ In c A3a_sentinels -> recode_cell "A3a" c = c)
  /\ map (recode_cell "E5") E5_sentinels
     = [Str "Don't know"; Str "Prefer not to say";
        Str "Don't know"; Str "Prefer not to say"]
  /\ map (recode_cell "A3a") A3a_sentinels
     = [Str "Prefer not to say"; Str "Prefer not to say"]
  /\ map (recode_cell "E5") [Int 98; Int 99; Int 999]
     = [Int 98; Int 99; Int 999]
  /\ (forall df s, NoDup (columns df) -> In ("E5", s) df ->
                   In ("E5", map (recode_cell "E5") s) (apply_mappings df)).
Proof.
  split; [|split; [|split; [vm_compute; reflexivity|
                            split; [vm_compute; reflexivity|
                                    split; [vm_compute; reflexivity|]]]]].
  - intros N. unfold E5_sentinels in N. cbn [In] in N.
    change (recode_cell "E5" c)
      with (replace_cell E5_texts (replace_cell E5_numbers c)).
    destruct c as [|z|s]; [reflexivity| |].
    + assert (E : replace_cell E5_numbers (Int z) = Int z).
      { unfold replace_cell. cbn.
        destruct (Z.eqb_spec z (-98)) as [->|_]; [exfalso; tauto|].
        destruct (Z.eqb_spec z (-99)) as [->|_]; [exfalso; tauto|].
        reflexivity. }
      rewrite E. reflexivity.
    + change (replace_cell E5_numbers (Str s)) with (Str s).
      unfold replace_cell. cbn.
      destruct (String.eqb_spec s "-98") as [->|_]; [exfalso; tauto|].
      destruct (String.eqb_spec s "-99") as [->|_]; [exfalso; tauto|].
      reflexivity.
  - intros N. unfold A3a_sentinels in N. cbn [In] in N.
    change (recode_cell "A3a" c) with (replace_cell A3a_codes c).
    destruct c as [|z|s]; [reflexivity| |]; unfold replace_cell; cbn.
    + destruct (Z.eqb_spec z 999) as [->|_]; [exfalso; tauto|reflexivity].
    + destruct (String.eqb_spec s "999") as [->|_];
        [exfalso; tauto|reflexivity].
  - intros df s ND I. rewrite (apply_mappings_cells df ND).
    unfold map_cells. apply in_map_iff. exists ("E5", s).
    split; [reflexivity|exact I].
Qed.

(** ** One map per column *)

Lemma incomparable_one_match (L : dict string code_map) (n : string) :
  incomparable (dict_keys L) = true ->
  (length (filter (fun e => String.prefix (fst e) n) L) <= 1)%nat.
Proof.
  induction L as [|e L IH]; intros Hinc; [simpl; lia|].
  simpl in Hinc. apply andb_true_iff in Hinc. destruct Hinc as [He HL].
  cbn [filter]. destruct (String.prefix (fst e) n) eqn:P; [|apply IH, HL].
  assert (Z0 : filter (fun e' => String.prefix (fst e') n) L = []).
  { clear IH HL. rewrite forallb_forall in He.
    induction L as [|e' L IHL]; [reflexivity|].
    cbn [filter]. destruct (String.prefix (fst e') n) eqn:P'.
    - specialize (He (fst e') (or_introl eq_refl)).
      apply andb_true_iff in He. rewrite !negb_true_iff in He.
      destruct (prefix_comparable _ _ _ P P'); destruct He; congruence.
    - apply IHL. intros x Ix. apply He. right. exact Ix. }
  rewrite Z0. simpl. lia.
Qed.

(** X7.  No column is governed twice: a label starts with at most one
    prefix of [PREFIX_MAPS], and a label that is a key of [COLUMN_MAPS]
    starts with none, so at most one code map is applied to a column and
    the order of the two loops does not matter.  A column is left alone by
    both loops exactly when it is no key and starts with no prefix. *)
Theorem one_map_per_column (n : string) :
  (length (matching_prefixes n) <= 1)%nat
  /\ (dict_has n COLUMN_MAPS = true -> matching_prefixes n = [])
  /\ (governing_map n = None
      <-> dict_get n COLUMN_MAPS = None /\ matching_prefixes n = []).
Proof.
  unfold matching_prefixes. split; [|split].
  - apply incomparable_one_match, prefixes_incomparable.
  - unfold dict_has. destruct (dict_get n COLUMN_MAPS) as [m|] eqn:G;
      [intros _|discriminate].
    pose proof exact_not_prefixed as X. rewrite forallb_forall in X.
    apply dict_get_in in G.
    assert (I : In n (dict_keys COLUMN_MAPS))
      by (change n with (fst (n, m)); apply in_map; exact G).
    specialize (X n I). rewrite forallb_forall in X.
    clear G I. induction PREFIX_MAPS as [|e L IH]; [reflexivity|].
    cbn [filter].
    assert (P : String.prefix (fst e) n = false).
    { apply negb_true_iff, X. left. reflexivity. }
    rewrite P. apply IH. intros x Ix. apply X. right. exact Ix.
  - unfold governing_map. destruct (dict_get n COLUMN_MAPS) as [m|].
    + split; [discriminate|]. intros [E _]. discriminate.
    + induction PREFIX_MAPS as [|e L IH].
      * simpl. tauto.
      * cbn [find filter]. destruct (String.prefix (fst e) n).
        -- split; [discriminate|]. intros [_ E]. discriminate.
        -- exact IH.
Qed.

(** ** No respondent is lost *)

Lemma clean_data_stages (raw : DataFrame) :
  clean_data raw
  = rename_columns friendly_names (dropna_columns (mapped_frame raw)).
Proof. unfold clean_data, mapped_frame. reflexivity. Qed.

Lemma lengths_of_shape (df df' : DataFrame) :
  shape df = shape df' ->
  map (fun ns => length (snd ns)) df = map (fun ns => length (snd ns)) df'.
Proof.
  intros E.
  assert (C : forall d, map (fun ns => length (snd ns)) d = map snd (shape d)).
  { intros d. unfold shape. rewrite map_map. reflexivity. }
  rewrite (C df), (C df'), E. reflexivity.
Qed.

Lemma mapped_frame_lengths (raw : DataFrame) :
  map (fun ns => length (snd ns)) (mapped_frame raw)
  = map (fun ns => length (snd ns)) raw
  /\ length (mapped_frame raw) = length raw.
Proof.
  assert (E : map (fun ns => length (snd ns)) (mapped_frame raw)
              = map (fun ns => length (snd ns)) raw).
  { unfold mapped_frame.
    rewrite (lengths_of_shape _ _ (shape_mappings _)).
    transitivity (map (@length cell)
                      (map snd (rename_columns pre_rename
                                  (normalize_columns (normalize_blanks raw)))));
      [symmetry; apply map_map|].
    rewrite rename_columns_series. unfold normalize_columns, normalize_blanks.
    rewrite !map_map. apply map_ext. intros [n s]. cbn [fst snd].
    apply length_map. }
  split; [exact E|].
  transitivity (length (map (fun ns => length (snd ns)) (mapped_frame raw)));
    [symmetry; apply length_map|rewrite E; apply length_map].
Qed.

Lemma rectangular_in (df : DataFrame) (ns : string * series) :
  rectangular df = true -> In ns df -> length (snd ns) = nrows df.
Proof.
  unfold rectangular. intros R I. rewrite forallb_forall in R.
  apply Nat.eqb_eq, R, I.
Qed.

Lemma same_lengths_series (a b : DataFrame) (s : series) :
  map (fun ns => length (snd ns)) a = map (fun ns => length (snd ns)) b ->
  In s (map snd a) ->
  exists ns0, In ns0 b /\ length (snd ns0) = length s.
Proof.
  revert b. induction a as [|[n0 s0] a IH]; intros b E I; [destruct I|].
  destruct b as [|ns1 b]; [discriminate|].
  cbn [map snd] in E. injection E as El E.
  destruct I as [<-|I].
  - exists ns1. split; [left; reflexivity|symmetry; exact El].
  - destruct (IH b E I) as (ns0 & I' & L). exists ns0.
    split; [right; exact I'|exact L].
Qed.

Lemma mapped_series_length (raw : DataFrame) (s : series) :
  rectangular raw = true -> In s (map snd (mapped_frame raw)) ->
  length s = nrows raw.
Proof.
  intros R I.
  destruct (same_lengths_series _ _ s (proj1 (mapped_frame_lengths raw)) I)
    as (ns0 & I0 & E).
  rewrite <- E. apply rectangular_in; assumption.
Qed.

Lemma dropna_series (df : DataFrame) (s : series) :
  In s (map snd (dropna_columns df)) -> In s (map snd df).
Proof.
  intros I. apply in_map_iff in I. destruct I as (ns & <- & I).
  apply in_map. unfold dropna_columns in I. apply filter_In in I. apply I.
Qed.

(** X8.  Cleaning loses no respondent: on a rectangular raw frame whose
    labels stay distinct once the headers are normalised and harmonised,
    every column of the cleaned frame has exactly the rows of the raw
    frame, and the cleaned frame has at most the columns of the raw one. *)
Theorem clean_data_keeps_rows (raw : DataFrame) :
  rectangular raw = true ->
  NoDup (mapping_labels raw) ->
  (forall n s, In (n, s) (clean_data raw) -> length s = nrows raw)
  /\ (length (clean_data raw) <= length raw)%nat.
Proof.
  intros R _. rewrite (clean_data_stages raw). split.
  - intros n s I. apply (mapped_series_length raw s R).
    apply dropna_series.
    rewrite <- (rename_columns_series friendly_names).
    apply (in_map snd _ (n, s)), I.
  - transitivity (length (dropna_columns (mapped_frame raw))).
    + apply Nat.eq_le_incl.
      transitivity (length (map snd (rename_columns friendly_names
                                       (dropna_columns (mapped_frame raw)))));
        [symmetry; apply length_map|].
      rewrite rename_columns_series. apply length_map.
    + unfold dropna_columns.
      etransitivity; [apply filter_length_le|].
      apply Nat.eq_le_incl, (proj2 (mapped_frame_lengths raw)).
Qed.

Lemma clean_data_keeps_rows_witness :
  rectangular raw_sample = true
  /\ NoDup (mapping_labels raw_sample)
  /\ clean_data raw_sample
     = [("Respondent_ID", [Int 7; Int 8; Int 9]);
        ("Gender", [Str "Male"; Str "Female"; NaN]);
        ("Education", [Str "Prefer not to say"; Str "Some college"; Int 98]);
        ("E5", [Str "Don't know"; Int 40; Str "Prefer not to say"]);
        ("M1_2", [Str ""; Str "Strongly agree"; NaN])]
  /\ (forall n s, In (n, s) (clean_data raw_sample) ->
                  length s = nrows raw_sample)
  /\ (length (clean_data raw_sample) <= length raw_sample)%nat.
Proof.
  assert (R : rectangular raw_sample = true) by (vm_compute; reflexivity).
  assert (ND : NoDup (mapping_labels raw_sample)).
  { vm_compute. repeat constructor; simpl; intuition discriminate. }
  split; [exact R|]. split; [exact ND|]. split; [vm_compute; reflexivity|].
  exact (clean_data_keeps_rows raw_sample R ND).
Defined.

(** ** No declared code is left behind *)

(** X9.  After the safe mapping with a code map, no cell of the column
    holds a number that is a key of the map: every declared numeric code
    has become its label.  (A text may still read like a code when the
    label of the code is that text, as "1" for code 1 of A11.) *)
Theorem declared_codes_replaced (m : code_map) (s : series) (k : Z) :
  NoDup (dict_keys m) -> In k (dict_keys m) ->
  ~ In (Int k) (apply_map_safe s m).
Proof.
  intros ND Ik I. rewrite apply_map_safe_cells in I.
  apply in_map_iff in I. destruct I as (c & E & _).
  destruct c as [|z|t].
  - discriminate.
  - rewrite safe_cell_int in E by exact ND.
    destruct (dict_get z m) eqn:G; [discriminate|].
    injection E as ->. apply dict_get_none in G. contradiction.
  - unfold safe_cell in E. cbn [key_of_cell] in E.
    destruct (dict_get (KStr t) (mixed m)); discriminate.
Qed.

Lemma declared_codes_replaced_witness :
  NoDup (dict_keys A11_children)
  /\ In 1 (dict_keys A11_children)
  /\ apply_map_safe [Int 1; Str "1"; Int 4; Int 98; NaN] A11_children
     = [Str "1"; Str "1"; Str "4 or more"; Int 98; NaN]
  /\ ~ In (Int 1)
          (apply_map_safe [Int 1; Str "1"; Int 4; Int 98; NaN] A11_children).
Proof.
  assert (ND : NoDup (dict_keys A11_children))
    by (unfold A11_children; apply dict_lit_nodup).
  assert (I : In 1 (dict_keys A11_children)) by (left; reflexivity).
  split; [exact ND|]. split; [exact I|]. split; [vm_compute; reflexivity|].
  exact (declared_codes_replaced A11_children
           [Int 1; Str "1"; Int 4; Int 98; NaN] 1 ND I).
Defined.

(** ** Blank columns are dropped *)

Lemma pattern_of_series (df : DataFrame) :
  missing_pattern df = map (map isna) (map snd df).
Proof. unfold missing_pattern. rewrite map_map. reflexivity. Qed.

Lemma pattern_update (col : string) (f : series -> series) (df : DataFrame) :
  (forall s, map isna (f s) = map isna s) ->
  missing_pattern (df_update col f df) = missing_pattern df.
Proof.
  intros L. unfold missing_pattern, df_update. rewrite map_map. apply map_ext.
  intros [n s]. cbn [fst snd]. destruct (String.eqb n col); cbn [fst snd];
    [apply L|reflexivity].
Qed.

Lemma apply_map_safe_pattern (m : code_map) (s : series) :
  map isna (apply_map_safe s m) = map isna s.
Proof.
  rewrite apply_map_safe_cells, map_map. apply map_ext, safe_cell_isna.
Qed.

Lemma Series_replace_pattern (d : dict pykey string) (s : series) :
  map isna (Series_replace d s) = map isna s.
Proof.
  unfold Series_replace. rewrite map_map. apply map_ext.
  intros c. apply (replace_cell_isna d c).
Qed.

Lemma pattern_column_maps (L : dict string code_map) (df : DataFrame) :
  missing_pattern (fold_left apply_column_map L df) = missing_pattern df.
Proof.
  revert df. induction L as [|[col m] L IH]; intros df; [reflexivity|].
  cbn [fold_left]. rewrite IH. unfold apply_column_map.
  rewrite guarded_update. apply pattern_update.
  intros s. apply apply_map_safe_pattern.
Qed.

Lemma pattern_updates (m : code_map) (cols : list string) (df : DataFrame) :
  missing_pattern
    (fold_left (fun df col =>
                  df_update col (fun s => apply_map_safe s m) df) cols df)
  = missing_pattern df.
Proof.
  revert df. induction cols as [|c cols IH]; intros df; [reflexivity|].
  cbn [fold_left]. rewrite IH. apply pattern_update.
  intros s. apply apply_map_safe_pattern.
Qed.

Lemma pattern_prefix_maps (L : dict string code_map) (df : DataFrame) :
  missing_pattern (fold_left apply_prefix_map L df) = missing_pattern df.
Proof.
  revert df. induction L as [|[p m] L IH]; intros df; [reflexivity|].
  cbn [fold_left]. rewrite IH. unfold apply_prefix_map. apply pattern_updates.
Qed.

Lemma pattern_special_cases (df : DataFrame) :
  missing_pattern (apply_special_cases df) = missing_pattern df.
Proof.
  unfold apply_special_cases. cbv zeta. rewrite !guarded_update.
  rewrite pattern_update by apply Series_replace_pattern.
  apply pattern_update. intros s. rewrite !Series_replace_pattern.
  reflexivity.
Qed.

Lemma pattern_mappings (df : DataFrame) :
  missing_pattern (apply_mappings df) = missing_pattern df.
Proof.
  unfold apply_mappings, apply_prefix_maps, apply_column_maps.
  rewrite pattern_special_cases, pattern_prefix_maps, pattern_column_maps.
  reflexivity.
Qed.

Lemma pattern_rename (table : dict string string) (df : DataFrame) :
  missing_pattern (rename_columns table df) = missing_pattern df.
Proof. rewrite !pattern_of_series, rename_columns_series. reflexivity. Qed.

Lemma blank_to_nan_answered (c : cell) :
  isna (blank_to_nan c) = negb (answered c).
Proof.
  destruct c as [|z|s]; try reflexivity.
  unfold answered. simpl. destruct (all_space s); reflexivity.
Qed.

Lemma pattern_mapped_frame (raw : DataFrame) :
  missing_pattern (mapped_frame raw)
  = map (fun ns => map (fun c => negb (answered c)) (snd ns)) raw.
Proof.
  unfold mapped_frame. rewrite pattern_mappings, pattern_rename.
  unfold missing_pattern, normalize_columns, normalize_blanks.
  rewrite !map_map. apply map_ext. intros [n s]. cbn [fst snd].
  rewrite map_map. apply map_ext, blank_to_nan_answered.
Qed.

Lemma columns_rename (table : dict string string) (df : DataFrame) :
  columns (rename_columns table df) = map (renamed table) (columns df).
Proof.
  rewrite rename_columns_map. unfold columns. rewrite !map_map. reflexivity.
Qed.

Lemma columns_mapped_frame (raw : DataFrame) :
  columns (mapped_frame raw)
  = map (fun n => renamed pre_rename (normalize_name n)) (columns raw).
Proof.
  unfold mapped_frame.
  rewrite (shape_columns _ _ (shape_mappings _)), columns_rename.
  unfold columns, normalize_columns, normalize_blanks.
  rewrite !map_map. reflexivity.
Qed.

(** Pruning a frame whose labels and missing cells are read off another
    frame, column by column. *)
Lemma dropna_columns_of (g : string -> string)
      (h : string * series -> list bool) (A B : DataFrame) :
  columns A = map g (columns B) ->
  missing_pattern A = map h B ->
  columns (dropna_columns A)
  = map g (columns (filter (fun ns => existsb negb (h ns)) B))
  /\ missing_pattern (dropna_columns A)
     = map h (filter (fun ns => existsb negb (h ns)) B).
Proof.
  revert B. induction A as [|[n s] A IH]; intros B Ec Ep.
  - destruct B; [split; reflexivity|discriminate].
  - destruct B as [|b B]; [discriminate|].
    cbn [columns missing_pattern map fst snd] in Ec, Ep.
    injection Ec as En Ec. injection Ep as Es Ep.
    destruct (IH B Ec Ep) as [IHc IHp].
    assert (X : existsb notna s = existsb negb (h b)).
    { rewrite <- Es. clear. induction s as [|c s IHs]; [reflexivity|].
      cbn [map existsb]. rewrite IHs. reflexivity. }
    unfold dropna_columns in *. cbn [filter snd]. rewrite X.
    destruct (existsb negb (h b)).
    + cbn [columns missing_pattern map fst snd].
      split; f_equal; assumption.
    + split; assumption.
Qed.

Lemma answered_pattern (s : series) :
  existsb negb (map (fun c => negb (answered c)) s) = existsb answered s.
Proof.
  induction s as [|c s IHs]; [reflexivity|].
  cbn [map existsb]. rewrite IHs, negb_involutive. reflexivity.
Qed.

Lemma clean_data_columns (raw : DataFrame) :
  columns (clean_data raw) = map final_label (columns (filter has_answer raw))
  /\ missing_pattern (clean_data raw)
     = map (fun ns => map (fun c => negb (answered c)) (snd ns))
           (filter has_answer raw).
Proof.
  destruct (dropna_columns_of
              (fun n => renamed pre_rename (normalize_name n))
              (fun ns => map (fun c => negb (answered c)) (snd ns))
              (mapped_frame raw) raw
              (columns_mapped_frame raw) (pattern_mapped_frame raw))
    as [Ec Ep].
  rewrite (filter_ext _ has_answer) in Ec, Ep
    by (intros ns; apply answered_pattern).
  rewrite (clean_data_stages raw), columns_rename, pattern_rename.
  split; [|exact Ep].
  rewrite Ec, map_map. reflexivity.
Qed.

(** X10.  On a raw export whose labels stay distinct once the headers are
    normalised and harmonised, a column survives the cleaning exactly when
    it holds an answer, a cell that is neither missing nor a
    whitespace-only text.  The cleaned frame has these columns in their
    order, each under its final label (the header without whitespace, after
    the two renames), and a cell of it is missing exactly when the cell of
    the export was missing or blank; every other column is dropped. *)
Theorem clean_data_drops_blank_columns (raw : DataFrame) :
  NoDup (mapping_labels raw) ->
  columns (clean_data raw) = map final_label (columns (filter has_answer raw))
  /\ missing_pattern (clean_data raw)
     = map (fun ns => map (fun c => negb (answered c)) (snd ns))
           (filter has_answer raw)
  /\ length (clean_data raw) = length (filter has_answer raw).
Proof.
  intros _. destruct (clean_data_columns raw) as [Ec Ep].
  split; [exact Ec|]. split; [exact Ep|].
  transitivity (length (columns (clean_data raw)));
    [unfold columns; symmetry; apply length_map|].
  rewrite Ec. unfold columns. rewrite !length_map. reflexivity.
Qed.

Lemma clean_data_drops_blank_columns_witness :
  NoDup (mapping_labels raw_sample)
  /\ map has_answer raw_sample = [true; true; true; true; true; false]
  /\ columns (clean_data raw_sample)
     = ["Respondent_ID"; "Gender"; "Education"; "E5"; "M1_2"]
  /\ columns (clean_data raw_sample)
     = map final_label (columns (filter has_answer raw_sample)).
Proof.
  assert (ND : NoDup (mapping_labels raw_sample)).
  { vm_compute. repeat constructor; simpl; intuition discriminate. }
  split; [exact ND|]. split; [vm_compute; reflexivity|].
  split; [vm_compute; reflexivity|].
  exact (proj1 (clean_data_drops_blank_columns raw_sample ND)).
Defined.

(** ** From the export to the analysis *)

Lemma has_column_of_columns (c : string) (df : DataFrame) :
  In c (columns df) -> has_column c df = true.
Proof.
  intros I. unfold has_column. apply existsb_exists. exists c.
  split; [exact I|apply String.eqb_refl].
Qed.

Lemma answered_column_kept (raw : DataFrame) (n : string) (s : series) :
  In (n, s) raw -> existsb answered s = true ->
  has_column (final_label n) (clean_data raw) = true.
Proof.
  intros I A. apply has_column_of_columns.
  rewrite (proj1 (clean_data_columns raw)).
  apply in_map. unfold columns. change n with (fst (n, s)). apply in_map.
  apply filter_In. split; [exact I|exact A].
Qed.

(** X11.  The cleaned frame has the columns the analysis reads: when the
    raw export, its labels distinct once the headers are normalised and
    harmonised, holds answers in the five question columns M6 to M10, in
    A3, A3a, CENSUSREG and CENSUSDIV, the cleaned frame has the columns
    Q_Interest, Q_Inflation, Q_Bonds, Q_Risk, Q_Mortgage, Gender, Age,
    Census_Region and Census_Division, which are the final labels of those
    nine. *)
Theorem cleaned_frame_has_analysis_columns (raw : DataFrame) :
  NoDup (mapping_labels raw) ->
  (forall n, In n analysis_sources ->
             exists s, In (n, s) raw /\ existsb answered s = true) ->
  forallb (fun c => has_column c (clean_data raw)) analysis_columns = true
  /\ map final_label analysis_sources = analysis_columns.
Proof.
  intros _ H. split; [|vm_compute; reflexivity].
  assert (E : map final_label analysis_sources = analysis_columns)
    by (vm_compute; reflexivity).
  rewrite <- E. apply forallb_forall. intros c I.
  apply in_map_iff in I. destruct I as (n & <- & I).
  destruct (H n I) as (s & Is & A).
  apply (answered_column_kept raw n s Is A).
Qed.

Lemma cleaned_frame_has_analysis_columns_witness :
  NoDup (mapping_labels raw_survey)
  /\ (forall n, In n analysis_sources ->
             exists s, In (n, s) raw_survey /\ existsb answered s = true)
  /\ forallb (fun c => has_column c (clean_data raw_survey)) analysis_columns
     = true.
Proof.
  assert (ND : NoDup (mapping_labels raw_survey)).
  { vm_compute. repeat constructor; simpl; intuition discriminate. }
  assert (H : forall n, In n analysis_sources ->
                exists s, In (n, s) raw_survey /\ existsb answered s = true).
  { intros n I. unfold analysis_sources in I. cbn [In] in I.
    unfold raw_survey.
    repeat (destruct I as [<-|I];
            [eexists; split; [cbn [In]; eauto 12|reflexivity]|]).
    destruct I. }
  split; [exact ND|]. split; [exact H|].
  exact (proj1 (cleaned_frame_has_analysis_columns raw_survey ND H)).
Defined.

(** ** From a raw answer to the label of the answer key *)

(** Reads the mixed dictionary of a literal code map at a key. *)
Ltac read_mixed m :=
  let v := eval vm_compute in (mixed m) in
  change (mixed m) with v;
  cbn [dict_get keyb Key_pykey pykey_eqb].

Ltac split_codes :=
  repeat match goal with
    | |- context [Z.eqb ?z ?k] => destruct (Z.eqb_spec z k) as [->|?]
    | |- context [String.eqb ?s ?k] => destruct (String.eqb_spec s k) as [->|?]
    end.

Ltac settle_cell :=
  cbn [In];
  split;
  [ intros E; first [discriminate E | injection E as ->; tauto | tauto]
  | intros [E|[E|[E|[]]]];
    first [discriminate E | reflexivity | injection E as E; congruence] ].

Ltac one_question raw m code key :=
  exists key; split; [vm_compute; reflexivity|];
  split; [vm_compute; reflexivity|];
  intros c;
  rewrite (governed_recode raw m c) by (vm_compute; reflexivity);
  unfold answer_cells; change (py_str code) with (cell_str (Int code));
  let v := eval vm_compute in (cell_str (Int code)) in
  change (cell_str (Int code)) with v;
  destruct c as [|z|s];
  [ vm_compute; split; [discriminate|intros [E|[E|[E|[]]]]; discriminate E]
  | unfold safe_cell; cbn [key_of_cell]; read_mixed m; split_codes;
    settle_cell
  | unfold safe_cell; cbn [key_of_cell]; read_mixed m; split_codes;
    settle_cell ].

(** X12.  Which raw answers the cleaning turns into the answer key.  Each
    question column of the export is renamed to the label [analysis.py]
    scores, and in the frame the cleaning returns a cell of it holds the
    text [analysis.py] compares with exactly when the raw cell was the code
    of that answer as a number, that code as a text, or the text itself:
    code 1 of M6, M7 and M9, code 2 of M8 and M10.  Every other raw cell,
    the sentinels 98 and 99 and a missing cell included, becomes something
    else.  This is the frame in memory: how [pd.read_csv] types the column
    when the analysis reads the file back is not part of the statement. *)
Theorem raw_answer_labels :
  Forall (fun q =>
            let '(raw, friendly, code) := q in
            exists key,
              dict_get raw friendly_names = Some friendly
              /\ dict_get friendly correct_answers = Some key
              /\ forall c,
                   recode_cell raw c = Str key
                   <-> In c (answer_cells code key))
         question_codes
  /\ map (fun q => snd (fst q)) question_codes = LITERACY_COLS.
Proof.
  split; [|reflexivity].
  unfold question_codes. repeat constructor.
  - one_question "M6" M6_interest 1 "More than $102".
  - one_question "M7" M7_inflation 1 "More than today".
  - one_question "M8" M8_bonds 2 "Fall".
  - one_question "M9" TRUE_FALSE 1 "True".
  - one_question "M10" TRUE_FALSE 2 "False".
Qed.

(** * Further properties of [analysis.py] *)

(** ** The source of the age groups *)

Lemma code_label_cell (c : cell) :
  (let m := match key_of_cell c with
            | Some k => match dict_get k (int_items code_to_label) with
                        | Some l => Str l
                        | None => NaN
                        end
            | None => NaN
            end in
   if isna m then c else m) = age_code_cell c.
Proof.
  cbv zeta. destruct c as [|z|s]; [reflexivity| |].
  - cbn [key_of_cell]. rewrite int_items_get. unfold age_code_cell.
    unfold code_to_label, dict_lit. cbn.
    repeat match goal with
      | |- context [Z.eqb z ?k] => destruct (Z.eqb_spec z k) as [->|?]
      end; try reflexivity.
    destruct ((1 <=? z) && (z <=? 6)) eqn:B; [|reflexivity].
    apply andb_true_iff in B. destruct B as [B1 B2].
    apply Z.leb_le in B1. apply Z.leb_le in B2. lia.
  - cbn [key_of_cell]. rewrite int_items_get_str. reflexivity.
Qed.

Section Ages.

Variable parse_number : string -> option Q.

(** X13.  Where the age groups come from.  With a column Age the groups
    are the buckets of its numeric values and the column is categorical
    with the six labels, whatever Age_Category_Code holds.  Without Age but
    with Age_Category_Code, the codes 1 to 6 become the six labels and
    every other cell (another number, a text, even the text of a code, a
    missing cell) stays as it is; the column is not categorical.  With
    neither, the frame is left as it is and no Age_group is made. *)
Theorem age_group_sources (df : DataFrame) :
  (forall age, df_get "Age" df = Some age ->
     df_get "Age_group" (frame (build_age_group parse_number df))
     = Some (map (fun c => cell_of_label (Age_group (to_numeric parse_number c)))
                 age)
     /\ dict_get "Age_group" (categories (build_age_group parse_number df))
        = Some labels)
  /\ (forall code, df_get "Age" df = None ->
        df_get "Age_Category_Code" df = Some code ->
        df_get "Age_group" (frame (build_age_group parse_number df))
        = Some (map age_code_cell code)
        /\ categories (build_age_group parse_number df) = [])
  /\ (df_get "Age" df = None -> df_get "Age_Category_Code" df = None ->
      build_age_group parse_number df = {| frame := df; categories := [] |})
  /\ map age_code_cell [Int 1; Int 6; Int 7; Int 0; Str "3"; NaN]
     = [Str "18-24"; Str "65+"; Int 7; Int 0; Str "3"; NaN].
Proof.
  split; [|split; [|split; [|reflexivity]]].
  - intros age A. unfold build_age_group. rewrite A. cbn [frame categories].
    rewrite df_get_setitem, String.eqb_refl. split; reflexivity.
  - intros code A C. unfold build_age_group. rewrite A, C.
    cbn [frame categories]. rewrite df_get_setitem, String.eqb_refl.
    split; [|reflexivity]. f_equal.
    unfold Series_map. rewrite fillna_map. apply map_ext.
    intros c. apply code_label_cell.
  - intros A C. unfold build_age_group. rewrite A, C. reflexivity.
Qed.

End Ages.

(** ** How a run ends *)

Lemma saved_files_app (a b : list event) :
  saved_files (a ++ b) = (saved_files a ++ saved_files b)%list.
Proof. apply filter_app. Qed.

Lemma saved_files_geo (col title file : string) (present : bool)
      (tbl : list summary_row) :
  saved_files (geo_events col title file present tbl)
  = if present then [Saved file] else [].
Proof. destruct present; reflexivity. Qed.


(** The scoring step leaves the columns it does not write as they are. *)
Lemma build_literacy_get (df df' : DataFrame) (out out' : list event)
      (c : string) :
  build_literacy df out = Ok df' out' ->
  ~ In c score_columns ->
  df_get c df' = df_get c df /\ out' = out.
Proof.
  intros B N.
  pose proof (build_literacy_inv df df' out out' B) as Hcols.
  cbn [forallb LITERACY_COLS] in Hcols.
  repeat (apply andb_true_iff in Hcols;
          let H := fresh "P" in destruct Hcols as [H Hcols]).
  apply has_column_get in P, P0, P1, P2, P3.
  destruct P as [s1 G1], P0 as [s2 G2], P1 as [s3 G3], P2 as [s4 G4],
    P3 as [s5 G5].
  rewrite (build_literacy_frame df out s1 s2 s3 s4 s5 G1 G2 G3 G4 G5) in B.
  injection B as <- <-. split; [|reflexivity].
  unfold score_columns in N. cbn [In] in N.
  rewrite !df_get_setitem.
  repeat match goal with
    | |- context [String.eqb c ?n] =>
        destruct (String.eqb_spec c n) as [->|?]; [exfalso; tauto|]
    end.
  reflexivity.
Qed.

Section Runs.

Variable parse_number : string -> option Q.
Variable observed : bool.


(** The state after the scoring step and the age groups: the columns of
    the input are there, and so is the score. *)
Lemma scored_state (df : DataFrame) (out : list event) :
  forallb (fun c => has_column c df) LITERACY_COLS = true ->
  exists df',
    build_literacy df out = Ok df' out
    /\ has_column "literacy_score" (frame (build_age_group parse_number df'))
       = true
    /\ forall c, c <> "Age_group" ->
         forallb (fun n => negb (String.eqb c n)) score_columns = true ->
         has_column c (frame (build_age_group parse_number df'))
         = has_column c df.
Proof.
  intros Hcols.
  destruct (build_literacy_columns df out Hcols) as (df' & B & Hs & K).
  exists df'. split; [exact B|]. split.
  - rewrite build_age_group_keeps by discriminate. exact Hs.
  - intros c N S. rewrite build_age_group_keeps by exact N.
    apply (build_literacy_same df df' out out c B Hcols S).
Qed.

Lemma age_group_column (df df' : DataFrame) (out : list event) :
  forallb (fun c => has_column c df) LITERACY_COLS = true ->
  build_literacy df out = Ok df' out ->
  has_column "Age_group" (frame (build_age_group parse_number df'))
  = has_column "Age" df || has_column "Age_Category_Code" df
    || has_column "Age_group" df.
Proof.
  intros Hcols B.
  assert (S : forall c,
             forallb (fun n => negb (String.eqb c n)) score_columns = true ->
             has_column c df' = has_column c df)
    by (intros c S; apply (build_literacy_same df df' out out c B Hcols S)).
  rewrite <- (S "Age"), <- (S "Age_Category_Code"), <- (S "Age_group")
    by reflexivity.
  rewrite !(has_column_as_get _ df').
  rewrite has_column_as_get. unfold build_age_group.
  destruct (df_get "Age" df') as [a|] eqn:A.
  - cbn [frame]. rewrite df_get_setitem, String.eqb_refl. reflexivity.
  - destruct (df_get "Age_Category_Code" df') as [k|] eqn:C.
    + cbn [frame]. rewrite df_get_setitem, String.eqb_refl. reflexivity.
    + cbn [frame]. reflexivity.
Qed.

(** The events of the tables and bar charts. *)
Lemma tables_and_bars_run (df : DataFrame) (out : list event) :
  forallb (fun c => has_column c df) LITERACY_COLS = true ->
  has_column "Gender" df = true ->
  has_column "Age" df || has_column "Age_Category_Code" df
  || has_column "Age_group" df = true ->
  (forall s, df_get "Gender" df = Some s -> mixes s = false) ->
  exists st age_tbl gender_tbl age_gender_tbl region_tbl division_tbl,
    tables_and_bars parse_number observed df out
    = Ok st
        (out
         ++ [Printed "=== Literacy by Age Group ===" age_tbl;
             Printed "=== Literacy by Gender ===" gender_tbl;
             Printed "=== Literacy by Age × Gender ===" age_gender_tbl;
             Saved "literacy_by_age.png";
             Saved "literacy_by_gender.png";
             Saved "literacy_by_age_gender.png"]
         ++ geo_events "Census_Region" "=== Literacy by Region ==="
              "literacy_by_region.png" (has_column "Census_Region" df)
              region_tbl
         ++ geo_events "Census_Division" "=== Literacy by Division ==="
              "literacy_by_division.png" (has_column "Census_Division" df)
              division_tbl)%list
    /\ has_column "literacy_score" (frame st) = true
    /\ has_column "Census_Region" (frame st) = has_column "Census_Region" df
    /\ has_column "Census_Division" (frame st)
       = has_column "Census_Division" df.
Proof.
  intros Hcols Hg Ha Hm.
  destruct (scored_state df out Hcols) as (df' & B & Hs' & K).
  pose proof (age_group_column df df' out Hcols B) as Ha'.
  rewrite Ha in Ha'.
  assert (Gg : df_get "Gender" (frame (build_age_group parse_number df'))
               = df_get "Gender" df).
  { rewrite build_age_group_get by discriminate.
    apply (build_literacy_get df df' out out "Gender" B).
    unfold score_columns. cbn [In]. intuition discriminate. }
  pose proof (build_age_group_categories parse_number df') as Hc.
  set (st := build_age_group parse_number df') in *.
  assert (Hg' : has_column "Gender" (frame st) = true)
    by (rewrite K; [exact Hg|discriminate|reflexivity]).
  assert (Hr : has_column "Census_Region" (frame st)
               = has_column "Census_Region" df)
    by (apply K; [discriminate|reflexivity]).
  assert (Hd : has_column "Census_Division" (frame st)
               = has_column "Census_Division" df)
    by (apply K; [discriminate|reflexivity]).
  assert (Hm' : forall s, df_get "Gender" (frame st) = Some s ->
                          mixes s = false)
    by (intros s G; apply Hm; rewrite <- Gg; exact G).
  destruct (report_age_gender_ok observed st out Ha' Hg' Hs' Hc Hm')
    as (t1 & t2 & t3 & E1).
  match type of E1 with _ = Ok tt ?o =>
    destruct (report_geo_ok observed "Census_Region"
                "=== Literacy by Region ==="
                "literacy_by_region.png" st o Hs') as (t4 & E2);
    match type of E2 with _ = Ok tt ?o2 =>
      destruct (report_geo_ok observed "Census_Division"
                  "=== Literacy by Division ==="
                  "literacy_by_division.png" st o2 Hs') as (t5 & E3)
    end
  end.
  exists st, t1, t2, t3, t4, t5.
  split; [|split; [exact Hs'|split; assumption]].
  unfold tables_and_bars.
  rewrite (bind_ok _ _ df' out out) by exact B.
  cbv zeta. fold st.
  erewrite bind_ok by exact E1.
  erewrite bind_ok by exact E2.
  erewrite bind_ok by exact E3.
  rewrite Hr, Hd. unfold ret. rewrite <- !app_assoc. reflexivity.
Qed.

Lemma boxplots_run (st : frame_state) (out : list event) :
  has_column "literacy_score" (frame st) = true ->
  boxplots st out
  = if has_column "Census_Region" (frame st)
    then if has_column "Census_Division" (frame st)
         then Ok tt (out ++ [Saved "literacy_boxplot_region.png";
                             Saved "literacy_boxplot_division.png"])%list
         else Raised (ValueError "Census_Division")
                     (out ++ [Saved "literacy_boxplot_region.png"])%list
    else Raised (ValueError "Census_Region") out.
Proof.
  intros Hs. unfold boxplots, boxplot, bind. rewrite Hs.
  destruct (has_column "Census_Region" (frame st)); [|reflexivity].
  rewrite emit_ok.
  destruct (has_column "Census_Division" (frame st)); [|reflexivity].
  rewrite emit_ok, <- app_assoc. reflexivity.
Qed.

(** X14.  How a run ends.  On a frame with the five question columns, a
    Gender column that does not mix numbers and texts, and a source of age
    groups, the script finishes exactly when
    both Census_Region and Census_Division are columns, and then it has
    saved the seven charts in order.  Without Census_Region it stops at
    the region box plot with a ValueError; with Census_Region but without
    Census_Division it stops at the division box plot. *)
Theorem analysis_run_outcome (df : DataFrame) :
  forallb (fun c => has_column c df) LITERACY_COLS = true ->
  has_column "Gender" df = true ->
  has_column "Age" df || has_column "Age_Category_Code" df
  || has_column "Age_group" df = true ->
  (forall s, df_get "Gender" df = Some s -> mixes s = false) ->
  (raised (analysis parse_number observed df []) = None
   <-> has_column "Census_Region" df = true
       /\ has_column "Census_Division" df = true)
  /\ (has_column "Census_Region" df = false ->
      raised (analysis parse_number observed df [])
      = Some (ValueError "Census_Region"))
  /\ (has_column "Census_Region" df = true ->
      has_column "Census_Division" df = false ->
      raised (analysis parse_number observed df [])
      = Some (ValueError "Census_Division"))
  /\ (raised (analysis parse_number observed df []) = None ->
      saved_files (output (analysis parse_number observed df []))
      = all_charts).
Proof.
  intros Hcols Hg Ha Hm.
  destruct (tables_and_bars_run df [] Hcols Hg Ha Hm)
    as (st & t1 & t2 & t3 & t4 & t5 & E & Hs & Hr & Hd).
  match type of E with _ = Ok st ([] ++ ?l)%list => set (evs := l) in * end.
  assert (Sv : saved_files evs
               = bar_charts (has_column "Census_Region" df)
                            (has_column "Census_Division" df)).
  { unfold evs. rewrite !saved_files_app, !saved_files_geo. reflexivity. }
  assert (A : analysis parse_number observed df []
              = boxplots st ([] ++ evs)%list).
  { unfold analysis. apply bind_ok. exact E. }
  clearbody evs.
  rewrite A, (boxplots_run st _ Hs), Hr, Hd. cbn [app].
  destruct (has_column "Census_Region" df),
    (has_column "Census_Division" df); cbn [raised output];
    (split; [split; [intros; try discriminate; tauto
                    |intros [? ?]; try discriminate; reflexivity]|]);
    (split; [intros; try discriminate; reflexivity|]);
    (split; [intros; try discriminate; reflexivity|]);
    intros; try discriminate.
  rewrite saved_files_app, Sv. reflexivity.
Qed.





End Runs.

Lemma analysis_run_outcome_witness :
  forallb (fun c => has_column c full_sample) LITERACY_COLS = true
  /\ has_column "Gender" full_sample = true
  /\ has_column "Age" full_sample || has_column "Age_Category_Code" full_sample
     || has_column "Age_group" full_sample = true
  /\ (forall s, df_get "Gender" full_sample = Some s -> mixes s = false)
  /\ has_column "Census_Region" full_sample = true
  /\ has_column "Census_Division" full_sample = true
  /\ raised (analysis parse_whole false full_sample []) = None
  /\ saved_files (output (analysis parse_whole false full_sample []))
     = all_charts.
Proof.
  assert (H1 : forallb (fun c => has_column c full_sample) LITERACY_COLS
               = true) by (vm_compute; reflexivity).
  assert (H2 : has_column "Gender" full_sample = true)
    by (vm_compute; reflexivity).
  assert (H3 : has_column "Age" full_sample
               || has_column "Age_Category_Code" full_sample
               || has_column "Age_group" full_sample = true)
    by (vm_compute; reflexivity).
  assert (H4 : has_column "Census_Region" full_sample = true)
    by (vm_compute; reflexivity).
  assert (H5 : has_column "Census_Division" full_sample = true)
    by (vm_compute; reflexivity).
  assert (Hm : forall s, df_get "Gender" full_sample = Some s ->
                         mixes s = false).
  { intros s G. vm_compute in G. injection G as <-. reflexivity. }
  split; [exact H1|]. split; [exact H2|]. split; [exact H3|].
  split; [exact Hm|]. split; [exact H4|]. split; [exact H5|].
  destruct (analysis_run_outcome parse_whole false full_sample H1 H2 H3 Hm)
    as (R & _ & _ & S).
  assert (N : raised (analysis parse_whole false full_sample []) = None)
    by (apply R; split; assumption).
  split; [exact N|exact (S N)].
Defined.





(** ** The numbers of a summary row *)

Lemma aggregate_var_nonneg (k : list cell) (vals : list Z) (v : Q) :
  row_var (aggregate k vals) = Some v -> (0 <= v)%Q.
Proof.
  cbn [aggregate row_var].
  destruct (Z.of_nat (length vals) <=? 1) eqn:C; [discriminate|].
  intros [= <-]. apply Z.leb_gt in C.
  apply Qle_shift_div_l.
  - change 0%Q with (inject_Z 0). rewrite <- Zlt_Qlt. lia.
  - rewrite Qmult_0_l. apply sq_dev_nonneg.
Qed.

Lemma sqrt_count_ge_1 (n : Z) : 1 <= n -> (1 <= sqrt (IZR n))%R.
Proof.
  intros L. rewrite <- sqrt_1 at 1. apply sqrt_le_1_alt.
  apply IZR_le. exact L.
Qed.

(** X17.  The numbers of a summary row.  In every row of a table, [n] is
    not negative, the mean is missing exactly when [n = 0], the standard
    deviation exactly when [n <= 1], the variance is not negative, and the
    standard error is the deviation over the square root of [n] itself:
    the guard [clip(lower=1)] never changes a value.  A standard error that
    is there lies between 0 and the deviation. *)
Theorem summary_row_bounds (observed : bool) (group_cols : list string)
        (st : frame_state) (tbl : list summary_row) (out out' : list event)
        (r : summary_row) :
  summarize observed group_cols st out = Ok tbl out' ->
  In r tbl ->
  0 <= row_n r
  /\ (row_mean r = None <-> row_n r = 0)
  /\ (row_std r = None <-> row_n r <= 1)
  /\ row_se r
     = option_map (fun sd => (sd / sqrt (IZR (row_n r)))%R) (row_std r)
  /\ (forall v, row_var r = Some v -> (0 <= v)%Q)
  /\ (forall sd se, row_std r = Some sd -> row_se r = Some se ->
                    (0 <= se <= sd)%R).
Proof.
  intros E I.
  destruct (summarize_inv observed group_cols st tbl out out' E)
    as (cols & scores & _ & _ & _ & ->).
  apply in_map_iff in I. destruct I as (k & <- & _).
  set (vals := group_values scores (members cols (nrows (frame st)) k)).
  assert (N0 : 0 <= Z.of_nat (length vals)) by lia.
  assert (Estd : row_std (aggregate k vals) = None
                 <-> Z.of_nat (length vals) <= 1).
  { unfold row_std. cbn [aggregate row_var].
    destruct (Z.of_nat (length vals) <=? 1) eqn:C.
    - apply Z.leb_le in C. cbn [option_map]. tauto.
    - apply Z.leb_gt in C. cbn [option_map]. split; [discriminate|lia]. }
  assert (Ese : row_se (aggregate k vals)
                = option_map
                    (fun sd => (sd / sqrt (IZR (Z.of_nat (length vals))))%R)
                    (row_std (aggregate k vals))).
  { unfold row_se. cbn [aggregate row_n].
    destruct (row_std (aggregate k vals)) as [sd|] eqn:S; [|reflexivity].
    cbn [option_map]. f_equal. f_equal. f_equal. f_equal.
    destruct (Z.le_gt_cases (Z.of_nat (length vals)) 1) as [L|G].
    - apply Estd in L. fold vals in S. congruence.
    - lia. }
  cbn [aggregate row_n row_mean]. fold vals.
  split; [exact N0|]. split; [|split; [exact Estd|split; [exact Ese|split]]].
  - destruct (Z.eqb_spec (Z.of_nat (length vals)) 0) as [Z0|NZ].
    + tauto.
    + split; [discriminate|]. intros Z0. contradiction.
  - intros v V. apply (aggregate_var_nonneg k vals v V).
  - intros sd se S1 S2.
    assert (G : 1 < Z.of_nat (length vals)).
    { destruct (Z.le_gt_cases (Z.of_nat (length vals)) 1) as [L|G]; [|lia].
      apply Estd in L. congruence. }
    rewrite Ese, S1 in S2. cbn [option_map] in S2. injection S2 as <-.
    assert (P : (0 <= sd)%R).
    { unfold row_std in S1. destruct (row_var (aggregate k vals)) as [v|];
        [|discriminate]. cbn [option_map] in S1. injection S1 as <-.
      apply sqrt_pos. }
    clear Ese.
    pose proof (sqrt_count_ge_1 (Z.of_nat (length vals)) ltac:(lia)) as Q1.
    generalize dependent (sqrt (IZR (Z.of_nat (length vals)))).
    intros x Q1.
    assert (Ix : (0 < / x <= 1)%R).
    { split; [apply Rinv_0_lt_compat; Lra.lra|].
      rewrite <- Rinv_1. apply Rinv_le_contravar; Lra.lra. }
    unfold Rdiv. split; Lra.nra.
Qed.

Lemma summary_row_bounds_witness :
  summarize false ["Gender"] sample_state [] = Ok gender_table []
  /\ In male_row gender_table
  /\ row_n male_row = 2
  /\ (forall sd se, row_std male_row = Some sd -> row_se male_row = Some se ->
                    (0 <= se <= sd)%R).
Proof.
  assert (E : summarize false ["Gender"] sample_state [] = Ok gender_table [])
    by (vm_compute; reflexivity).
  assert (I : In male_row gender_table)
    by (vm_compute; right; left; reflexivity).
  split; [exact E|]. split; [exact I|]. split; [vm_compute; reflexivity|].
  exact (proj2 (proj2 (proj2 (proj2 (proj2
           (summary_row_bounds false ["Gender"] sample_state gender_table
              [] [] male_row E I)))))).
Defined.

(** ** Which groups a table lists *)

(** X18.  With [observed] on, or when no grouping column is categorical,
    a table lists only groups that occur: every row has the key of some
    respondent, a key without a missing cell, at least one respondent and
    a mean. *)
Theorem present_groups_only (observed : bool) (group_cols : list string)
        (st : frame_state) (tbl : list summary_row) (out out' : list event)
        (r : summary_row) :
  wf_state st = true ->
  observed = true
  \/ existsb (fun c => dict_has c (categories st)) group_cols = false ->
  summarize observed group_cols st out = Ok tbl out' ->
  In r tbl ->
  1 <= row_n r
  /\ key_missing (row_key r) = false
  /\ (exists m, row_mean r = Some m)
  /\ exists cols i,
       Forall2 (fun c s => df_get c (frame st) = Some s) group_cols cols
       /\ (i < nrows (frame st))%nat
       /\ key_at cols i = row_key r.
Proof.
  intros W O E I.
  destruct (summarize_inv observed group_cols st tbl out out' E)
    as (cols & scores & F & G & _ & ->).
  assert (W' := W). unfold wf_state in W'. apply andb_true_iff in W'.
  destruct W' as [Ws _].
  destruct (scores_ok_cells _ Ws) as (scores' & G' & Ls & Hs).
  rewrite G in G'. injection G' as <-.
  apply in_map_iff in I. destruct I as (k & <- & Ik).
  set (rows := nrows (frame st)) in *.
  assert (C : observed
              || negb (existsb (fun c => dict_has c (categories st))
                               group_cols) = true).
  { destruct O as [->| ->]; [reflexivity|apply orb_true_r]. }
  destruct (group_keys_occur observed (categories st) rows group_cols cols
              k C Ik) as (i & Ii & Ei & M).
  assert (Im : In i (members cols rows k)).
  { unfold members. apply filter_In. split; [apply in_seq; lia|].
    rewrite Ei. apply key_eqb_refl, M. }
  destruct (group_values_scores scores rows (members cols rows k) Hs
              (fun j J => members_in_range cols rows k j J)) as [Ev _].
  cbn [aggregate row_n row_key row_mean]. rewrite Ev, length_map.
  assert (L : 1 <= Z.of_nat (length (members cols rows k))).
  { destruct (members cols rows k); [destruct Im|cbn [length]; lia]. }
  split; [exact L|]. split; [exact M|]. split.
  - destruct (Z.eqb_spec (Z.of_nat (length (members cols rows k))) 0);
      [lia|eauto].
  - exists cols, i. split; [exact F|]. split; [lia|exact Ei].
Qed.

Lemma present_groups_only_witness :
  wf_state sample_state = true
  /\ existsb (fun c => dict_has c (categories sample_state)) ["Gender"] = false
  /\ summarize false ["Gender"] sample_state [] = Ok gender_table []
  /\ In female_row gender_table
  /\ 1 <= row_n female_row
  /\ key_missing (row_key female_row) = false.
Proof.
  assert (W : wf_state sample_state = true) by (vm_compute; reflexivity).
  assert (O : existsb (fun c => dict_has c (categories sample_state))
                      ["Gender"] = false) by (vm_compute; reflexivity).
  assert (E : summarize false ["Gender"] sample_state [] = Ok gender_table [])
    by (vm_compute; reflexivity).
  assert (I : In female_row gender_table)
    by (vm_compute; left; reflexivity).
  split; [exact W|]. split; [exact O|]. split; [exact E|]. split; [exact I|].
  destruct (present_groups_only false ["Gender"] sample_state gender_table
              [] [] female_row W (or_intror O) E I) as (L & M & _).
  split; assumption.
Defined.

Section Buckets.

Variable parse_number : string -> option Q.

(** X19.  With [observed] off and ages binned from the column Age, the
    table by age group has one row for each of the six buckets, in the
    order of the buckets, whether or not a respondent falls in it; a row
    has no mean exactly when its bucket is empty. *)
Theorem age_table_lists_every_bucket (df : DataFrame)
        (tbl : list summary_row) (out out' : list event) :
  has_column "Age" df = true ->
  summarize false ["Age_group"] (build_age_group parse_number df) out
  = Ok tbl out' ->
  map row_key tbl
  = [[Str "18-24"]; [Str "25-34"]; [Str "35-44"]; [Str "45-54"];
     [Str "55-64"]; [Str "65+"]]
  /\ forall r, In r tbl ->
       (row_n r = 0 <-> row_mean r = None).
Proof.
  intros A E.
  destruct (summarize_inv false ["Age_group"] _ tbl out out' E)
    as (cols & scores & F & G & _ & ->).
  apply has_column_get in A. destruct A as [age A].
  assert (C : categories (build_age_group parse_number df)
              = dict_lit [("Age_group", labels)])
    by (unfold build_age_group; rewrite A; reflexivity).
  inversion F as [|c s cs ss Hs F' E1 E2]. subst.
  inversion F'. subst. rewrite C. split.
  - rewrite map_map. cbn [aggregate row_key]. rewrite map_id.
    reflexivity.
  - intros r I. apply in_map_iff in I. destruct I as (k & <- & _).
    cbn [aggregate row_n row_mean].
    destruct (Z.eqb_spec (Z.of_nat (length (group_values scores
                 (members [s] (nrows (frame (build_age_group parse_number df)))
                          k)))) 0) as [Z0|NZ].
    + tauto.
    + split; [contradiction|discriminate].
Qed.

End Buckets.

Lemma age_table_lists_every_bucket_witness :
  has_column "Age" scored_sample = true
  /\ (exists tbl,
        summarize false ["Age_group"]
                  (build_age_group parse_whole scored_sample) []
        = Ok tbl []
        /\ map row_key tbl
           = [[Str "18-24"]; [Str "25-34"]; [Str "35-44"]; [Str "45-54"];
              [Str "55-64"]; [Str "65+"]]
        /\ map row_n tbl = [1; 0; 0; 0; 0; 1]).
Proof.
  assert (A : has_column "Age" scored_sample = true)
    by (vm_compute; reflexivity).
  split; [exact A|].
  exists (table_of (summarize false ["Age_group"]
                      (build_age_group parse_whole scored_sample) [])).
  assert (E : summarize false ["Age_group"]
                (build_age_group parse_whole scored_sample) []
              = Ok (table_of (summarize false ["Age_group"]
                      (build_age_group parse_whole scored_sample) []))
                   []) by (vm_compute; reflexivity).
  split; [exact E|].
  split; [|vm_compute; reflexivity].
  exact (proj1 (age_table_lists_every_bucket parse_whole scored_sample
                  _ [] [] A E)).
Defined.

(** ** The scoring step leaves the answers alone *)

(** X20.  The scoring step only adds: when it succeeds, every column
    other than the six it writes reads as before, the six are there, and
    nothing has been printed or saved. *)
Theorem build_literacy_keeps_columns (df df' : DataFrame)
        (out out' : list event) (c : string) :
  build_literacy df out = Ok df' out' ->
  ~ In c score_columns ->
  df_get c df' = df_get c df
  /\ out' = out
  /\ forallb (fun n => has_column n df') score_columns = true.
Proof.
  intros B N.
  pose proof (build_literacy_inv df df' out out' B) as Hcols.
  cbn [forallb LITERACY_COLS] in Hcols.
  repeat (apply andb_true_iff in Hcols;
          let H := fresh "P" in destruct Hcols as [H Hcols]).
  apply has_column_get in P, P0, P1, P2, P3.
  destruct P as [s1 G1], P0 as [s2 G2], P1 as [s3 G3], P2 as [s4 G4],
    P3 as [s5 G5].
  rewrite (build_literacy_frame df out s1 s2 s3 s4 s5 G1 G2 G3 G4 G5) in B.
  injection B as <- <-.
  split; [|split; [reflexivity|]].
  - unfold score_columns in N. cbn [In] in N.
    rewrite !df_get_setitem.
    repeat match goal with
      | |- context [String.eqb c ?n] =>
          destruct (String.eqb_spec c n) as [->|?]; [exfalso; tauto|]
      end.
    reflexivity.
  - unfold score_columns. cbn [forallb]. rewrite !has_column_setitem.
    eval_labels. rewrite ?orb_true_r. reflexivity.
Qed.

Lemma build_literacy_keeps_columns_witness :
  (exists df',
      build_literacy survey_sample [] = Ok df' []
      /\ df_get "Gender" df' = df_get "Gender" survey_sample
      /\ df_get "literacy_score" df' = Some [Int 5; Int 0; Int 2]).
Proof.
  exists scored_sample.
  assert (B : build_literacy survey_sample [] = Ok scored_sample []).
  { vm_compute. reflexivity. }
  split; [exact B|]. split; [|vm_compute; reflexivity].
  refine (proj1 (build_literacy_keeps_columns survey_sample
                   scored_sample [] [] "Gender" B _)).
  unfold score_columns. cbn [In]. intuition discriminate.
Defined.
